(** * gomini: a shallow embedding of the container runtime core

    The development follows the Go packages of the repository: [util]
    (error values), [ns] (namespace flags, wait-status translation),
    [spec] (the bundle configuration), [fs] (root file system), [cg]
    (control groups), [proc] (the container process) and the [run]
    command of package main.  Before them come the parts of Go's
    library they rest on (UTF-8, JSON for a list of strings, number
    parsing) and a model of the operating system as the program sees
    it: a program is a tree of system calls, and every property is
    proved for all answers the system may give. *)

From Stdlib Require Import ZArith List String Ascii Bool Lia Permutation DecimalString.
Import ListNotations.
Local Open Scope string_scope.
Local Open Scope Z_scope.

(** ** Go values

    A Go [string] is a sequence of bytes: [string] with one [ascii] per
    byte.  A Go slice can be [nil], which differs from an empty slice
    ([env == nil], JSON [null]): [None] is the nil slice. *)

Definition slice (A : Type) : Type := option (list A).

Definition len {A : Type} (s : slice A) : nat :=
  match s with
  | None => 0%nat
  | Some l => List.length l
  end.

Definition elems {A : Type} (s : slice A) : list A :=
  match s with
  | None => []
  | Some l => l
  end.

(** A file name.  [filepath.Join] is kept as written in the source: of
    [Join p elem] the development only uses that it is determined by
    [p] and [elem] and that joining two different last elements to one
    directory names two different files. *)
Inductive path : Type :=
| Lit (s : string)
| Join (p : path) (elem : string).

(** The values of Go's [error] interface the program builds or
    receives.  [Errno] is an error reported by the operating system,
    [ErrorString] comes from [errors.New] and from [fmt.Errorf] without
    a wrapped error, [NumError] from package strconv, [ContainerError]
    is the struct of package util and [Wrapped] the result of
    [fmt.Errorf("%s: %w", op, err)].  A nil error is [None] of
    [option error]. *)
Inductive error : Type :=
| Errno (code : Z)
| ErrorString (msg : string)
| NumError (Func Num : string) (Err : error)
| ContainerError (Op : string) (Path : path) (Err : error)
| Wrapped (op : string) (err : error).

(** ** Package util (internal/util/errors.go) *)

Module util.

Definition NewError (op : string) (err : error) : error :=
  ContainerError op (Lit "") err.

Definition NewSimpleError (op message : string) : error :=
  ContainerError op (Lit "") (ErrorString message).

Definition NewPathError (op : string) (p : path) (err : error) : error :=
  ContainerError op p err.

Definition WrapError (op : string) (err : option error) : option error :=
  match err with
  | None => None
  | Some e => Some (Wrapped op e)
  end.

(** The method [Unwrap] of [ContainerError], as [errors.Unwrap] calls it; the
    errors of [fmt.Errorf] with [%w] and of package strconv give the
    error they wrap in the same way, the others have nothing to
    unwrap. *)
Definition Unwrap (err : error) : option error :=
  match err with
  | ContainerError _ _ e | Wrapped _ e | NumError _ _ e => Some e
  | Errno _ | ErrorString _ => None
  end.

End util.

(** ** Bytes and package unicode/utf8

    [syscall], [encoding/json] and [unicode/utf8] belong to Go's
    library; the parts the program reaches are written out after their
    sources. *)

Definition byteOf (c : ascii) : Z := Z.of_nat (nat_of_ascii c).

(** The conversion [byte(x)] keeps the low eight bits. *)
Definition toByte (x : Z) : ascii := ascii_of_nat (Z.to_nat (Z.land x 0xFF)).

Fixpoint skip (n : nat) (s : string) : string :=
  match n, s with
  | O, _ => s
  | S n', String _ rest => skip n' rest
  | S _, EmptyString => EmptyString
  end.

Module utf8.

Definition RuneError : Z := 0xFFFD.
Definition RuneSelf : Z := 0x80.
Definition MaxRune : Z := 0x10FFFF.
Definition surrogateMin : Z := 0xD800.
Definition surrogateMax : Z := 0xDFFF.

Definition t2 : Z := 0xC0.
Definition t3 : Z := 0xE0.
Definition t4 : Z := 0xF0.
Definition tx : Z := 0x80.
Definition maskx : Z := 0x3F.
Definition mask2 : Z := 0x1F.
Definition mask3 : Z := 0x0F.
Definition mask4 : Z := 0x07.
Definition rune1Max : Z := 0x7F.
Definition rune2Max : Z := 0x7FF.
Definition rune3Max : Z := 0xFFFF.
Definition locb : Z := 0x80.
Definition hicb : Z := 0xBF.

(** The entries of the table [first]: the low three bits are the
    length of the sequence, the high four the index into
    [acceptRanges]. *)
Definition xx : Z := 0xF1.
Definition as_ : Z := 0xF0.
Definition s1 : Z := 0x02.
Definition s2 : Z := 0x13.
Definition s3 : Z := 0x03.
Definition s4 : Z := 0x23.
Definition s5 : Z := 0x34.
Definition s6 : Z := 0x04.
Definition s7 : Z := 0x44.

Definition first (b : Z) : Z :=
  if b <? 0x80 then as_
  else if b <? 0xC2 then xx
  else if b <? 0xE0 then s1
  else if b =? 0xE0 then s2
  else if b <? 0xED then s3
  else if b =? 0xED then s4
  else if b <? 0xF0 then s3
  else if b =? 0xF0 then s5
  else if b <? 0xF4 then s6
  else if b =? 0xF4 then s7
  else xx.

Definition acceptRanges (i : Z) : Z * Z :=
  if i =? 0 then (locb, hicb)
  else if i =? 1 then (0xA0, hicb)
  else if i =? 2 then (locb, 0x9F)
  else if i =? 3 then (0x90, hicb)
  else if i =? 4 then (locb, 0x8F)
  else (0, 0).

(** [utf8.DecodeRune] and [utf8.DecodeRuneInString]: the first rune of
    [s] and its width in bytes; [(RuneError, 1)] for an invalid
    sequence, [(RuneError, 0)] for the empty string.  The test
    [n < sz] of the source is the [EmptyString] case of each match: a
    sequence cut short by the end of the string is invalid. *)
Definition DecodeRune (s : string) : Z * nat :=
  match s with
  | EmptyString => (RuneError, 0%nat)
  | String c0 rest0 =>
      let b0 := byteOf c0 in
      let x := first b0 in
      if as_ <=? x then
        (if x =? as_ then b0 else RuneError, 1%nat)
      else
        let sz := Z.land x 7 in
        let accept := acceptRanges (Z.shiftr x 4) in
        match rest0 with
        | EmptyString => (RuneError, 1%nat)
        | String c1 rest1 =>
            let b1 := byteOf c1 in
            if (b1 <? fst accept) || (snd accept <? b1) then (RuneError, 1%nat)
            else if sz <=? 2 then
              (Z.lor (Z.shiftl (Z.land b0 mask2) 6) (Z.land b1 maskx), 2%nat)
            else
              match rest1 with
              | EmptyString => (RuneError, 1%nat)
              | String c2 rest2 =>
                  let b2 := byteOf c2 in
                  if (b2 <? locb) || (hicb <? b2) then (RuneError, 1%nat)
                  else if sz <=? 3 then
                    (Z.lor (Z.lor (Z.shiftl (Z.land b0 mask3) 12)
                                  (Z.shiftl (Z.land b1 maskx) 6))
                           (Z.land b2 maskx), 3%nat)
                  else
                    match rest2 with
                    | EmptyString => (RuneError, 1%nat)
                    | String c3 _ =>
                        let b3 := byteOf c3 in
                        if (b3 <? locb) || (hicb <? b3) then (RuneError, 1%nat)
                        else
                          (Z.lor (Z.lor (Z.lor (Z.shiftl (Z.land b0 mask4) 18)
                                               (Z.shiftl (Z.land b1 maskx) 12))
                                        (Z.shiftl (Z.land b2 maskx) 6))
                                 (Z.land b3 maskx), 4%nat)
                    end
              end
        end
  end.

(** [utf8.EncodeRune] and [utf8.AppendRune]: the bytes of rune [r];
    a rune out of range or a surrogate half is written as
    [RuneError]. *)
Definition encode3 (r : Z) : string :=
  String (toByte (Z.lor t3 (Z.shiftr r 12)))
    (String (toByte (Z.lor tx (Z.land (Z.shiftr r 6) maskx)))
       (String (toByte (Z.lor tx (Z.land r maskx))) EmptyString)).

Definition EncodeRune (r : Z) : string :=
  if (0 <=? r) && (r <=? rune1Max) then String (toByte r) EmptyString
  else if (0 <=? r) && (r <=? rune2Max) then
    String (toByte (Z.lor t2 (Z.shiftr r 6)))
      (String (toByte (Z.lor tx (Z.land r maskx))) EmptyString)
  else if (r <? 0) || (MaxRune <? r) || ((surrogateMin <=? r) && (r <=? surrogateMax)) then
    encode3 RuneError
  else if r <=? rune3Max then encode3 r
  else
    String (toByte (Z.lor t4 (Z.shiftr r 18)))
      (String (toByte (Z.lor tx (Z.land (Z.shiftr r 12) maskx)))
         (String (toByte (Z.lor tx (Z.land (Z.shiftr r 6) maskx)))
            (String (toByte (Z.lor tx (Z.land r maskx))) EmptyString))).

(** One step of [for _, r := range s]: the bytes the next rune takes,
    and what a conversion through runes writes for them. *)
Definition width (s : string) : nat := snd (DecodeRune s).

(** [utf8.ValidString], and the string with every invalid byte
    replaced by the bytes of [RuneError] (what [string([]rune(s))]
    gives); both walk the string rune by rune. *)
Fixpoint validFrom (fuel : nat) (s : string) : bool :=
  match s, fuel with
  | EmptyString, _ => true
  | _, O => true
  | _, S fuel' =>
      let (r, size) := DecodeRune s in
      if (r =? RuneError) && (size =? 1)%nat then false
      else validFrom fuel' (skip size s)
  end.

Definition ValidString (s : string) : bool := validFrom (String.length s) s.

Fixpoint coerceFrom (fuel : nat) (s : string) : string :=
  match s, fuel with
  | EmptyString, _ => EmptyString
  | _, O => EmptyString
  | _, S fuel' =>
      let (r, size) := DecodeRune s in
      (EncodeRune r ++ coerceFrom fuel' (skip size s))%string
  end.

Definition ToValid (s : string) : string := coerceFrom (String.length s) s.

End utf8.

(** ** Package encoding/json, for a value of type [[]string] *)

Module utf16.

Definition surr1 : Z := 0xD800.
Definition surr2 : Z := 0xDC00.
Definition surr3 : Z := 0xE000.
Definition surrSelf : Z := 0x10000.
Definition replacementChar : Z := 0xFFFD.

Definition IsSurrogate (r : Z) : bool := (surr1 <=? r) && (r <? surr3).

Definition DecodeRune (r1 r2 : Z) : Z :=
  if (surr1 <=? r1) && (r1 <? surr2) && (surr2 <=? r2) && (r2 <? surr3) then
    Z.lor (Z.shiftl (r1 - surr1) 10) (r2 - surr2) + surrSelf
  else replacementChar.

End utf16.

Module json.

Definition dquote : ascii := "034".
Definition backslash : ascii := "\".

Definition hex : string := "0123456789abcdef".

Definition hexDigit (n : Z) : ascii :=
  match String.get (Z.to_nat n) hex with
  | Some c => c
  | None => "0"%char
  end.

(** The table [htmlSafeSet]: the ASCII bytes [Marshal] copies as they
    are. *)
Definition htmlSafeSet (b : Z) : bool :=
  (0x20 <=? b) && (b <? 0x80)
  && negb (b =? 0x22) && negb (b =? 0x26) && negb (b =? 0x3C)
  && negb (b =? 0x3E) && negb (b =? 0x5C).

(** One turn of the loop of [appendString] at a non-empty rest [s] of
    the source string: the bytes written for its first rune, and the
    rest after it.  (The source copies a run of unescaped bytes at
    once, from [start] to [i]; here each is written as it is met.) *)
Definition appendStep (s : string) : string * string :=
  match s with
  | EmptyString => (EmptyString, EmptyString)
  | String c rest =>
      let b := byteOf c in
      if b <? utf8.RuneSelf then
        if htmlSafeSet b then (String c EmptyString, rest)
        else if (b =? 0x5C) || (b =? 0x22) then
          (String backslash (String c EmptyString), rest)
        else if b =? 0x08 then ("\b"%string, rest)
        else if b =? 0x0C then ("\f"%string, rest)
        else if b =? 0x0A then ("\n"%string, rest)
        else if b =? 0x0D then ("\r"%string, rest)
        else if b =? 0x09 then ("\t"%string, rest)
        else
          (("\u00" ++ String (hexDigit (Z.shiftr b 4))
                        (String (hexDigit (Z.land b 0xF)) EmptyString))%string,
           rest)
      else
        let (r, size) := utf8.DecodeRune s in
        if (r =? utf8.RuneError) && (size =? 1)%nat then
          ("\ufffd"%string, skip size s)
        else if (r =? 0x2028) || (r =? 0x2029) then
          (("\u202" ++ String (hexDigit (Z.land r 0xF)) EmptyString)%string,
           skip size s)
        else (String.substring 0 size s, skip size s)
  end.

Fixpoint appendLoop (fuel : nat) (s : string) : string :=
  match s, fuel with
  | EmptyString, _ => EmptyString
  | _, O => EmptyString
  | _, S fuel' =>
      let (out, rest) := appendStep s in
      (out ++ appendLoop fuel' rest)%string
  end.

(** [appendString(dst, src, escapeHTML = true)]: the quoted form. *)
Definition appendString (src : string) : string :=
  String dquote (appendLoop (String.length src) src ++ String dquote EmptyString).

Fixpoint joinWith (sep : string) (l : list string) : string :=
  match l with
  | [] => EmptyString
  | [x] => x
  | x :: rest => (x ++ sep ++ joinWith sep rest)%string
  end.

(** [json.Marshal(v)] for [v] of type [[]string]; it cannot fail.  A
    nil slice is written as [null]. *)
Definition Marshal (v : slice string) : string :=
  match v with
  | None => "null"%string
  | Some l => ("[" ++ joinWith "," (map appendString l) ++ "]")%string
  end.

(** *** Decoding *)

Definition isSpace (c : ascii) : bool :=
  let b := byteOf c in
  (b =? 0x20) || (b =? 0x09) || (b =? 0x0D) || (b =? 0x0A).

Fixpoint skipSpace (s : string) : string :=
  match s with
  | EmptyString => EmptyString
  | String c rest => if isSpace c then skipSpace rest else s
  end.

Definition hexValue (c : ascii) : Z :=
  let b := byteOf c in
  if (0x30 <=? b) && (b <=? 0x39) then b - 0x30
  else if (0x61 <=? b) && (b <=? 0x66) then b - 0x61 + 10
  else if (0x41 <=? b) && (b <=? 0x46) then b - 0x41 + 10
  else -1.

(** [getu4]: the rune of the six bytes [\uXXXX] at the head of [s],
    or -1. *)
Definition getu4 (s : string) : Z :=
  match s with
  | String c0 (String c1 (String h0 (String h1 (String h2 (String h3 _))))) =>
      if negb (byteOf c0 =? 0x5C) || negb (byteOf c1 =? 0x75) then -1
      else if (hexValue h0 <? 0) || (hexValue h1 <? 0)
              || (hexValue h2 <? 0) || (hexValue h3 <? 0) then -1
      else ((hexValue h0 * 16 + hexValue h1) * 16 + hexValue h2) * 16 + hexValue h3
  | _ => -1
  end.

(** One turn of the loop of [unquoteBytes] inside a string literal,
    together with what the scanner accepts there: the closing quote,
    the bytes one unit of the literal stands for, or a syntax error. *)
Inductive Step : Type :=
| Close (rest : string)
| Emit (out rest : string)
| Invalid.

Definition unquoteStep (s : string) : Step :=
  match s with
  | EmptyString => Invalid
  | String c rest =>
      let b := byteOf c in
      if b =? 0x22 then Close rest
      else if b =? 0x5C then
        match rest with
        | EmptyString => Invalid
        | String e rest' =>
            let x := byteOf e in
            if (x =? 0x22) || (x =? 0x5C) || (x =? 0x2F) then
              Emit (String e EmptyString) rest'
            else if x =? 0x62 then Emit (String (toByte 0x08) EmptyString) rest'
            else if x =? 0x66 then Emit (String (toByte 0x0C) EmptyString) rest'
            else if x =? 0x6E then Emit (String (toByte 0x0A) EmptyString) rest'
            else if x =? 0x72 then Emit (String (toByte 0x0D) EmptyString) rest'
            else if x =? 0x74 then Emit (String (toByte 0x09) EmptyString) rest'
            else if x =? 0x75 then
              let rr := getu4 s in
              if rr <? 0 then Invalid
              else
                let after := skip 6 s in
                if utf16.IsSurrogate rr then
                  let dec := utf16.DecodeRune rr (getu4 after) in
                  if negb (dec =? utf16.replacementChar) then
                    Emit (utf8.EncodeRune dec) (skip 6 after)
                  else Emit (utf8.EncodeRune utf16.replacementChar) after
                else Emit (utf8.EncodeRune rr) after
            else Invalid
        end
      else if b <? 0x20 then Invalid
      else if b <? utf8.RuneSelf then Emit (String c EmptyString) rest
      else
        let (rr, size) := utf8.DecodeRune s in
        Emit (utf8.EncodeRune rr) (skip size s)
  end.

(** The literal whose opening quote has been read: its value and the
    input after its closing quote. *)
Fixpoint unquoteLoop (fuel : nat) (s acc : string) : option (string * string) :=
  match fuel with
  | O => None
  | S fuel' =>
      match unquoteStep s with
      | Close rest => Some (acc, rest)
      | Emit out rest => unquoteLoop fuel' rest (acc ++ out)%string
      | Invalid => None
      end
  end.

(** An element of the array: a string literal, or [null], which leaves
    the zero value in a [string]. *)
Definition element (fuel : nat) (s : string) : option (string * string) :=
  match s with
  | String c rest =>
      if byteOf c =? 0x22 then unquoteLoop fuel rest EmptyString
      else if String.prefix "null" s then Some (EmptyString, skip 4 s)
      else None
  | EmptyString => None
  end.

Fixpoint elements (fuel : nat) (s : string) (acc : list string) : option (list string) :=
  match fuel with
  | O => None
  | S fuel' =>
      match element fuel' s with
      | None => None
      | Some (v, rest) =>
          match skipSpace rest with
          | String c rest' =>
              if byteOf c =? 0x2C then elements fuel' (skipSpace rest') (acc ++ [v])%list
              else if byteOf c =? 0x5D then
                match skipSpace rest' with
                | EmptyString => Some (acc ++ [v])%list
                | _ => None
                end
              else None
          | EmptyString => None
          end
      end
  end.

(** Go reports a [SyntaxError] for input that is not JSON and an
    [UnmarshalTypeError] for JSON that is not an array of strings; the
    caller only tests the error against nil. *)
Definition decodeError : error := ErrorString "json: cannot unmarshal into []string".

(** [json.Unmarshal(data, &args)] for [var args []string]: the value
    of [args] afterwards, or the error.  [null] leaves [args] nil, an
    empty array makes it empty and not nil. *)
Definition Unmarshal (data : string) : slice string + error :=
  let fuel := S (String.length data) in
  match skipSpace data with
  | String c rest =>
      if byteOf c =? 0x5B then
        match skipSpace rest with
        | String c' rest' =>
            if byteOf c' =? 0x5D then
              match skipSpace rest' with
              | EmptyString => inl (Some [])
              | _ => inr decodeError
              end
            else
              match elements fuel (skipSpace rest) [] with
              | Some l => inl (Some l)
              | None => inr decodeError
              end
        | EmptyString => inr decodeError
        end
      else if String.prefix "null" (String c rest) then
        match skipSpace (skip 4 (String c rest)) with
        | EmptyString => inl None
        | _ => inr decodeError
        end
      else inr decodeError
  | EmptyString => inr decodeError
  end.

End json.

(** ** The operating system, as the program sees it

    The packages below reach the operating system through a fixed set
    of calls.  A program is a tree of such calls; what a call answers is
    decided by the system, here an arbitrary function of the history of
    the run.  Running a program yields the list of calls made, with
    their answers, and the way control ended. *)

Module sysio.

(** [exec.Cmd] as [runWithPIDNamespace] fills it. *)
Record Cmd : Type := {
  CmdPath : string;
  CmdArgs : list string;
  CmdEnv : list string;
  Cloneflags : Z;
  ExtraFiles : list Z
}.

Inductive Call : Type :=
| Stat (name : path)
| MkdirAll (p : path) (perm : Z)
| RemoveAll (p : path)
| ReadFile (name : path)
| WriteFile (name : path) (data : string) (perm : Z)
| Chdir (p : path)
| Chroot (p : path)
| Pivot_root (newroot putold : path)
| Unmount (target : path) (flags : Z)
| Mount (source : string) (target : path) (fstype : string) (flags : Z) (data : string)
| Sethostname (name : string)
| Unshare (flags : Z)
| FprintfStderr (format : string) (err : error)
| Printf (format : string) (arg : string)
| Getenv (key : string)
| Pipe
| Close (fd : Z)
| Environ
| Start (cmd : Cmd)
| Wait (cmd : Cmd)
| Wait4 (pid : Z).

(** What a call gives back to the program.  [ReadFile] gives the data
    or an error, [Pipe] the two descriptors or an error, [Start] the
    process id of the child or an error, [Wait4] the wait status it
    stored or an error, [Getenv] and [Environ] the environment; writing to the standard streams gives nothing the
    program looks at; the others give an error or nil.
    [FprintfStderr format err] is [fmt.Fprintf(os.Stderr, format, err)]
    and [Printf format arg] is [fmt.Printf(format, arg)], the
    arguments kept unformatted. *)
Definition Reply (c : Call) : Type :=
  match c with
  | ReadFile _ => (string + error)%type
  | FprintfStderr _ _ => unit
  | Printf _ _ => unit
  | Getenv _ => string
  | Pipe => (Z * Z + error)%type
  | Environ => list string
  | Start _ => (Z + error)%type
  | Wait4 _ => (Z + error)%type
  | _ => option error
  end.

(** [DoExec] is [syscall.Exec], the one call that, when it succeeds,
    does not come back: its continuation takes the error of a failed
    attempt. *)
Inductive Prog (A : Type) : Type :=
| Ret (a : A)
| Do (c : Call) (k : Reply c -> Prog A)
| DoExec (argv0 : string) (argv envv : slice string) (k : error -> Prog A).

Arguments Ret {A} a.
Arguments Do {A} c k.
Arguments DoExec {A} argv0 argv envv k.

Fixpoint bind {A B : Type} (p : Prog A) (f : A -> Prog B) : Prog B :=
  match p with
  | Ret a => f a
  | Do c k => Do c (fun r => bind (k r) f)
  | DoExec b a e k => DoExec b a e (fun err => bind (k err) f)
  end.

Definition call (c : Call) : Prog (Reply c) := Do c (fun r => Ret r).

Definition exec (argv0 : string) (argv envv : slice string) : Prog error :=
  DoExec argv0 argv envv (fun err => Ret err).

Inductive Event : Type :=
| Ev (c : Call) (r : Reply c)
| EvExec (argv0 : string) (argv envv : slice string) (r : option error).

(** The system: the answer to a call, given the events so far.  For
    [syscall.Exec] the answer [None] is success: the process image is
    replaced. *)
Record OS : Type := {
  answer : list Event -> forall c : Call, Reply c;
  execve : list Event -> string -> slice string -> slice string -> option error
}.

Inductive Outcome (A : Type) : Type :=
| Returned (a : A)
| Replaced.

Arguments Returned {A} a.
Arguments Replaced {A}.

(** [run os p hist] runs [p] after the events [hist] and gives the
    events [p] adds, oldest first, and how it ended. *)
Fixpoint run {A : Type} (os : OS) (p : Prog A) (hist : list Event)
  : list Event * Outcome A :=
  match p with
  | Ret a => ([], Returned a)
  | Do c k =>
      let r := answer os hist c in
      let (tr, o) := run os (k r) (hist ++ [Ev c r]) in
      (Ev c r :: tr, o)
  | DoExec b a e k =>
      match execve os hist b a e with
      | None => ([EvExec b a e None], Replaced)
      | Some err =>
          let (tr, o) := run os (k err) (hist ++ [EvExec b a e (Some err)]) in
          (EvExec b a e (Some err) :: tr, o)
      end
  end.

Definition trace {A : Type} (os : OS) (p : Prog A) : list Event :=
  fst (run os p []).

Definition outcome {A : Type} (os : OS) (p : Prog A) : Outcome A :=
  snd (run os p []).

(** The call of an event; [syscall.Exec] is reported apart. *)
Definition callOf (e : Event) : option Call :=
  match e with
  | Ev c _ => Some c
  | EvExec _ _ _ _ => None
  end.

Definition calls (tr : list Event) : list Call :=
  flat_map (fun e => match callOf e with Some c => [c] | None => [] end) tr.

Definition isExec (e : Event) : bool :=
  match e with
  | EvExec _ _ _ _ => true
  | Ev _ _ => false
  end.

(** A system whose answers do not depend on the history, used to run
    the programs on examples: [fails c] is the error of a call that
    fails, [files name] the content [ReadFile] gives, [environ] the
    environment.  [Pipe] gives the descriptors 3 and 4, [Start] the
    process id 4242, [Wait4] the status of a normal exit with code 0. *)
Definition scriptedReply (fails : Call -> option error) (files : path -> string)
    (environ : list string) (c : Call) : Reply c :=
  match c as c0 return Reply c0 with
  | Stat name => fails (Stat name)
  | MkdirAll p perm => fails (MkdirAll p perm)
  | RemoveAll p => fails (RemoveAll p)
  | ReadFile name =>
      match fails (ReadFile name) with
      | Some e => inr e
      | None => inl (files name)
      end
  | WriteFile name data perm => fails (WriteFile name data perm)
  | Chdir p => fails (Chdir p)
  | Chroot p => fails (Chroot p)
  | Pivot_root newroot putold => fails (Pivot_root newroot putold)
  | Unmount target flags => fails (Unmount target flags)
  | Mount source target fstype flags data => fails (Mount source target fstype flags data)
  | Sethostname name => fails (Sethostname name)
  | Unshare flags => fails (Unshare flags)
  | FprintfStderr _ _ => tt
  | Printf _ _ => tt
  | Getenv key => EmptyString
  | Pipe =>
      match fails Pipe with
      | Some e => inr e
      | None => inl (3, 4)
      end
  | Close fd => fails (Close fd)
  | Environ => environ
  | Start cmd =>
      match fails (Start cmd) with
      | Some e => inr e
      | None => inl 4242
      end
  | Wait cmd => fails (Wait cmd)
  | Wait4 pid =>
      match fails (Wait4 pid) with
      | Some e => inr e
      | None => inl 0
      end
  end.

Definition scripted (fails : Call -> option error) (files : path -> string)
    (environ : list string) (execError : option error) : OS :=
  {| answer := fun _ c => scriptedReply fails files environ c;
     execve := fun _ _ _ _ => execError |}.

End sysio.

Declare Scope prog_scope.
Delimit Scope prog_scope with prog.
Notation "x <- p ;; q" := (sysio.bind p (fun x => q))
  (at level 61, p at next level, right associativity) : prog_scope.
Notation "p ;;; q" := (sysio.bind p (fun _ => q))
  (at level 61, right associativity) : prog_scope.

Local Open Scope prog_scope.

(** File modes, written in octal in the source. *)
Definition perm0755 : Z := 493.
Definition perm0644 : Z := 420.

(** [os.IsNotExist]: the error is the system's "no such file or
    directory". *)
Definition ENOENT : Z := 2.

Definition IsNotExist (err : option error) : bool :=
  match err with
  | Some (Errno code) => code =? ENOENT
  | _ => false
  end.

(** ** Package ns: namespace configuration *)

Module ns.

Module NamespaceType.

Inductive t : Type := UTS | PID | MOUNT | IPC | NET | USER.

Definition all : list t := [UTS; PID; MOUNT; IPC; NET; USER].

End NamespaceType.

Record NamespaceConfig : Type := {
  UTS : bool;
  PID : bool;
  Mount : bool;
  IPC : bool;
  Net : bool;
  User : bool
}.

(** The clone flag constants of golang.org/x/sys/unix on Linux. *)
Definition CLONE_NEWNS : Z := 0x00020000.
Definition CLONE_NEWUTS : Z := 0x04000000.
Definition CLONE_NEWIPC : Z := 0x08000000.
Definition CLONE_NEWUSER : Z := 0x10000000.
Definition CLONE_NEWPID : Z := 0x20000000.
Definition CLONE_NEWNET : Z := 0x40000000.

Definition CloneFlags (nc : NamespaceConfig) : Z :=
  let flags := 0 in
  let flags := if UTS nc then Z.lor flags CLONE_NEWUTS else flags in
  let flags := if PID nc then Z.lor flags CLONE_NEWPID else flags in
  let flags := if Mount nc then Z.lor flags CLONE_NEWNS else flags in
  let flags := if IPC nc then Z.lor flags CLONE_NEWIPC else flags in
  let flags := if Net nc then Z.lor flags CLONE_NEWNET else flags in
  let flags := if User nc then Z.lor flags CLONE_NEWUSER else flags in
  flags.

(** The member of the set a namespace type names, and its flag: the
    pairing the six [if] statements of [CloneFlags] make. *)
Definition enabled (nc : NamespaceConfig) (t : NamespaceType.t) : bool :=
  match t with
  | NamespaceType.UTS => UTS nc
  | NamespaceType.PID => PID nc
  | NamespaceType.MOUNT => Mount nc
  | NamespaceType.IPC => IPC nc
  | NamespaceType.NET => Net nc
  | NamespaceType.USER => User nc
  end.

Definition flagOf (t : NamespaceType.t) : Z :=
  match t with
  | NamespaceType.UTS => CLONE_NEWUTS
  | NamespaceType.PID => CLONE_NEWPID
  | NamespaceType.MOUNT => CLONE_NEWNS
  | NamespaceType.IPC => CLONE_NEWIPC
  | NamespaceType.NET => CLONE_NEWNET
  | NamespaceType.USER => CLONE_NEWUSER
  end.

(** One [if] statement of [CloneFlags], for the member [t], and the
    same accumulation with the members considered in a given order. *)
Definition orFlag (nc : NamespaceConfig) (flags : Z) (t : NamespaceType.t) : Z :=
  if enabled nc t then Z.lor flags (flagOf t) else flags.

Definition flagsInOrder (order : list NamespaceType.t) (nc : NamespaceConfig) : Z :=
  fold_left (orFlag nc) order 0.

Definition joinNames (names : list string) : string :=
  fold_left (fun acc n => if (acc =? "")%string then n else (acc ++ " " ++ n)%string)
    names EmptyString.

(** [String]: the enabled namespaces, printed by [%v] as a list. *)
Definition String_ (nc : NamespaceConfig) : string :=
  let enabled : list string := [] in
  let enabled := if UTS nc then (enabled ++ ["UTS"%string])%list else enabled in
  let enabled := if PID nc then (enabled ++ ["PID"%string])%list else enabled in
  let enabled := if Mount nc then (enabled ++ ["MOUNT"%string])%list else enabled in
  let enabled := if IPC nc then (enabled ++ ["IPC"%string])%list else enabled in
  let enabled := if Net nc then (enabled ++ ["NET"%string])%list else enabled in
  let enabled := if User nc then (enabled ++ ["USER"%string])%list else enabled in
  ("Namespaces: [" ++ joinNames enabled ++ "]")%string.

Definition CreateNamespaces (config : NamespaceConfig) : sysio.Prog (option error) :=
  let flags := CloneFlags config in
  if flags =? 0 then sysio.Ret None
  else
    err <- sysio.call (sysio.Unshare flags) ;;
    match err with
    | Some e => sysio.Ret (Some (util.NewError "create namespaces" e))
    | None => sysio.Ret None
    end.

Definition SetHostname (hostname : string) : sysio.Prog (option error) :=
  if (hostname =? "")%string then sysio.Ret None
  else
    err <- sysio.call (sysio.Sethostname hostname) ;;
    match err with
    | Some e => sysio.Ret (Some (util.NewError "set hostname" e))
    | None => sysio.Ret None
    end.

Definition NamespaceFromSpec (specType : string) : option NamespaceType.t :=
  if (specType =? "uts")%string then Some NamespaceType.UTS
  else if (specType =? "pid")%string then Some NamespaceType.PID
  else if (specType =? "mount")%string then Some NamespaceType.MOUNT
  else if (specType =? "ipc")%string then Some NamespaceType.IPC
  else if (specType =? "network")%string then Some NamespaceType.NET
  else if (specType =? "user")%string then Some NamespaceType.USER
  else None.

Definition enable (config : NamespaceConfig) (t : option NamespaceType.t) : NamespaceConfig :=
  match t with
  | Some NamespaceType.UTS =>
      {| UTS := true; PID := PID config; Mount := Mount config;
         IPC := IPC config; Net := Net config; User := User config |}
  | Some NamespaceType.PID =>
      {| UTS := UTS config; PID := true; Mount := Mount config;
         IPC := IPC config; Net := Net config; User := User config |}
  | Some NamespaceType.MOUNT =>
      {| UTS := UTS config; PID := PID config; Mount := true;
         IPC := IPC config; Net := Net config; User := User config |}
  | Some NamespaceType.IPC =>
      {| UTS := UTS config; PID := PID config; Mount := Mount config;
         IPC := true; Net := Net config; User := User config |}
  | Some NamespaceType.NET =>
      {| UTS := UTS config; PID := PID config; Mount := Mount config;
         IPC := IPC config; Net := true; User := User config |}
  | Some NamespaceType.USER =>
      {| UTS := UTS config; PID := PID config; Mount := Mount config;
         IPC := IPC config; Net := Net config; User := true |}
  | None => config
  end.

Definition ConfigFromSpec (namespaces : list string) : NamespaceConfig :=
  fold_left (fun config nsType => enable config (NamespaceFromSpec nsType)) namespaces
    {| UTS := false; PID := false; Mount := false;
       IPC := false; Net := false; User := false |}.

(** *** Wait status (syscall.WaitStatus on Linux, a uint32) *)

Definition mask : Z := 0x7F.
Definition core : Z := 0x80.
Definition exited : Z := 0x00.
Definition stopped : Z := 0x7F.
Definition shift : Z := 8.

Definition Exited (w : Z) : bool := Z.land w mask =? exited.

Definition Signaled (w : Z) : bool :=
  negb (Z.land w mask =? stopped) && negb (Z.land w mask =? exited).

Definition ExitStatus (w : Z) : Z :=
  if negb (Exited w) then -1 else Z.land (Z.shiftr w shift) 0xFF.

Definition Signal (w : Z) : Z :=
  if negb (Signaled w) then -1 else Z.land w mask.

(** What [WaitForChild] returns once [syscall.Wait4] has given [r], an
    error or the status it stored. *)
Definition waitResult (r : Z + error) : Z * option error :=
  match r with
  | inr err => (-1, Some (util.NewError "wait for child" err))
  | inl status =>
      if Exited status then (ExitStatus status, None)
      else if Signaled status then (128 + Signal status, None)
      else (-1, Some (util.NewSimpleError "wait for child" "unexpected child status"))
  end.

Definition WaitForChild (pid : Z) : sysio.Prog (Z * option error) :=
  r <- sysio.call (sysio.Wait4 pid) ;;
  sysio.Ret (waitResult r).

(** The statuses the kernel reports: a normal exit with code [c] and a
    death by signal [s], with or without a core dump. *)
Definition statusExit (c : Z) : Z := Z.shiftl c shift.
Definition statusSignal (s : Z) (dumped : bool) : Z :=
  if dumped then Z.lor s core else s.

End ns.

(** ** Package spec (internal/spec/config.go)

    The fields of the configuration the runtime core reads. *)

Module spec.
Import sysio.

Record Process : Type := {
  Args : slice string;
  Env : slice string;
  Cwd : string
}.

Record Root : Type := {
  Path : string;
  Readonly : bool
}.

Record Namespace : Type := {
  Type_ : string
}.

Record Linux : Type := {
  Namespaces : list Namespace
}.

Record Config : Type := {
  OCIVersion : string;
  Process_ : Process;
  Root_ : Root;
  Hostname : string;
  Linux_ : Linux
}.

Definition validateConfig (config : Config) : option error :=
  if (OCIVersion config =? "")%string then
    Some (util.NewSimpleError "validate config" "missing ociVersion field")
  else if (len (Args (Process_ config)) =? 0)%nat then
    Some (util.NewSimpleError "validate config" "missing process args")
  else if (Path (Root_ config) =? "")%string then
    Some (util.NewSimpleError "validate config" "missing root path")
  else None.

Definition IsAbs (p : string) : bool := String.prefix "/" p.

Definition GetRootfsPath (c : Config) (bundleDir : string) : path :=
  if IsAbs (Path (Root_ c)) then Lit (Path (Root_ c))
  else Join (Lit bundleDir) (Path (Root_ c)).

Section Load.

(** [json.Unmarshal] into a [Config]: decoding the configuration
    document is left to the loader. *)
Variable unmarshalConfig : string -> Config + error.

Definition LoadConfig (bundleDir : string) : Prog (Config + error) :=
  let configPath := Join (Lit bundleDir) "config.json" in
  r <- call (ReadFile configPath) ;;
  match r with
  | inr err => Ret (inr (util.NewPathError "read config" configPath err))
  | inl data =>
      match unmarshalConfig data with
      | inr err => Ret (inr (util.NewPathError "parse config" configPath err))
      | inl config =>
          match validateConfig config with
          | Some err =>
              Ret (inr (util.NewPathError "validate config" configPath err))
          | None => Ret (inl config)
          end
      end
  end.

End Load.

End spec.

(** ** Package fs (internal/fs/rootfs.go) *)

Module fs.
Import sysio.

Definition MNT_DETACH : Z := 2.
Definition MS_RDONLY : Z := 1.
Definition MS_NOSUID : Z := 2.
Definition MS_NODEV : Z := 4.
Definition MS_NOEXEC : Z := 8.

Record RootfsManager : Type := {
  RootfsPath : path;
  Readonly : bool
}.

Definition NewRootfsManager (rootfsPath : path) (readonly : bool) : RootfsManager :=
  {| RootfsPath := rootfsPath; Readonly := readonly |}.

Definition PrepareRootfs (rm : RootfsManager) : Prog (option error) :=
  st <- call (Stat (RootfsPath rm)) ;;
  if IsNotExist st then
    Ret (Some (util.NewPathError "prepare rootfs" (RootfsPath rm)
                 (ErrorString "rootfs path does not exist")))
  else
    let oldRootPath := Join (RootfsPath rm) ".old_root" in
    err <- call (MkdirAll oldRootPath perm0755) ;;
    match err with
    | Some e => Ret (Some (util.NewPathError "create old_root" oldRootPath e))
    | None => Ret None
    end.

Definition PivotRoot (rm : RootfsManager) : Prog (option error) :=
  let oldRootPath := Join (RootfsPath rm) ".old_root" in
  err <- call (Pivot_root (RootfsPath rm) oldRootPath) ;;
  match err with
  | Some e => Ret (Some (util.NewError "pivot_root" e))
  | None =>
      err <- call (Chdir (Lit "/")) ;;
      match err with
      | Some e => Ret (Some (util.NewError "chdir to new root" e))
      | None =>
          err <- call (Unmount (Lit "/.old_root") MNT_DETACH) ;;
          match err with
          | Some e => call (FprintfStderr "Warning: failed to unmount old root: %v\n" e)
          | None => Ret tt
          end ;;;
          err <- call (RemoveAll (Lit "/.old_root")) ;;
          match err with
          | Some e =>
              call (FprintfStderr "Warning: failed to remove old root directory: %v\n" e)
          | None => Ret tt
          end ;;;
          Ret None
      end
  end.

Definition ChrootFallback (rm : RootfsManager) : Prog (option error) :=
  err <- call (Chdir (RootfsPath rm)) ;;
  match err with
  | Some e => Ret (Some (util.NewPathError "chdir to rootfs" (RootfsPath rm) e))
  | None =>
      err <- call (Chroot (Lit ".")) ;;
      match err with
      | Some e => Ret (Some (util.NewError "chroot" e))
      | None =>
          err <- call (Chdir (Lit "/")) ;;
          match err with
          | Some e => Ret (Some (util.NewError "chdir to / after chroot" e))
          | None => Ret None
          end
      end
  end.

Definition SwitchRoot (rm : RootfsManager) : Prog (option error) :=
  err <- PrepareRootfs rm ;;
  match err with
  | Some e => Ret (util.WrapError "prepare rootfs" (Some e))
  | None =>
      err <- PivotRoot rm ;;
      match err with
      | Some e =>
          call (FprintfStderr "pivot_root failed (%v), falling back to chroot\n" e) ;;;
          chrootErr <- ChrootFallback rm ;;
          match chrootErr with
          | Some ce => Ret (util.WrapError "chroot fallback" (Some ce))
          | None => Ret None
          end
      | None => Ret None
      end
  end.

Record MountPoint : Type := {
  Source : string;
  Destination : string;
  Type_ : string;
  Options : slice string;
  Flags : Z
}.

Fixpoint joinOptionsFrom (result : string) (rest : list string) : string :=
  match rest with
  | [] => result
  | o :: rest' => joinOptionsFrom (result ++ "," ++ o) rest'
  end.

Definition joinOptions (options : slice string) : string :=
  match elems options with
  | [] => ""
  | o :: rest => joinOptionsFrom o rest
  end.

Definition createMount (mount : MountPoint) : Prog (option error) :=
  err <- call (MkdirAll (Lit (Destination mount)) perm0755) ;;
  match err with
  | Some e =>
      Ret (Some (util.NewPathError "create mount point" (Lit (Destination mount)) e))
  | None =>
      let data := if (0 <? len (Options mount))%nat then joinOptions (Options mount) else "" in
      err <- call (Mount (Source mount) (Lit (Destination mount)) (Type_ mount)
                     (Flags mount) data) ;;
      match err with
      | Some e => Ret (Some (util.NewError "mount" e))
      | None => Ret None
      end
  end.

Definition basicMounts : list MountPoint :=
  [ {| Source := "proc"; Destination := "/proc"; Type_ := "proc";
       Options := None; Flags := 0 |};
    {| Source := "tmpfs"; Destination := "/dev"; Type_ := "tmpfs";
       Options := Some ["nosuid"; "strictatime"; "mode=755"; "size=65536k"];
       Flags := MS_NOSUID |};
    {| Source := "devpts"; Destination := "/dev/pts"; Type_ := "devpts";
       Options := Some ["nosuid"; "noexec"; "newinstance"; "ptmxmode=0666"; "mode=0620"];
       Flags := Z.lor MS_NOSUID MS_NOEXEC |};
    {| Source := "tmpfs"; Destination := "/dev/shm"; Type_ := "tmpfs";
       Options := Some ["nosuid"; "noexec"; "nodev"; "mode=1777"; "size=65536k"];
       Flags := Z.lor (Z.lor MS_NOSUID MS_NOEXEC) MS_NODEV |};
    {| Source := "sysfs"; Destination := "/sys"; Type_ := "sysfs";
       Options := Some ["nosuid"; "noexec"; "nodev"; "ro"];
       Flags := Z.lor (Z.lor (Z.lor MS_NOSUID MS_NOEXEC) MS_NODEV) MS_RDONLY |} ].

Fixpoint createMounts (mounts : list MountPoint) : Prog (option error) :=
  match mounts with
  | [] => Ret None
  | mount :: rest =>
      err <- createMount mount ;;
      match err with
      | Some e =>
          Ret (util.WrapError ("create mount " ++ Destination mount) (Some e))
      | None => createMounts rest
      end
  end.

Definition CreateBasicMounts : Prog (option error) := createMounts basicMounts.

End fs.

(** ** The parts of packages strconv and strings the program calls *)

Module strconv.

(** [strconv.FormatInt(n, 10)], [strconv.Itoa] and the verb [%d]. *)
Definition FormatInt (n : Z) : string := NilZero.string_of_int (Z.to_int n).

Definition Itoa (n : Z) : string := FormatInt n.

Definition ErrSyntax : error := ErrorString "invalid syntax".
Definition ErrRange : error := ErrorString "value out of range".

Definition maxUint64 : Z := 2 ^ 64 - 1.
Definition cutoff : Z := maxUint64 / 10 + 1.



(** The digit loop of [ParseUint] in base 10: the first offending byte
    decides between a syntax and a range error. *)
Fixpoint parseDigits (fn s0 s : string) (n : Z) : Z + error :=
  match s with
  | EmptyString => inl n
  | String c rest =>
      if (48 <=? byteOf c) && (byteOf c <=? 57) then
        if cutoff <=? n then inr (NumError fn s0 ErrRange)
        else
          let n1 := n * 10 + (byteOf c - 48) in
          if maxUint64 <? n1 then inr (NumError fn s0 ErrRange)
          else parseDigits fn s0 rest n1
      else inr (NumError fn s0 ErrSyntax)
  end.

Definition parseSigned (fn s : string) : Z + error :=
  match s with
  | EmptyString => inr (NumError fn s ErrSyntax)
  | String c rest =>
      let neg := Ascii.eqb c "-" in
      let digits := if Ascii.eqb c "+" || neg then rest else s in
      match digits with
      | EmptyString => inr (NumError fn s ErrSyntax)
      | _ =>
          match parseDigits fn s digits 0 with
          | inr err => inr err
          | inl un =>
              if negb neg && (2 ^ 63 <=? un) then inr (NumError fn s ErrRange)
              else if neg && (2 ^ 63 <? un) then inr (NumError fn s ErrRange)
              else inl (if neg then - un else un)
          end
      end
  end.

(** [strconv.ParseInt(s, 10, 64)]. *)
Definition ParseInt (s : string) : Z + error := parseSigned "ParseInt" s.

(** [strconv.Atoi(s)], with a 64-bit [int]. *)
Definition Atoi (s : string) : Z + error := parseSigned "Atoi" s.

End strconv.

Module strings.

Definition HasPrefix (s prefix : string) : bool := String.prefix prefix s.

(** [strings.Split(s, sep)] for a separator of one byte, which is how
    the source calls it. *)
Fixpoint Split (s : string) (sep : ascii) : list string :=
  match s with
  | EmptyString => [EmptyString]
  | String c rest =>
      if Ascii.eqb c sep then EmptyString :: Split rest sep
      else
        match Split rest sep with
        | piece :: pieces => String c piece :: pieces
        | [] => [String c EmptyString]
        end
  end.

(** [strings.Join(elems, sep)]. *)
Fixpoint Join (elems : list string) (sep : string) : string :=
  match elems with
  | [] => EmptyString
  | [e] => e
  | e :: rest => (e ++ sep ++ Join rest sep)%string
  end.

End strings.

(** ** Package cg (internal/cg/cgroups.go) *)

Module cg.
Import sysio.

Record CgroupManager : Type := {
  CgroupPath : path;
  Controllers : slice string
}.

Record ResourceLimits : Type := {
  CPUQuota : Z;
  CPUPeriod : Z;
  Memory : Z;
  Pids : Z
}.

Record ResourceStats : Type := {
  CPUUsage : Z;
  MemoryUsage : Z;
  PidsCount : Z
}.

Definition defaultCPUPeriod : Z := 100000.

Definition setCPULimit (cm : CgroupManager) (quota period : Z) : Prog (option error) :=
  let period := if period =? 0 then defaultCPUPeriod else period in
  let cpuMaxPath := Join (CgroupPath cm) "cpu.max" in
  let cpuMaxValue := strconv.FormatInt quota ++ " " ++ strconv.FormatInt period in
  err <- call (WriteFile cpuMaxPath cpuMaxValue perm0644) ;;
  match err with
  | Some e => Ret (Some (util.NewPathError "write cpu.max" cpuMaxPath e))
  | None => Ret None
  end.

Definition setMemoryLimit (cm : CgroupManager) (limit : Z) : Prog (option error) :=
  let memoryMaxPath := Join (CgroupPath cm) "memory.max" in
  let limitValue := strconv.FormatInt limit in
  err <- call (WriteFile memoryMaxPath limitValue perm0644) ;;
  match err with
  | Some e => Ret (Some (util.NewPathError "write memory.max" memoryMaxPath e))
  | None => Ret None
  end.

Definition setPidsLimit (cm : CgroupManager) (limit : Z) : Prog (option error) :=
  let pidsMaxPath := Join (CgroupPath cm) "pids.max" in
  let limitValue := strconv.Itoa limit in
  err <- call (WriteFile pidsMaxPath limitValue perm0644) ;;
  match err with
  | Some e => Ret (Some (util.NewPathError "write pids.max" pidsMaxPath e))
  | None => Ret None
  end.

(** One guarded step of [ApplyLimits]: [if cond { if err := step; err !=
    nil { return WrapError(op, err) } }], then the rest. *)
Definition guarded (cond : bool) (step : Prog (option error)) (op : string)
    (rest : Prog (option error)) : Prog (option error) :=
  if cond then
    err <- step ;;
    match err with
    | Some e => Ret (util.WrapError op (Some e))
    | None => rest
    end
  else rest.

Definition ApplyLimits (cm : CgroupManager) (limits : ResourceLimits) : Prog (option error) :=
  guarded (0 <? CPUQuota limits)
    (setCPULimit cm (CPUQuota limits) (CPUPeriod limits)) "set CPU limit"
    (guarded (0 <? Memory limits)
       (setMemoryLimit cm (Memory limits)) "set memory limit"
       (guarded (0 <? Pids limits)
          (setPidsLimit cm (Pids limits)) "set pids limit"
          (Ret None))).

Definition AddProcess (cm : CgroupManager) (pid : Z) : Prog (option error) :=
  let procsPath := Join (CgroupPath cm) "cgroup.procs" in
  let pidValue := strconv.Itoa pid in
  err <- call (WriteFile procsPath pidValue perm0644) ;;
  match err with
  | Some e => Ret (Some (util.NewPathError "write cgroup.procs" procsPath e))
  | None => Ret None
  end.

Definition Cleanup (cm : CgroupManager) : Prog (option error) :=
  err <- call (RemoveAll (CgroupPath cm)) ;;
  match err with
  | Some e => Ret (Some (util.NewPathError "remove cgroup" (CgroupPath cm) e))
  | None => Ret None
  end.

Section Stats.

(** [strings.Fields] and [strings.TrimSpace] split and trim at Unicode
    white space; they are taken as given. *)
Variable Fields : string -> list string.
Variable TrimSpace : string -> string.

(** The loop of [readCPUStat] over the lines of cpu.stat. *)
Fixpoint usageOf (lines : list string) : Z :=
  match lines with
  | [] => 0
  | line :: rest =>
      if strings.HasPrefix line "usage_usec" then
        match Fields line with
        | _ :: field1 :: _ =>
            match strconv.ParseInt field1 with
            | inl usage => usage
            | inr _ => usageOf rest
            end
        | _ => usageOf rest
        end
      else usageOf rest
  end.

Definition readCPUStat (cm : CgroupManager) : Prog (Z * option error) :=
  let cpuStatPath := Join (CgroupPath cm) "cpu.stat" in
  r <- call (ReadFile cpuStatPath) ;;
  match r with
  | inr err => Ret (0, Some err)
  | inl data => Ret (usageOf (strings.Split data "010"), None)
  end.

Definition readMemoryStat (cm : CgroupManager) : Prog (Z * option error) :=
  let memoryCurrentPath := Join (CgroupPath cm) "memory.current" in
  r <- call (ReadFile memoryCurrentPath) ;;
  match r with
  | inr err => Ret (0, Some err)
  | inl data =>
      match strconv.ParseInt (TrimSpace data) with
      | inr err => Ret (0, Some err)
      | inl usage => Ret (usage, None)
      end
  end.

Definition readPidsStat (cm : CgroupManager) : Prog (Z * option error) :=
  let pidsCurrentPath := Join (CgroupPath cm) "pids.current" in
  r <- call (ReadFile pidsCurrentPath) ;;
  match r with
  | inr err => Ret (0, Some err)
  | inl data =>
      match strconv.Atoi (TrimSpace data) with
      | inr err => Ret (0, Some err)
      | inl count => Ret (count, None)
      end
  end.

Definition GetStats (cm : CgroupManager) : Prog (ResourceStats * option error) :=
  let stats := {| CPUUsage := 0; MemoryUsage := 0; PidsCount := 0 |} in
  r <- readCPUStat cm ;;
  stats <-
    match r with
    | (_, Some err) =>
        call (FprintfStderr "Warning: failed to read CPU stats: %v\n" err) ;;; Ret stats
    | (cpuStat, None) =>
        Ret {| CPUUsage := cpuStat; MemoryUsage := MemoryUsage stats;
               PidsCount := PidsCount stats |}
    end ;;
  r <- readMemoryStat cm ;;
  stats <-
    match r with
    | (_, Some err) =>
        call (FprintfStderr "Warning: failed to read memory stats: %v\n" err) ;;; Ret stats
    | (memStat, None) =>
        Ret {| CPUUsage := CPUUsage stats; MemoryUsage := memStat;
               PidsCount := PidsCount stats |}
    end ;;
  r <- readPidsStat cm ;;
  stats <-
    match r with
    | (_, Some err) =>
        call (FprintfStderr "Warning: failed to read pids stats: %v\n" err) ;;; Ret stats
    | (pidsStat, None) =>
        Ret {| CPUUsage := CPUUsage stats; MemoryUsage := MemoryUsage stats;
               PidsCount := pidsStat |}
    end ;;
  Ret (stats, None).

End Stats.

(** [contains]: the loop over the slice. *)
Fixpoint containsIn (l : list string) (item : string) : bool :=
  match l with
  | [] => false
  | s :: rest => if (s =? item)%string then true else containsIn rest item
  end.

Definition contains (slice : slice string) (item : string) : bool :=
  containsIn (elems slice) item.

Section Setup.

(** [filepath.Dir], taken as given like [filepath.Join]. *)
Variable Dir : path -> path.

Definition requiredControllers : list string := ["cpu"; "memory"; "pids"]%string.

(** The loop of [Setup] over the required controllers. *)
Fixpoint enabledAmong (cm : CgroupManager) (required : list string) : list string :=
  match required with
  | [] => []
  | controller :: rest =>
      if contains (Controllers cm) controller
      then ("+" ++ controller)%string :: enabledAmong cm rest
      else enabledAmong cm rest
  end.

Definition Setup (cm : CgroupManager) : Prog (option error) :=
  err <- call (MkdirAll (CgroupPath cm) perm0755) ;;
  match err with
  | Some e =>
      Ret (Some (util.NewPathError "create cgroup directory" (CgroupPath cm) e))
  | None =>
      let parentPath := Dir (CgroupPath cm) in
      let subtreeControlPath := Join parentPath "cgroup.subtree_control" in
      let enabledControllers := enabledAmong cm requiredControllers in
      if (0 <? List.length enabledControllers)%nat then
        let controlString := strings.Join enabledControllers " " in
        err <- call (WriteFile subtreeControlPath controlString perm0644) ;;
        match err with
        | Some e => call (FprintfStderr "Warning: failed to enable controllers: %v\n" e)
        | None => Ret tt
        end ;;;
        Ret None
      else Ret None
  end.

End Setup.

End cg.

(** ** Package proc (internal/proc/container.go) *)

Module proc.
Import sysio.

Record ContainerProcess : Type := {
  Config : spec.Config;
  BundleDir : string;
  Hostname : string;
  Args : slice string;
  Env : slice string;
  WorkingDir : string;
  CgroupManager : option cg.CgroupManager;
  ResourceLimits : option cg.ResourceLimits
}.

Definition NewContainerProcess (config : spec.Config) (bundleDir : string) : ContainerProcess :=
  {| Config := config;
     BundleDir := bundleDir;
     Hostname := spec.Hostname config;
     Args := spec.Args (spec.Process_ config);
     Env := spec.Env (spec.Process_ config);
     WorkingDir := spec.Cwd (spec.Process_ config);
     CgroupManager := None;
     ResourceLimits := None |}.

Definition setArgs (cp : ContainerProcess) (args : slice string) : ContainerProcess :=
  {| Config := Config cp; BundleDir := BundleDir cp; Hostname := Hostname cp;
     Args := args; Env := Env cp; WorkingDir := WorkingDir cp;
     CgroupManager := CgroupManager cp; ResourceLimits := ResourceLimits cp |}.

Definition setHostname (cp : ContainerProcess) (hostname : string) : ContainerProcess :=
  {| Config := Config cp; BundleDir := BundleDir cp; Hostname := hostname;
     Args := Args cp; Env := Env cp; WorkingDir := WorkingDir cp;
     CgroupManager := CgroupManager cp; ResourceLimits := ResourceLimits cp |}.

Definition setWorkingDir (cp : ContainerProcess) (dir : string) : ContainerProcess :=
  {| Config := Config cp; BundleDir := BundleDir cp; Hostname := Hostname cp;
     Args := Args cp; Env := Env cp; WorkingDir := dir;
     CgroupManager := CgroupManager cp; ResourceLimits := ResourceLimits cp |}.

Definition OverrideArgs (cp : ContainerProcess) (args : slice string) : ContainerProcess :=
  if (0 <? len args)%nat then setArgs cp args else cp.

Definition OverrideHostname (cp : ContainerProcess) (hostname : string) : ContainerProcess :=
  if negb (hostname =? "")%string then setHostname cp hostname else cp.

Definition defaultEnv : slice string :=
  Some ["PATH=/usr/local/sbin:/usr/local/bin:/usr/sbin:/usr/bin:/sbin:/bin"%string].

Definition execProcess (cp : ContainerProcess) : Prog (option error) :=
  if (len (Args cp) =? 0)%nat then
    Ret (Some (util.NewSimpleError "exec process" "no command specified"))
  else
    let env := Env cp in
    let env := match env with None => defaultEnv | Some _ => env end in
    let binary := hd EmptyString (elems (Args cp)) in
    let args := Args cp in
    err <- exec binary args env ;;
    Ret (Some (util.NewError "exec process" err)).

Definition initContainer (cp : ContainerProcess) : Prog (option error) :=
  err <- (if negb (Hostname cp =? "")%string then
            err <- ns.SetHostname (Hostname cp) ;;
            Ret (util.WrapError "set hostname" err)
          else Ret None) ;;
  match err with
  | Some e => Ret (Some e)
  | None =>
      let rootfsPath := spec.GetRootfsPath (Config cp) (BundleDir cp) in
      let rootfsManager :=
        fs.NewRootfsManager rootfsPath (spec.Readonly (spec.Root_ (Config cp))) in
      err <- fs.SwitchRoot rootfsManager ;;
      match err with
      | Some e => Ret (util.WrapError "switch root" (Some e))
      | None =>
          err <- fs.CreateBasicMounts ;;
          match err with
          | Some e => Ret (util.WrapError "create basic mounts" (Some e))
          | None =>
              err <- (if negb (WorkingDir cp =? "")%string then
                        err <- call (Chdir (Lit (WorkingDir cp))) ;;
                        match err with
                        | Some e =>
                            Ret (Some (util.NewPathError "change working directory"
                                         (Lit (WorkingDir cp)) e))
                        | None => Ret None
                        end
                      else Ret None) ;;
              match err with
              | Some e => Ret (Some e)
              | None => execProcess cp
              end
          end
      end
  end.

Definition runWithNamespaces (cp : ContainerProcess) (nsConfig : ns.NamespaceConfig)
  : Prog (option error) :=
  err <- ns.CreateNamespaces nsConfig ;;
  match err with
  | Some e => Ret (util.WrapError "create namespaces" (Some e))
  | None => initContainer cp
  end.

(** The command [exec.Command("/proc/self/exe", "container-init")]
    with the namespace flags and the environment for the child; the
    standard streams are those of the parent. *)
Definition initCommand (cp : ContainerProcess) (nsConfig : ns.NamespaceConfig)
    (environ : list string) (w : Z) : Cmd :=
  let argsJSON := json.Marshal (Args cp) in
  {| CmdPath := "/proc/self/exe";
     CmdArgs := ["/proc/self/exe"; "container-init"]%string;
     CmdEnv := (environ ++
                [ "GOMINI_BUNDLE_DIR=" ++ BundleDir cp;
                  "GOMINI_HOSTNAME=" ++ Hostname cp;
                  "GOMINI_ARGS=" ++ argsJSON;
                  "GOMINI_WORKING_DIR=" ++ WorkingDir cp ]%string)%list;
     Cloneflags := ns.CloneFlags nsConfig;
     ExtraFiles := [w] |}.

(** [defer r.Close()] is run at every return after the pipe exists.
    [json.Marshal] of a [[]string] has no error to return. *)
Definition runWithPIDNamespace (cp : ContainerProcess) (nsConfig : ns.NamespaceConfig)
  : Prog (option error) :=
  p <- call Pipe ;;
  match p with
  | inr err => Ret (Some (util.NewError "create pipe" err))
  | inl (r, w) =>
      environ <- call Environ ;;
      let cmd := initCommand cp nsConfig environ w in
      started <- call (Start cmd) ;;
      match started with
      | inr err =>
          call (Close w) ;;;
          call (Close r) ;;;
          Ret (Some (util.NewError "start container process" err))
      | inl pid =>
          call (Close w) ;;;
          match CgroupManager cp with
          | Some cm =>
              err <- cg.AddProcess cm pid ;;
              match err with
              | Some e =>
                  call (FprintfStderr "Warning: failed to add process to cgroup: %v\n" e)
              | None => Ret tt
              end
          | None => Ret tt
          end ;;;
          waitErr <- call (Wait cmd) ;;
          match waitErr with
          | Some err =>
              match CgroupManager cp with
              | Some cm => cg.Cleanup cm ;;; Ret tt
              | None => Ret tt
              end ;;;
              call (Close r) ;;;
              Ret (Some (util.NewError "wait for container process" err))
          | None =>
              match CgroupManager cp with
              | Some cm =>
                  err <- cg.Cleanup cm ;;
                  match err with
                  | Some e =>
                      call (FprintfStderr "Warning: failed to cleanup cgroup: %v\n" e)
                  | None => Ret tt
                  end
              | None => Ret tt
              end ;;;
              call (Close r) ;;;
              Ret None
          end
      end
  end.

Definition Run (cp : ContainerProcess) : Prog (option error) :=
  let nsTypes := map spec.Type_ (spec.Namespaces (spec.Linux_ (Config cp))) in
  let nsConfig := ns.ConfigFromSpec nsTypes in
  call (Printf "Creating namespaces: %s\n" (ns.String_ nsConfig)) ;;;
  if ns.PID nsConfig then runWithPIDNamespace cp nsConfig
  else runWithNamespaces cp nsConfig.

(** The override of the arguments in [HandleContainerInit]: the value
    of GOMINI_ARGS, when not empty, is decoded and given to
    [OverrideArgs]. *)
Definition overrideFromEnv (cp : ContainerProcess) (argsStr : string)
  : ContainerProcess + error :=
  if negb (argsStr =? "")%string then
    match json.Unmarshal argsStr with
    | inr err => inr (Wrapped "unmarshal args" err)
    | inl args => inl (OverrideArgs cp args)
    end
  else inl cp.

Section Init.

Variable unmarshalConfig : string -> spec.Config + error.

Definition HandleContainerInit : Prog (option error) :=
  bundleDir <- call (Getenv "GOMINI_BUNDLE_DIR") ;;
  hostname <- call (Getenv "GOMINI_HOSTNAME") ;;
  argsStr <- call (Getenv "GOMINI_ARGS") ;;
  workingDir <- call (Getenv "GOMINI_WORKING_DIR") ;;
  if (bundleDir =? "")%string then
    Ret (Some (util.NewSimpleError "container init" "GOMINI_BUNDLE_DIR not set"))
  else
    loaded <- spec.LoadConfig unmarshalConfig bundleDir ;;
    match loaded with
    | inr err => Ret (util.WrapError "load config in init" (Some err))
    | inl config =>
        let cp := NewContainerProcess config bundleDir in
        let cp := if negb (hostname =? "")%string then OverrideHostname cp hostname else cp in
        match overrideFromEnv cp argsStr with
        | inr err => Ret (Some err)
        | inl cp =>
            let cp := if negb (workingDir =? "")%string then setWorkingDir cp workingDir else cp in
            initContainer cp
        end
    end.

End Init.

End proc.

(** ** The command line: [runCommand] of package main *)

Module main.

(** The choice of the command in [runCommand], from the value of the
    flag [--cmd], the arguments left after the flags and the arguments
    of the bundle. *)
Definition finalArgs (cmd : string) (positionalArgs : slice string)
    (bundleArgs : slice string) : slice string :=
  if negb (cmd =? "")%string then Some [cmd]
  else if (0 <? len positionalArgs)%nat then positionalArgs
  else bundleArgs.

End main.

(** ** The earlier revision of package proc (src/unnamed/part_001)

    It differs from the later one in how the argument list reaches the
    child: joined with spaces, and split at spaces on the other side. *)

Module proc0.

(** [append(args, current)], which makes a nil slice a slice of one
    element. *)
Definition push (args : slice string) (current : string) : slice string :=
  Some (elems args ++ [current])%list.

Fixpoint joinFrom (result : string) (rest : list string) : string :=
  match rest with
  | [] => result
  | a :: rest' => joinFrom (result ++ " " ++ a) rest'
  end.

Definition joinArgs (args : slice string) : string :=
  match elems args with
  | [] => EmptyString
  | a :: rest => joinFrom a rest
  end.

(** The loop [for _, char := range argsStr] of [splitArgs], at the
    rest [s] of the string: the slice and the current word it leaves.
    [string(char)] is the UTF-8 encoding of the rune. *)
Fixpoint splitLoop (fuel : nat) (s : string) (args : slice string) (current : string)
  : slice string * string :=
  match s, fuel with
  | EmptyString, _ => (args, current)
  | _, O => (args, current)
  | _, S fuel' =>
      let (char, size) := utf8.DecodeRune s in
      if char =? 0x20 then
        if negb (current =? "")%string
        then splitLoop fuel' (skip size s) (push args current) EmptyString
        else splitLoop fuel' (skip size s) args current
      else splitLoop fuel' (skip size s) args (current ++ utf8.EncodeRune char)
  end.

Definition splitArgs (argsStr : string) : slice string :=
  if (argsStr =? "")%string then None
  else
    let (args, current) := splitLoop (String.length argsStr) argsStr None EmptyString in
    if negb (current =? "")%string then push args current else args.

End proc0.

(** ** Vocabulary of the properties, and systems for the examples *)

Module props.
Import sysio.

(** The line [SwitchRoot] writes when [PivotRoot] has failed with [e]. *)
Definition pivotLog (e : error) : Event :=
  Ev (FprintfStderr "pivot_root failed (%v), falling back to chroot\n" e) tt.

(** A call that mounts, pivots or changes the root, or creates a
    directory. *)
Definition changesMounts (c : Call) : bool :=
  match c with
  | Mount _ _ _ _ _ | Unmount _ _ | Pivot_root _ _ | Chroot _ | MkdirAll _ _ => true
  | _ => false
  end.

(** What a [ReadFile] event gave. *)
Definition readReply (e : Event) : option (string + error) :=
  match e with
  | Ev (ReadFile _) r => Some r
  | _ => None
  end.

(** What a [Wait] event and a [Start] event gave. *)
Definition waitReply (e : Event) : option (option error) :=
  match e with
  | Ev (Wait _) r => Some r
  | _ => None
  end.

Definition startReply (e : Event) : option (Z + error) :=
  match e with
  | Ev (Start _) r => Some r
  | _ => None
  end.

Definition isWait (e : Event) : bool :=
  match e with
  | Ev (Wait _) _ => true
  | _ => false
  end.

(** The events before the first [Wait] of a trace, and those after
    it. *)
Fixpoint beforeWait (tr : list Event) : list Event :=
  match tr with
  | [] => []
  | e :: rest => if isWait e then [] else e :: beforeWait rest
  end.

Fixpoint afterWait (tr : list Event) : list Event :=
  match tr with
  | [] => []
  | e :: rest => if isWait e then rest else afterWait rest
  end.

Definition isReadOrLog (c : Call) : bool :=
  match c with
  | ReadFile _ | FprintfStderr _ _ => true
  | _ => false
  end.


(** The text [setCPULimit] writes for the quota and period of
    [limits]. *)
Definition cpuMaxValue (limits : cg.ResourceLimits) : string :=
  let period := if cg.CPUPeriod limits =? 0 then 100000 else cg.CPUPeriod limits in
  (strconv.FormatInt (cg.CPUQuota limits) ++ " " ++ strconv.FormatInt period)%string.

Definition EINVAL : Z := 22.
Definition EACCES : Z := 13.

Definition noFile (_ : path) : string := EmptyString.

(** Every call succeeds. *)
Definition allSucceed : OS :=
  scripted (fun _ => None) noFile [] None.

(** [pivot_root] fails, everything else succeeds. *)
Definition pivotFails : OS :=
  scripted (fun c => match c with
                     | Pivot_root _ _ => Some (Errno EINVAL)
                     | _ => None
                     end) noFile [] None.

(** [pivot_root] and [chroot] fail. *)
Definition pivotAndChrootFail : OS :=
  scripted (fun c => match c with
                     | Pivot_root _ _ => Some (Errno EINVAL)
                     | Chroot _ => Some (Errno 1)
                     | _ => None
                     end) noFile [] None.

(** No file exists. *)
Definition nothingExists : OS :=
  scripted (fun c => match c with
                     | Stat _ => Some (Errno ENOENT)
                     | _ => None
                     end) noFile [] None.

(** The files of a control group that cannot be read or written. *)
Definition cgroupDenies (names : list string) : OS :=
  scripted (fun c => match c with
                     | ReadFile (Join _ elem) | WriteFile (Join _ elem) _ _ =>
                         if existsb (String.eqb elem) names then Some (Errno EACCES)
                         else None
                     | _ => None
                     end)
    (fun name => match name with
                 | Join _ "cpu.stat" => "usage_usec 1234"
                 | Join _ "memory.current" => "4096"
                 | Join _ "pids.current" => "3"
                 | _ => EmptyString
                 end%string) [] None.

Definition someCgroup : cg.CgroupManager :=
  {| cg.CgroupPath := Join (Join (Lit "/sys/fs/cgroup") "gomini") "abc123";
     cg.Controllers := Some ["cpu"; "memory"; "pids"]%string |}.

(** Stand-ins for [strings.Fields] and [strings.TrimSpace] on text
    whose only white space is the space character. *)
Definition fieldsAtSpaces (s : string) : list string :=
  filter (fun f => negb (f =? "")%string) (strings.Split s " ").

Definition noTrim (s : string) : string := s.

(** The child process ends with a failure status: [Wait] gives an
    error. *)
Definition childFails : OS :=
  scripted (fun c => match c with
                     | Wait _ => Some (ErrorString "exit status 1")
                     | _ => None
                     end) noFile [] None.

Definition someConfig : spec.Config :=
  {| spec.OCIVersion := "1.0.2";
     spec.Process_ := {| spec.Args := Some ["/bin/sh"%string];
                         spec.Env := Some [];
                         spec.Cwd := "/" |};
     spec.Root_ := {| spec.Path := "rootfs"; spec.Readonly := false |};
     spec.Hostname := "gomini-container";
     spec.Linux_ := {| spec.Namespaces :=
                         [ {| spec.Type_ := "pid" |}; {| spec.Type_ := "uts" |};
                           {| spec.Type_ := "mount" |} ] |} |}.

(** A container process with an empty, not nil, environment, and the
    same with a control group. *)
Definition someProcess : proc.ContainerProcess :=
  proc.NewContainerProcess someConfig "/bundle".

(** A container process whose configuration has no environment list. *)
Definition processWithoutEnv : proc.ContainerProcess :=
  proc.NewContainerProcess
    {| spec.OCIVersion := "1.0.2";
       spec.Process_ := {| spec.Args := Some ["/bin/true"%string];
                           spec.Env := None;
                           spec.Cwd := "" |};
       spec.Root_ := {| spec.Path := "rootfs"; spec.Readonly := false |};
       spec.Hostname := "";
       spec.Linux_ := {| spec.Namespaces := [] |} |} "/bundle".

Definition someProcessInCgroup : proc.ContainerProcess :=
  {| proc.Config := someConfig;
     proc.BundleDir := "/bundle";
     proc.Hostname := "gomini-container";
     proc.Args := Some ["/bin/sh"%string];
     proc.Env := Some [];
     proc.WorkingDir := "/";
     proc.CgroupManager := Some someCgroup;
     proc.ResourceLimits := None |}.

Definition bundleRoot : fs.RootfsManager :=
  fs.NewRootfsManager (Join (Lit "/bundle") "rootfs") false.

(** The answer of an event, whatever its call. *)
Inductive Answer : Type :=
| AErr (r : option error)
| AData (r : string + error)
| ANone
| AText (s : string)
| APipe (r : Z * Z + error)
| AEnv (l : list string)
| APid (r : Z + error)
| AExec (r : option error).

Definition answerOf (e : Event) : Answer :=
  match e with
  | Ev c r =>
      match c as c0 return Reply c0 -> Answer with
      | Stat _ => AErr
      | MkdirAll _ _ => AErr
      | RemoveAll _ => AErr
      | ReadFile _ => AData
      | WriteFile _ _ _ => AErr
      | Chdir _ => AErr
      | Chroot _ => AErr
      | Pivot_root _ _ => AErr
      | Unmount _ _ => AErr
      | Mount _ _ _ _ _ => AErr
      | Sethostname _ => AErr
      | Unshare _ => AErr
      | FprintfStderr _ _ => fun _ => ANone
      | Printf _ _ => fun _ => ANone
      | Getenv _ => AText
      | Pipe => APipe
      | Close _ => AErr
      | Environ => AEnv
      | Start _ => APid
      | Wait _ => AErr
      | Wait4 _ => APid
      end r
  | EvExec _ _ _ r => AExec r
  end.




Definition isMount (c : Call) : bool :=
  match c with
  | Mount _ _ _ _ _ => true
  | _ => false
  end.

Definition isCgroupCall (c : Call) : bool :=
  match c with
  | WriteFile _ _ _ | RemoveAll _ | ReadFile _ | MkdirAll _ _ => true
  | _ => false
  end.

Definition isGetenv (c : Call) : bool :=
  match c with
  | Getenv _ => true
  | _ => false
  end.

(** A byte of the string is below [bound]; a byte of the string is a
    space. *)
Fixpoint hasByteBelow (bound : Z) (s : string) : bool :=
  match s with
  | EmptyString => false
  | String c rest => (byteOf c <? bound) || hasByteBelow bound rest
  end.

Fixpoint hasSpace (s : string) : bool :=
  match s with
  | EmptyString => false
  | String c rest => (byteOf c =? 0x20) || hasSpace rest
  end.

(** An argument the space-joined encoding can carry: not empty, no
    space inside, valid UTF-8. *)
Definition plainWord (s : string) : bool :=
  negb (s =? "")%string && negb (hasSpace s) && utf8.ValidString s.

(** [stat] fails for a reason other than a missing file. *)
Definition statDenied : OS :=
  scripted (fun c => match c with
                     | Stat _ => Some (Errno EACCES)
                     | _ => None
                     end) noFile [] None.

(** Unmounting and removing the old root fail. *)
Definition cleanupFails : OS :=
  scripted (fun c => match c with
                     | Unmount _ _ => Some (Errno 16)
                     | RemoveAll _ => Some (Errno 16)
                     | _ => None
                     end) noFile [] None.

(** The third mount, of /dev/pts, fails. *)
Definition devptsFails : OS :=
  scripted (fun c => match c with
                     | Mount "devpts" _ _ _ _ => Some (Errno EINVAL)
                     | _ => None
                     end%string) noFile [] None.

Definition parentOf (p : path) : path :=
  match p with
  | Join dir _ => dir
  | Lit _ => p
  end.

(** The name of a namespace type in the bundle configuration. *)
Definition specName (t : ns.NamespaceType.t) : string :=
  match t with
  | ns.NamespaceType.UTS => "uts"
  | ns.NamespaceType.PID => "pid"
  | ns.NamespaceType.MOUNT => "mount"
  | ns.NamespaceType.IPC => "ipc"
  | ns.NamespaceType.NET => "network"
  | ns.NamespaceType.USER => "user"
  end.




(** What a line of cpu.stat gives [readCPUStat]: the number of a line
    the loop returns at, nothing for a line it passes over. *)
Definition usableLine (Fields : string -> list string) (line : string) : option Z :=
  if strings.HasPrefix line "usage_usec" then
    match Fields line with
    | _ :: field1 :: _ =>
        match strconv.ParseInt field1 with
        | inl usage => Some usage
        | inr _ => None
        end
    | _ => None
    end
  else None.

(** A cpu.stat of four lines, and a system in which every file has
    this content. *)
Definition cpuStatFile : string :=
  "user_usec 5" ++ String "010" ("usage_usec x" ++ String "010"
    ("usage_usec 1234" ++ String "010" "usage_usec 99")).

Definition cpuStatOS : OS :=
  scripted (fun _ => None) (fun _ => cpuStatFile) [] None.

(** A program all of whose calls satisfy [P], whatever the answers;
    [syscall.Exec] is not a call in this sense. *)
Inductive Uses {A : Type} (P : Call -> bool) : Prog A -> Prop :=
| Uses_Ret (a : A) : Uses P (Ret a)
| Uses_Do (c : Call) (k : Reply c -> Prog A) :
    P c = true -> (forall r, Uses P (k r)) -> Uses P (Do c k)
| Uses_DoExec (argv0 : string) (argv envv : slice string) (k : error -> Prog A) :
    (forall err, Uses P (k err)) -> Uses P (DoExec argv0 argv envv k).

(** A program that never attempts [syscall.Exec]. *)
Inductive NoExec {A : Type} : Prog A -> Prop :=
| NoExec_Ret (a : A) : NoExec (Ret a)
| NoExec_Do (c : Call) (k : Reply c -> Prog A) :
    (forall r, NoExec (k r)) -> NoExec (Do c k).

(** The error at the end of the chain of [Unwrap]. *)
Fixpoint rootCause (err : error) : error :=
  match err with
  | ContainerError _ _ e | Wrapped _ e | NumError _ _ e => rootCause e
  | Errno _ | ErrorString _ => err
  end.

(** The error the call of an event failed with, and that of the last
    event of a trace. *)
Definition failure (e : Event) : option error :=
  match answerOf e with
  | AErr r | AExec r => r
  | AData (inr err) | APipe (inr err) | APid (inr err) => Some err
  | _ => None
  end.

Fixpoint lastFailure (tr : list Event) : option error :=
  match tr with
  | [] => None
  | [e] => failure e
  | _ :: rest => lastFailure rest
  end.

(** What the last call of a run failed with is the cause of the error
    [err]. *)
Definition causedByLastCall (tr : list Event) (err : error) : Prop :=
  exists x, lastFailure tr = Some x /\ rootCause err = rootCause x.

(** What [joinArgs] of the earlier revision writes after the first
    argument. *)
Definition spaced (rest : list string) : string :=
  fold_right (fun a tail => " " ++ a ++ tail) EmptyString rest.

(** A program all of whose results, when it returns, satisfy [Q]. *)
Inductive Ends {A : Type} (Q : A -> Prop) : Prog A -> Prop :=
| Ends_Ret (a : A) : Q a -> Ends Q (Ret a)
| Ends_Do (c : Call) (k : Reply c -> Prog A) :
    (forall r, Ends Q (k r)) -> Ends Q (Do c k)
| Ends_DoExec (argv0 : string) (argv envv : slice string) (k : error -> Prog A) :
    (forall err, Ends Q (k err)) -> Ends Q (DoExec argv0 argv envv k).

(** The calls of the parent of a container with a PID namespace: it
    prints, makes the pipe, starts the child with the clone flags
    [flags], keeps the control group and waits. *)
Definition parentCall (flags : Z) (c : Call) : bool :=
  match c with
  | Printf _ _ | Pipe | Environ | Close _ | Wait _ | FprintfStderr _ _
  | WriteFile _ _ _ | RemoveAll _ => true
  | Start cmd => Cloneflags cmd =? flags
  | _ => false
  end.

(** The calls of a container set up in the calling process:
    namespaces by [unshare] with [flags], and no child. *)
Definition inProcessCall (flags : Z) (c : Call) : bool :=
  match c with
  | Pipe | Environ | Close _ | Start _ | Wait _ | Wait4 _ | Getenv _
  | ReadFile _ | WriteFile _ _ _ => false
  | Unshare f => f =? flags
  | _ => true
  end.

Definition isClose (c : Call) : bool :=
  match c with
  | Close _ => true
  | _ => false
  end.

(** A call that sets up the container: anything but reading the
    environment and the configuration. *)
Definition isSetup (c : Call) : bool :=
  match c with
  | Getenv _ | ReadFile _ => false
  | _ => true
  end.

(** A loader that gives [someConfig] for every document. *)
Definition loadsSomeConfig (_ : string) : spec.Config + error := inl someConfig.

End props.

(** * Properties *)

Local Open Scope list_scope.
Local Open Scope Z_scope.

(** ** Namespace flags *)

Section CloneFlagsFacts.

Variable nc : ns.NamespaceConfig.

Lemma orFlag_swap (flags : Z) (a b : ns.NamespaceType.t) :
  ns.orFlag nc (ns.orFlag nc flags a) b = ns.orFlag nc (ns.orFlag nc flags b) a.
Proof.
  unfold ns.orFlag.
  destruct (ns.enabled nc a), (ns.enabled nc b); try reflexivity.
  rewrite <- !Z.lor_assoc. f_equal. apply Z.lor_comm.
Qed.

Lemma fold_orFlag_perm (l l' : list ns.NamespaceType.t) :
  Permutation l l' ->
  forall flags, fold_left (ns.orFlag nc) l flags = fold_left (ns.orFlag nc) l' flags.
Proof.
  induction 1 as [| x l l' _ IH | x y l | l l' l'' _ IH1 _ IH2]; intros flags; simpl.
  - reflexivity.
  - apply IH.
  - now rewrite orFlag_swap.
  - now rewrite IH1.
Qed.

Lemma fold_orFlag_bits (l : list ns.NamespaceType.t) (flags i : Z) :
  Z.testbit (fold_left (ns.orFlag nc) l flags) i = true <->
  Z.testbit flags i = true \/
  exists t, In t l /\ ns.enabled nc t = true /\ Z.testbit (ns.flagOf t) i = true.
Proof.
  revert flags. induction l as [| a l IH]; intros flags; simpl.
  - split; [now left | intros [H | (t & [] & _)]; exact H].
  - rewrite IH. unfold ns.orFlag.
    destruct (ns.enabled nc a) eqn:Ha.
    + rewrite Z.lor_spec, Bool.orb_true_iff. split.
      * intros [[H | H] | (t & Ht & H)]; [now left | right; exists a; auto | right; exists t; tauto].
      * intros [H | (t & [<- | Ht] & He & Hb)]; [tauto | tauto | right; exists t; tauto].
    + split.
      * intros [H | (t & Ht & H)]; [now left | right; exists t; tauto].
      * intros [H | (t & [<- | Ht] & He & Hb)]; [tauto | congruence | right; exists t; tauto].
  Qed.

Lemma CloneFlags_fold : ns.CloneFlags nc = fold_left (ns.orFlag nc) ns.NamespaceType.all 0.
Proof. reflexivity. Qed.

End CloneFlagsFacts.

(** C4: [CloneFlags] is the bitwise OR of the flag constants of exactly
    the enabled members of the set: a bit is set in the result if and
    only if it is set in the constant of some enabled member, each
    member has a bit of its own, which is set in the result if and only
    if the member is enabled; considering the six members in any other
    order gives the same flags; and with all six booleans false the
    result is zero. *)
Theorem CloneFlags_or_of_enabled (nc : ns.NamespaceConfig) :
  (forall i : Z,
      Z.testbit (ns.CloneFlags nc) i = true <->
      exists t, ns.enabled nc t = true /\ Z.testbit (ns.flagOf t) i = true)
  /\ (forall t, Z.testbit (ns.CloneFlags nc) (Z.log2 (ns.flagOf t)) = ns.enabled nc t)
  /\ ns.CloneFlags nc =
     fold_right Z.lor 0 (map ns.flagOf (filter (ns.enabled nc) ns.NamespaceType.all))
  /\ (forall order : list ns.NamespaceType.t,
         Permutation order ns.NamespaceType.all ->
         ns.flagsInOrder order nc = ns.CloneFlags nc)
  /\ ns.CloneFlags {| ns.UTS := false; ns.PID := false; ns.Mount := false;
                      ns.IPC := false; ns.Net := false; ns.User := false |} = 0.
Proof.
  repeat split.
  - rewrite CloneFlags_fold, fold_orFlag_bits. intros [H | (t & _ & H)].
    + now rewrite Z.testbit_0_l in H.
    + now exists t.
  - intros (t & He & Hb). rewrite CloneFlags_fold, fold_orFlag_bits.
    right. exists t. split; [| now split].
    destruct t; simpl; tauto.
  - intros t. destruct nc as [[] [] [] [] [] []], t; reflexivity.
  - destruct nc as [[] [] [] [] [] []]; reflexivity.
  - intros order Hperm. rewrite CloneFlags_fold. unfold ns.flagsInOrder.
    now apply fold_orFlag_perm.
Qed.

Lemma CloneFlags_or_of_enabled_witness :
  Permutation (rev ns.NamespaceType.all) ns.NamespaceType.all
  /\ ns.flagsInOrder (rev ns.NamespaceType.all)
       {| ns.UTS := true; ns.PID := true; ns.Mount := false;
          ns.IPC := true; ns.Net := false; ns.User := false |}
     = ns.CloneFlags
       {| ns.UTS := true; ns.PID := true; ns.Mount := false;
          ns.IPC := true; ns.Net := false; ns.User := false |}.
Proof.
  split.
  - apply Permutation_sym, Permutation_rev.
  - apply (CloneFlags_or_of_enabled
             {| ns.UTS := true; ns.PID := true; ns.Mount := false;
                ns.IPC := true; ns.Net := false; ns.User := false |}).
    apply Permutation_sym, Permutation_rev.
Defined.

(** ** Exit-status translation *)

Lemma land_mask_mod (w : Z) : Z.land w ns.mask = w mod 128.
Proof. change ns.mask with (Z.ones 7). now rewrite Z.land_ones. Qed.

Lemma land_255_mod (w : Z) : Z.land w 0xFF = w mod 256.
Proof. change 0xFF with (Z.ones 8). now rewrite Z.land_ones. Qed.

Lemma Exited_statusExit (c : Z) : ns.Exited (ns.statusExit c) = true.
Proof.
  unfold ns.Exited, ns.statusExit, ns.shift, ns.exited.
  rewrite land_mask_mod, Z.shiftl_mul_pow2 by lia.
  change (2 ^ 8) with (2 * 128). rewrite Z.mul_assoc, Z.mod_mul by lia.
  reflexivity.
Qed.

Lemma ExitStatus_statusExit (c : Z) :
  0 <= c <= 255 -> ns.ExitStatus (ns.statusExit c) = c.
Proof.
  intros Hc. unfold ns.ExitStatus. rewrite Exited_statusExit. simpl negb. cbv iota.
  unfold ns.statusExit, ns.shift.
  rewrite Z.shiftr_shiftl_l, Z.sub_diag, Z.shiftl_0_r by lia.
  change 0xFF with (Z.ones 8). rewrite Z.land_ones by lia.
  apply Z.mod_small. change (2 ^ 8) with 256. lia.
Qed.

Lemma land_mask_statusSignal (s : Z) (dumped : bool) :
  0 <= s < 128 -> Z.land (ns.statusSignal s dumped) ns.mask = s.
Proof.
  intros Hs. unfold ns.statusSignal. destruct dumped.
  - rewrite Z.land_lor_distr_l. change (Z.land ns.core ns.mask) with 0.
    rewrite Z.lor_0_r, land_mask_mod. apply Z.mod_small. lia.
  - rewrite land_mask_mod. apply Z.mod_small. lia.
Qed.

(** C3: [WaitForChild] returns what [waitResult] makes of the status
    the wait stored.  A normal exit gives the exit code unchanged, a
    value from 0 to 255 (the status of exit code [c] gives [c]); a
    death by signal gives 128 plus the signal number (the status of
    signal [s] gives [128 + s]); every other status gives -1 and the
    error "unexpected child status" of the operation "wait for
    child". *)
Theorem WaitForChild_translates_status :
  (forall (os : sysio.OS) (pid : Z) (hist : list sysio.Event),
      sysio.run os (ns.WaitForChild pid) hist
      = ([sysio.Ev (sysio.Wait4 pid) (sysio.answer os hist (sysio.Wait4 pid))],
         sysio.Returned (ns.waitResult (sysio.answer os hist (sysio.Wait4 pid)))))
  /\ (forall c : Z, 0 <= c <= 255 ->
      ns.waitResult (inl (ns.statusExit c)) = (c, None))
  /\ (forall (s : Z) (dumped : bool), 1 <= s < 127 ->
      ns.waitResult (inl (ns.statusSignal s dumped)) = (128 + s, None))
  /\ (forall w : Z, ns.Exited w = true ->
      ns.waitResult (inl w) = (Z.land (Z.shiftr w 8) 0xFF, None)
      /\ 0 <= fst (ns.waitResult (inl w)) <= 255)
  /\ (forall w : Z, ns.Exited w = false -> ns.Signaled w = true ->
      ns.waitResult (inl w) = (128 + Z.land w 0x7F, None))
  /\ (forall w : Z, ns.Exited w = false -> ns.Signaled w = false ->
      ns.waitResult (inl w)
      = (-1, Some (util.NewSimpleError "wait for child" "unexpected child status")))
  /\ ns.waitResult (inl (ns.statusExit 0)) = (0, None)
  /\ ns.waitResult (inl (ns.statusExit 42)) = (42, None)
  /\ ns.waitResult (inl (ns.statusSignal 9 false)) = (137, None).
Proof.
  repeat match goal with |- _ /\ _ => split end; try reflexivity.
  - intros c Hc. unfold ns.waitResult.
    now rewrite Exited_statusExit, ExitStatus_statusExit.
  - intros s dumped Hs. unfold ns.waitResult, ns.Exited, ns.Signal, ns.Signaled.
    rewrite !land_mask_statusSignal by lia. unfold ns.exited, ns.stopped.
    destruct (s =? 0) eqn:E0; [lia |]. destruct (s =? 127) eqn:E1; [lia |].
    reflexivity.
  - intros w Hw. unfold ns.waitResult, ns.ExitStatus. rewrite Hw.
    split; [reflexivity |]. simpl.
    rewrite land_255_mod.
    pose proof (Z.mod_pos_bound (Z.shiftr w ns.shift) 256 eq_refl) as Hb. lia.
  - intros w He Hs. unfold ns.waitResult, ns.Signal. now rewrite He, Hs.
  - intros w He Hs. unfold ns.waitResult. now rewrite He, Hs.
Qed.

Lemma WaitForChild_translates_status_witness :
  ns.waitResult (inl (ns.statusExit 255)) = (255, None)
  /\ ns.waitResult (inl (ns.statusSignal 15 true)) = (143, None)
  /\ ns.waitResult (inl 0x2A00) = (42, None)
  /\ ns.waitResult (inl 0x8B) = (139, None)
  /\ ns.waitResult (inl 0x137F)
     = (-1, Some (util.NewSimpleError "wait for child" "unexpected child status")).
Proof.
  pose proof WaitForChild_translates_status as (_ & Hexit & Hsig & Hex & Hsg & Hother & _).
  split; [apply (Hexit 255); lia |].
  split; [apply (Hsig 15 true); lia |].
  split; [apply (Hex 0x2A00); reflexivity |].
  split; [apply (Hsg 0x8B); reflexivity |].
  apply (Hother 0x137F); reflexivity.
Defined.

(** ** The choice of the command *)

(** C2, as the code has it: a non-empty [--cmd] takes priority over the
    positional arguments and the bundle, and the final argument list is
    the one-element list holding the flag's value as given, without
    splitting it at spaces; with an empty [--cmd] and positional
    arguments, the final arguments are the positional list; with
    neither, they are the arguments of the bundle. *)
Theorem finalArgs_precedence
    (cmd : string) (positionalArgs bundleArgs : slice string) :
  (cmd <> EmptyString ->
     main.finalArgs cmd positionalArgs bundleArgs = Some [cmd])
  /\ (cmd = EmptyString -> (0 < len positionalArgs)%nat ->
     main.finalArgs cmd positionalArgs bundleArgs = positionalArgs)
  /\ (cmd = EmptyString -> len positionalArgs = 0%nat ->
     main.finalArgs cmd positionalArgs bundleArgs = bundleArgs).
Proof.
  unfold main.finalArgs. repeat split.
  - intros Hcmd. apply String.eqb_neq in Hcmd. now rewrite Hcmd.
  - intros -> Hpos. simpl. apply Nat.ltb_lt in Hpos. now rewrite Hpos.
  - intros -> Hpos. simpl. now rewrite Hpos.
Qed.

Lemma finalArgs_precedence_witness :
  main.finalArgs "/bin/echo hi" (Some ["/bin/sh"; "-c"; "true"]%string) (Some ["/bin/sh"%string])
    = Some ["/bin/echo hi"%string]
  /\ main.finalArgs "" (Some ["/bin/sh"; "-c"; "true"]%string) (Some ["/bin/sh"%string])
    = Some ["/bin/sh"; "-c"; "true"]%string
  /\ main.finalArgs "" (Some []) (Some ["/bin/sh"%string]) = Some ["/bin/sh"%string].
Proof.
  split; [| split].
  - apply (finalArgs_precedence "/bin/echo hi"). discriminate.
  - apply (finalArgs_precedence ""); [reflexivity | simpl; lia].
  - apply (finalArgs_precedence ""); reflexivity.
Defined.

(** C2 as stated fails: overriding the command to [/bin/echo hi] gives
    the one-element list [["/bin/echo hi"]], not [["/bin/echo"; "hi"]]. *)
Lemma finalArgs_cmd_not_split :
  main.finalArgs "/bin/echo hi" (Some []) (Some ["/bin/sh"%string])
    <> Some ["/bin/echo"; "hi"]%string
  /\ main.finalArgs "/bin/echo hi" (Some []) (Some ["/bin/sh"%string])
    = Some ["/bin/echo hi"%string].
Proof. split; [discriminate | reflexivity]. Qed.

(** ** Running programs *)

Section RunFacts.
Import sysio.

Variable os : OS.

Lemma run_bind {A B : Type} (p : Prog A) (f : A -> Prog B) (hist : list Event) :
  run os (bind p f) hist =
  match run os p hist with
  | (tr1, Returned a) =>
      let (tr2, o) := run os (f a) (hist ++ tr1) in (tr1 ++ tr2, o)
  | (tr1, Replaced) => (tr1, Replaced)
  end.
Proof.
  revert hist.
  induction p as [a | c k IH | b a e k IH]; intros hist; simpl.
  - rewrite app_nil_r. now destruct (run os (f a) hist).
  - rewrite IH.
    destruct (run os (k (answer os hist c)) (hist ++ [Ev c (answer os hist c)]))
      as [tr1 [a |]]; [| reflexivity].
    rewrite <- app_assoc. simpl.
    now destruct (run os (f a) (hist ++ Ev c (answer os hist c) :: tr1)).
  - destruct (execve os hist b a e) as [err |]; [| reflexivity].
    rewrite IH.
    destruct (run os (k err) (hist ++ [EvExec b a e (Some err)]))
      as [tr1 [x |]]; [| reflexivity].
    rewrite <- app_assoc. simpl.
    now destruct (run os (f x) (hist ++ EvExec b a e (Some err) :: tr1)).
Qed.

Lemma run_call_bind {B : Type} (c : Call) (f : Reply c -> Prog B) (hist : list Event) :
  run os (bind (call c) f) hist =
  let r := answer os hist c in
  let (tr, o) := run os (f r) (hist ++ [Ev c r]) in (Ev c r :: tr, o).
Proof. reflexivity. Qed.

End RunFacts.

(** One step of a run: name the answer of the next call and split on
    it. *)
Ltac next_answer :=
  match goal with
  | |- context [sysio.answer ?os ?h ?c] =>
      let r := fresh "r" in
      destruct (sysio.answer os h c) as [r |] eqn:?; simpl
  end.

Ltac next_unit :=
  match goal with
  | |- context [sysio.answer ?os ?h (sysio.FprintfStderr ?f ?e)] =>
      destruct (sysio.answer os h (sysio.FprintfStderr f e)); simpl
  end.

(** ** Switching the root file system *)

Section SwitchRootFacts.
Import sysio.

Variable os : OS.
Variable rm : fs.RootfsManager.

(** The three steps of [SwitchRoot] run to their end. *)
Lemma PrepareRootfs_returns (hist : list Event) :
  exists tr err, run os (fs.PrepareRootfs rm) hist = (tr, Returned err).
Proof.
  unfold fs.PrepareRootfs. simpl.
  destruct (IsNotExist _); simpl; [eauto |].
  next_answer; eauto.
Qed.

Lemma PivotRoot_returns (hist : list Event) :
  exists tr err, run os (fs.PivotRoot rm) hist = (tr, Returned err).
Proof.
  unfold fs.PivotRoot. simpl.
  next_answer; [eauto |].
  next_answer; [eauto |].
  next_answer; [next_unit |]; next_answer; try next_unit; eauto.
Qed.

Lemma ChrootFallback_returns (hist : list Event) :
  exists tr err, run os (fs.ChrootFallback rm) hist = (tr, Returned err).
Proof.
  unfold fs.ChrootFallback. simpl.
  next_answer; [eauto |].
  next_answer; [eauto |].
  next_answer; eauto.
Qed.

Import props.

Lemma SwitchRoot_prepare_fails (hist t1 : list Event) (e : error) :
  run os (fs.PrepareRootfs rm) hist = (t1, Returned (Some e)) ->
  run os (fs.SwitchRoot rm) hist = (t1, Returned (Some (Wrapped "prepare rootfs" e))).
Proof.
  intros H. unfold fs.SwitchRoot. rewrite run_bind, H. simpl.
  now rewrite app_nil_r.
Qed.

Lemma SwitchRoot_pivot_succeeds (hist t1 t2 : list Event) :
  run os (fs.PrepareRootfs rm) hist = (t1, Returned None) ->
  run os (fs.PivotRoot rm) (hist ++ t1) = (t2, Returned None) ->
  run os (fs.SwitchRoot rm) hist = (t1 ++ t2, Returned None).
Proof.
  intros H1 H2. unfold fs.SwitchRoot. rewrite run_bind, H1. cbv beta iota.
  rewrite run_bind, H2. simpl. now rewrite app_nil_r.
Qed.

Lemma SwitchRoot_pivot_fails (hist t1 t2 t3 : list Event) (e : error) (r : option error) :
  run os (fs.PrepareRootfs rm) hist = (t1, Returned None) ->
  run os (fs.PivotRoot rm) (hist ++ t1) = (t2, Returned (Some e)) ->
  run os (fs.ChrootFallback rm) (hist ++ t1 ++ t2 ++ [pivotLog e]) = (t3, Returned r) ->
  run os (fs.SwitchRoot rm) hist
  = (t1 ++ t2 ++ pivotLog e :: t3, Returned (util.WrapError "chroot fallback" r)).
Proof.
  intros H1 H2 H3. unfold fs.SwitchRoot. rewrite run_bind, H1. cbv beta iota.
  rewrite run_bind, H2. cbv beta iota.
  rewrite run_call_bind. cbv zeta.
  destruct (answer os ((hist ++ t1) ++ t2) _).
  rewrite run_bind. fold (pivotLog e).
  replace (((hist ++ t1) ++ t2) ++ [pivotLog e]) with (hist ++ t1 ++ t2 ++ [pivotLog e])
    by now rewrite !app_assoc.
  rewrite H3. destruct r; simpl; now rewrite app_nil_r.
Qed.

End SwitchRootFacts.

(** C5: [SwitchRoot] runs [PrepareRootfs] first and returns its error,
    wrapped, when it fails; otherwise it runs [PivotRoot] and succeeds
    when that succeeds; when [PivotRoot] fails it writes the failure to
    the standard error stream and runs [ChrootFallback], whose result,
    success or wrapped error, is the result of [SwitchRoot].  So
    [SwitchRoot] returns an error only if [PrepareRootfs] fails or both
    [PivotRoot] and [ChrootFallback] fail. *)
Theorem SwitchRoot_pivot_then_chroot
    (os : sysio.OS) (rm : fs.RootfsManager) (hist : list sysio.Event) :
  (forall t1 e,
      sysio.run os (fs.PrepareRootfs rm) hist = (t1, sysio.Returned (Some e)) ->
      sysio.run os (fs.SwitchRoot rm) hist
      = (t1, sysio.Returned (Some (Wrapped "prepare rootfs" e))))
  /\ (forall t1 t2,
      sysio.run os (fs.PrepareRootfs rm) hist = (t1, sysio.Returned None) ->
      sysio.run os (fs.PivotRoot rm) (hist ++ t1) = (t2, sysio.Returned None) ->
      sysio.run os (fs.SwitchRoot rm) hist = (t1 ++ t2, sysio.Returned None))
  /\ (forall t1 t2 t3 e r,
      sysio.run os (fs.PrepareRootfs rm) hist = (t1, sysio.Returned None) ->
      sysio.run os (fs.PivotRoot rm) (hist ++ t1) = (t2, sysio.Returned (Some e)) ->
      sysio.run os (fs.ChrootFallback rm) (hist ++ t1 ++ t2 ++ [props.pivotLog e])
      = (t3, sysio.Returned r) ->
      sysio.run os (fs.SwitchRoot rm) hist
      = (t1 ++ t2 ++ props.pivotLog e :: t3,
         sysio.Returned (util.WrapError "chroot fallback" r)))
  /\ (forall tr err,
      sysio.run os (fs.SwitchRoot rm) hist = (tr, sysio.Returned (Some err)) ->
      (exists e, sysio.run os (fs.PrepareRootfs rm) hist = (tr, sysio.Returned (Some e)))
      \/ (exists t1 t2 t3 e ce,
            sysio.run os (fs.PrepareRootfs rm) hist = (t1, sysio.Returned None)
            /\ sysio.run os (fs.PivotRoot rm) (hist ++ t1) = (t2, sysio.Returned (Some e))
            /\ sysio.run os (fs.ChrootFallback rm) (hist ++ t1 ++ t2 ++ [props.pivotLog e])
               = (t3, sysio.Returned (Some ce)))).
Proof.
  split; [| split; [| split]].
  - intros t1 e. apply SwitchRoot_prepare_fails.
  - intros t1 t2. apply SwitchRoot_pivot_succeeds.
  - intros t1 t2 t3 e r. apply SwitchRoot_pivot_fails.
  - intros tr err Hrun.
    destruct (PrepareRootfs_returns os rm hist) as (t1 & [e |] & H1).
    + left. exists e.
      rewrite (SwitchRoot_prepare_fails os rm hist t1 e H1) in Hrun.
      now inversion Hrun; subst.
    + right.
      destruct (PivotRoot_returns os rm (hist ++ t1)) as (t2 & [e |] & H2).
      * destruct (ChrootFallback_returns os rm (hist ++ t1 ++ t2 ++ [props.pivotLog e]))
          as (t3 & [ce |] & H3).
        -- now exists t1, t2, t3, e, ce.
        -- rewrite (SwitchRoot_pivot_fails os rm hist t1 t2 t3 e None H1 H2 H3) in Hrun.
           discriminate.
      * rewrite (SwitchRoot_pivot_succeeds os rm hist t1 t2 H1 H2) in Hrun.
        discriminate.
Qed.

Lemma SwitchRoot_pivot_then_chroot_witness :
  sysio.run props.pivotFails (fs.SwitchRoot props.bundleRoot) []
  = ([ sysio.Ev (sysio.Stat (Join (Lit "/bundle") "rootfs")) None;
       sysio.Ev (sysio.MkdirAll (Join (Join (Lit "/bundle") "rootfs") ".old_root") 493) None;
       sysio.Ev (sysio.Pivot_root (Join (Lit "/bundle") "rootfs")
                   (Join (Join (Lit "/bundle") "rootfs") ".old_root"))
         (Some (Errno 22));
       props.pivotLog (util.NewError "pivot_root" (Errno 22));
       sysio.Ev (sysio.Chdir (Join (Lit "/bundle") "rootfs")) None;
       sysio.Ev (sysio.Chroot (Lit ".")) None;
       sysio.Ev (sysio.Chdir (Lit "/")) None ],
     sysio.Returned None)
  /\ sysio.run props.nothingExists (fs.SwitchRoot props.bundleRoot) []
     = ([ sysio.Ev (sysio.Stat (Join (Lit "/bundle") "rootfs")) (Some (Errno 2)) ],
        sysio.Returned
          (Some (Wrapped "prepare rootfs"
                   (util.NewPathError "prepare rootfs" (Join (Lit "/bundle") "rootfs")
                      (ErrorString "rootfs path does not exist")))))
  /\ sysio.run props.allSucceed (fs.SwitchRoot props.bundleRoot) []
     = ([ sysio.Ev (sysio.Stat (Join (Lit "/bundle") "rootfs")) None;
          sysio.Ev (sysio.MkdirAll (Join (Join (Lit "/bundle") "rootfs") ".old_root") 493) None;
          sysio.Ev (sysio.Pivot_root (Join (Lit "/bundle") "rootfs")
                      (Join (Join (Lit "/bundle") "rootfs") ".old_root")) None;
          sysio.Ev (sysio.Chdir (Lit "/")) None;
          sysio.Ev (sysio.Unmount (Lit "/.old_root") 2) None;
          sysio.Ev (sysio.RemoveAll (Lit "/.old_root")) None ],
        sysio.Returned None)
  /\ (exists e t1 t2 t3 ce,
         sysio.run props.pivotAndChrootFail (fs.PrepareRootfs props.bundleRoot) []
         = (t1, sysio.Returned None)
         /\ sysio.run props.pivotAndChrootFail (fs.PivotRoot props.bundleRoot) ([] ++ t1)
            = (t2, sysio.Returned (Some e))
         /\ sysio.run props.pivotAndChrootFail (fs.ChrootFallback props.bundleRoot)
              ([] ++ t1 ++ t2 ++ [props.pivotLog e])
            = (t3, sysio.Returned (Some ce))).
Proof.
  pose proof (SwitchRoot_pivot_then_chroot props.pivotFails props.bundleRoot [])
    as (_ & _ & Hfallback & _).
  pose proof (SwitchRoot_pivot_then_chroot props.nothingExists props.bundleRoot [])
    as (Hprepare & _).
  pose proof (SwitchRoot_pivot_then_chroot props.allSucceed props.bundleRoot [])
    as (_ & Hpivot & _).
  pose proof (SwitchRoot_pivot_then_chroot props.pivotAndChrootFail props.bundleRoot [])
    as (_ & _ & _ & Honly).
  split; [| split; [| split]].
  - apply (Hfallback
             [ sysio.Ev (sysio.Stat (Join (Lit "/bundle") "rootfs")) None;
               sysio.Ev (sysio.MkdirAll (Join (Join (Lit "/bundle") "rootfs") ".old_root") 493)
                 None ]
             [ sysio.Ev (sysio.Pivot_root (Join (Lit "/bundle") "rootfs")
                           (Join (Join (Lit "/bundle") "rootfs") ".old_root"))
                 (Some (Errno 22)) ]
             [ sysio.Ev (sysio.Chdir (Join (Lit "/bundle") "rootfs")) None;
               sysio.Ev (sysio.Chroot (Lit ".")) None;
               sysio.Ev (sysio.Chdir (Lit "/")) None ]
             (util.NewError "pivot_root" (Errno 22)) None); reflexivity.
  - apply Hprepare. reflexivity.
  - apply (Hpivot
             [ sysio.Ev (sysio.Stat (Join (Lit "/bundle") "rootfs")) None;
               sysio.Ev (sysio.MkdirAll (Join (Join (Lit "/bundle") "rootfs") ".old_root") 493)
                 None ]); reflexivity.
  - destruct (Honly
                [ sysio.Ev (sysio.Stat (Join (Lit "/bundle") "rootfs")) None;
                  sysio.Ev (sysio.MkdirAll (Join (Join (Lit "/bundle") "rootfs") ".old_root") 493)
                    None;
                  sysio.Ev (sysio.Pivot_root (Join (Lit "/bundle") "rootfs")
                              (Join (Join (Lit "/bundle") "rootfs") ".old_root"))
                    (Some (Errno 22));
                  props.pivotLog (util.NewError "pivot_root" (Errno 22));
                  sysio.Ev (sysio.Chdir (Join (Lit "/bundle") "rootfs")) None;
                  sysio.Ev (sysio.Chroot (Lit ".")) (Some (Errno 1)) ]
                (Wrapped "chroot fallback" (util.NewError "chroot" (Errno 1)))
                eq_refl) as [(e & He) | (t1 & t2 & t3 & e & ce & H)].
    + discriminate He.
    + now exists e, t1, t2, t3, ce.
Defined.

(** C6: when the rootfs path does not exist, the only call
    [SwitchRoot] makes is the [Stat] of that path: it returns the
    error "rootfs path does not exist" of the operation "prepare
    rootfs" without creating the staging directory and without any
    mount, pivot_root or chroot. *)
Theorem SwitchRoot_missing_rootfs
    (os : sysio.OS) (rm : fs.RootfsManager) (hist : list sysio.Event) :
  IsNotExist (sysio.answer os hist (sysio.Stat (fs.RootfsPath rm))) = true ->
  sysio.run os (fs.SwitchRoot rm) hist
  = ([sysio.Ev (sysio.Stat (fs.RootfsPath rm))
        (sysio.answer os hist (sysio.Stat (fs.RootfsPath rm)))],
     sysio.Returned
       (Some (Wrapped "prepare rootfs"
                (util.NewPathError "prepare rootfs" (fs.RootfsPath rm)
                   (ErrorString "rootfs path does not exist")))))
  /\ forallb (fun c => negb (props.changesMounts c))
       (sysio.calls (fst (sysio.run os (fs.SwitchRoot rm) hist))) = true.
Proof.
  intros Hstat.
  assert (sysio.run os (fs.SwitchRoot rm) hist
          = ([sysio.Ev (sysio.Stat (fs.RootfsPath rm))
                (sysio.answer os hist (sysio.Stat (fs.RootfsPath rm)))],
             sysio.Returned
               (Some (Wrapped "prepare rootfs"
                        (util.NewPathError "prepare rootfs" (fs.RootfsPath rm)
                           (ErrorString "rootfs path does not exist")))))) as Hrun.
  { unfold fs.SwitchRoot, fs.PrepareRootfs. simpl. rewrite Hstat. reflexivity. }
  split; [exact Hrun |]. rewrite Hrun. reflexivity.
Qed.

Lemma SwitchRoot_missing_rootfs_witness :
  sysio.run props.nothingExists (fs.SwitchRoot props.bundleRoot) []
  = ([ sysio.Ev (sysio.Stat (Join (Lit "/bundle") "rootfs")) (Some (Errno 2)) ],
     sysio.Returned
       (Some (Wrapped "prepare rootfs"
                (util.NewPathError "prepare rootfs" (Join (Lit "/bundle") "rootfs")
                   (ErrorString "rootfs path does not exist"))))).
Proof.
  apply (SwitchRoot_missing_rootfs props.nothingExists props.bundleRoot []).
  reflexivity.
Defined.

(** ** Control groups *)

Section ApplyLimitsFacts.
Import sysio.

Variable os : OS.
Variable cm : cg.CgroupManager.

(** The calls of [ApplyLimits], whatever the answers: a prefix of the
    three writes, each present only under its guard. *)
Lemma ApplyLimits_calls (limits : cg.ResourceLimits) (hist : list Event) :
  exists n,
    calls (fst (run os (cg.ApplyLimits cm limits) hist)) =
    firstn n
      ((if 0 <? cg.CPUQuota limits
        then [WriteFile (Join (cg.CgroupPath cm) "cpu.max") (props.cpuMaxValue limits) perm0644]
        else [])
       ++ (if 0 <? cg.Memory limits
           then [WriteFile (Join (cg.CgroupPath cm) "memory.max")
                   (strconv.FormatInt (cg.Memory limits)) perm0644]
           else [])
       ++ (if 0 <? cg.Pids limits
           then [WriteFile (Join (cg.CgroupPath cm) "pids.max")
                   (strconv.Itoa (cg.Pids limits)) perm0644]
           else [])).
Proof.
  unfold cg.ApplyLimits, cg.guarded, cg.setCPULimit, cg.setMemoryLimit, cg.setPidsLimit,
    props.cpuMaxValue, cg.defaultCPUPeriod.
  destruct (0 <? cg.CPUQuota limits), (0 <? cg.Memory limits), (0 <? cg.Pids limits);
    simpl; repeat next_answer;
    first [ now exists 0%nat | now exists 1%nat | now exists 2%nat | now exists 3%nat ].
Qed.

End ApplyLimitsFacts.

Lemma In_firstn_In {A : Type} (x : A) (n : nat) (l : list A) :
  In x (firstn n l) -> In x l.
Proof.
  revert l. induction n as [| n IH]; intros [| y l]; simpl; try tauto.
  intros [H | H]; [now left | right; now apply IH].
Qed.

(** C7: [ApplyLimits] writes cpu.max only if the quota is positive, and
    then the text is the quota, a space and the period, with 100000 in
    place of a zero period; it writes memory.max only if the memory
    limit is positive and pids.max only if the pids limit is positive;
    it makes no other call.  With quota 0, memory 0 and pids 5 its one
    call is the write of "5" to pids.max. *)
Theorem ApplyLimits_writes_only_set_limits
    (os : sysio.OS) (cm : cg.CgroupManager) (limits : cg.ResourceLimits)
    (hist : list sysio.Event) :
  let written := sysio.calls (fst (sysio.run os (cg.ApplyLimits cm limits) hist)) in
  (forall data perm,
      In (sysio.WriteFile (Join (cg.CgroupPath cm) "cpu.max") data perm) written ->
      0 < cg.CPUQuota limits /\ data = props.cpuMaxValue limits)
  /\ (forall data perm,
      In (sysio.WriteFile (Join (cg.CgroupPath cm) "memory.max") data perm) written ->
      0 < cg.Memory limits /\ data = strconv.FormatInt (cg.Memory limits))
  /\ (forall data perm,
      In (sysio.WriteFile (Join (cg.CgroupPath cm) "pids.max") data perm) written ->
      0 < cg.Pids limits /\ data = strconv.Itoa (cg.Pids limits))
  /\ (forall c, In c written ->
      exists elem data,
        c = sysio.WriteFile (Join (cg.CgroupPath cm) elem) data perm0644
        /\ (elem = "cpu.max" \/ elem = "memory.max" \/ elem = "pids.max")%string)
  /\ (forall period,
      sysio.calls
        (fst (sysio.run os
                (cg.ApplyLimits cm
                   {| cg.CPUQuota := 0; cg.CPUPeriod := period;
                      cg.Memory := 0; cg.Pids := 5 |}) hist))
      = [sysio.WriteFile (Join (cg.CgroupPath cm) "pids.max") "5" perm0644]).
Proof.
  intros written. subst written.
  destruct (ApplyLimits_calls os cm limits hist) as (n & Hcalls). rewrite Hcalls.
  repeat match goal with |- _ /\ _ => split end.
  - intros data perm Hin. apply In_firstn_In in Hin.
    destruct (0 <? cg.CPUQuota limits) eqn:Hq, (0 <? cg.Memory limits),
      (0 <? cg.Pids limits); simpl in Hin;
      try contradiction;
      repeat (destruct Hin as [Hin | Hin]; try discriminate Hin; try contradiction);
      inversion Hin; (split; [lia | reflexivity]).
  - intros data perm Hin. apply In_firstn_In in Hin.
    destruct (0 <? cg.CPUQuota limits), (0 <? cg.Memory limits) eqn:Hm,
      (0 <? cg.Pids limits); simpl in Hin;
      try contradiction;
      repeat (destruct Hin as [Hin | Hin]; try discriminate Hin; try contradiction);
      inversion Hin; (split; [lia | reflexivity]).
  - intros data perm Hin. apply In_firstn_In in Hin.
    destruct (0 <? cg.CPUQuota limits), (0 <? cg.Memory limits),
      (0 <? cg.Pids limits) eqn:Hp; simpl in Hin;
      try contradiction;
      repeat (destruct Hin as [Hin | Hin]; try discriminate Hin; try contradiction);
      inversion Hin; (split; [lia | reflexivity]).
  - intros c Hin. apply In_firstn_In in Hin.
    destruct (0 <? cg.CPUQuota limits), (0 <? cg.Memory limits),
      (0 <? cg.Pids limits); simpl in Hin;
      try contradiction;
      repeat (destruct Hin as [Hin | Hin]; try contradiction);
      subst c; eauto 10.
  - intros period. unfold cg.ApplyLimits, cg.guarded, cg.setPidsLimit. simpl.
    next_answer; reflexivity.
Qed.

Lemma ApplyLimits_writes_only_set_limits_witness :
  In (sysio.WriteFile (Join (cg.CgroupPath props.someCgroup) "cpu.max") "50000 100000" 420)
     (sysio.calls
        (fst (sysio.run (props.cgroupDenies ["memory.max"%string])
                (cg.ApplyLimits props.someCgroup
                   {| cg.CPUQuota := 50000; cg.CPUPeriod := 0;
                      cg.Memory := 134217728; cg.Pids := 64 |}) [])))
  /\ 0 < 50000
  /\ "50000 100000"%string
     = props.cpuMaxValue {| cg.CPUQuota := 50000; cg.CPUPeriod := 0;
                            cg.Memory := 134217728; cg.Pids := 64 |}.
Proof.
  assert (In (sysio.WriteFile (Join (cg.CgroupPath props.someCgroup) "cpu.max")
                "50000 100000" 420)
            (sysio.calls
               (fst (sysio.run (props.cgroupDenies ["memory.max"%string])
                       (cg.ApplyLimits props.someCgroup
                          {| cg.CPUQuota := 50000; cg.CPUPeriod := 0;
                             cg.Memory := 134217728; cg.Pids := 64 |}) [])))) as Hin.
  { simpl. left. reflexivity. }
  split; [exact Hin |].
  exact (proj1 (ApplyLimits_writes_only_set_limits
                  (props.cgroupDenies ["memory.max"%string]) props.someCgroup
                  {| cg.CPUQuota := 50000; cg.CPUPeriod := 0;
                     cg.Memory := 134217728; cg.Pids := 64 |} [])
           "50000 100000"%string 420 Hin).
Defined.

(** Telling the events of a trace apart by their call and, for a read,
    by what it gave. *)
Ltac same_event H :=
  let Hc := fresh "Hc" in
  let Hr := fresh "Hr" in
  pose proof (f_equal sysio.callOf H) as Hc;
  pose proof (f_equal props.readReply H) as Hr;
  simpl in Hc, Hr; try discriminate Hc; try discriminate Hr; clear H.

Ltac in_trace H :=
  simpl in H;
  repeat match type of H with
         | _ \/ _ => destruct H as [H | H]
         | False => contradiction
         | _ = _ => same_event H
         end.

(** C8: [GetStats] returns a nil error whatever the three reads give.
    When the read of cpu.stat fails the CPU usage of the result is
    zero, and the failure is written to the standard error stream;
    likewise for memory.current and the memory usage, and for
    pids.current and the number of processes.  The only calls are the
    reads and these messages. *)
Theorem GetStats_never_fails
    (Fields : string -> list string) (TrimSpace : string -> string)
    (os : sysio.OS) (cm : cg.CgroupManager) (hist : list sysio.Event) :
  let tr := fst (sysio.run os (cg.GetStats Fields TrimSpace cm) hist) in
  exists stats : cg.ResourceStats,
    snd (sysio.run os (cg.GetStats Fields TrimSpace cm) hist)
    = sysio.Returned (stats, None)
    /\ (forall err,
          In (sysio.Ev (sysio.ReadFile (Join (cg.CgroupPath cm) "cpu.stat")) (inr err)) tr ->
          cg.CPUUsage stats = 0
          /\ In (sysio.Ev (sysio.FprintfStderr
                             "Warning: failed to read CPU stats: %v\n" err) tt) tr)
    /\ (forall err,
          In (sysio.Ev (sysio.ReadFile (Join (cg.CgroupPath cm) "memory.current")) (inr err)) tr ->
          cg.MemoryUsage stats = 0
          /\ In (sysio.Ev (sysio.FprintfStderr
                             "Warning: failed to read memory stats: %v\n" err) tt) tr)
    /\ (forall err,
          In (sysio.Ev (sysio.ReadFile (Join (cg.CgroupPath cm) "pids.current")) (inr err)) tr ->
          cg.PidsCount stats = 0
          /\ In (sysio.Ev (sysio.FprintfStderr
                             "Warning: failed to read pids stats: %v\n" err) tt) tr)
    /\ forallb props.isReadOrLog (sysio.calls tr) = true.
Proof.
  intros tr. subst tr.
  unfold cg.GetStats, cg.readCPUStat, cg.readMemoryStat, cg.readPidsStat.
  set (parseInt := strconv.ParseInt). set (atoi := strconv.Atoi).
  set (usage := cg.usageOf Fields). clearbody parseInt atoi usage. simpl.
  destruct (sysio.answer os hist _) as [cpuData | cpuErr]; simpl;
    [| destruct (sysio.answer os _ (sysio.FprintfStderr _ _)); simpl ].
  all: destruct (sysio.answer os _ (sysio.ReadFile (Join _ "memory.current")))
      as [memData | memErr]; simpl;
    [ destruct (parseInt (TrimSpace memData)) as [mem | memErr]; simpl | ].
  all: try (destruct (sysio.answer os _ (sysio.FprintfStderr _ memErr)); simpl).
  all: destruct (sysio.answer os _ (sysio.ReadFile (Join _ "pids.current")))
      as [pidsData | pidsErr]; simpl;
    [ destruct (atoi (TrimSpace pidsData)) as [pids | pidsErr]; simpl | ].
  all: try (destruct (sysio.answer os _ (sysio.FprintfStderr _ pidsErr)); simpl).
  all: eexists; split; [reflexivity |].
  all: split; [| split; [| split; [| reflexivity]]].
  all: intros err Hin; in_trace Hin; try (injection Hr as ->);
    (split; [reflexivity | simpl; auto 10]).
Qed.

Lemma GetStats_never_fails_witness :
  exists stats : cg.ResourceStats,
    snd (sysio.run (props.cgroupDenies ["cpu.stat"%string])
           (cg.GetStats props.fieldsAtSpaces props.noTrim props.someCgroup) [])
    = sysio.Returned (stats, None)
    /\ cg.CPUUsage stats = 0
    /\ In (sysio.Ev (sysio.FprintfStderr "Warning: failed to read CPU stats: %v\n"
                       (Errno 13)) tt)
          (fst (sysio.run (props.cgroupDenies ["cpu.stat"%string])
                  (cg.GetStats props.fieldsAtSpaces props.noTrim props.someCgroup) [])).
Proof.
  destruct (GetStats_never_fails props.fieldsAtSpaces props.noTrim
              (props.cgroupDenies ["cpu.stat"%string]) props.someCgroup [])
    as (stats & Hret & Hcpu & _).
  exists stats. split; [exact Hret |].
  apply (Hcpu (Errno 13)). simpl. left. reflexivity.
Defined.

(** ** The container process *)

(** C10: with no arguments [execProcess] returns the error "no command
    specified" and makes no call, so the process image is not
    replaced.  Otherwise its one call is [syscall.Exec] of the first
    argument with all the arguments, and the environment it passes is
    the default PATH when the configured list is nil, and the
    configured list itself when it is not nil, be it empty. *)
Theorem execProcess_environment
    (os : sysio.OS) (cp : proc.ContainerProcess) (hist : list sysio.Event) :
  (len (proc.Args cp) = 0%nat ->
     sysio.run os (proc.execProcess cp) hist
     = ([], sysio.Returned
              (Some (util.NewSimpleError "exec process" "no command specified"))))
  /\ (len (proc.Args cp) <> 0%nat -> proc.Env cp = None ->
     exists r,
       fst (sysio.run os (proc.execProcess cp) hist)
       = [sysio.EvExec (hd EmptyString (elems (proc.Args cp))) (proc.Args cp)
            (Some ["PATH=/usr/local/sbin:/usr/local/bin:/usr/sbin:/usr/bin:/sbin:/bin"%string])
            r])
  /\ (forall env : list string,
     len (proc.Args cp) <> 0%nat -> proc.Env cp = Some env ->
     exists r,
       fst (sysio.run os (proc.execProcess cp) hist)
       = [sysio.EvExec (hd EmptyString (elems (proc.Args cp))) (proc.Args cp)
            (Some env) r]).
Proof.
  unfold proc.execProcess. split; [| split].
  - intros Hlen. now rewrite Hlen.
  - intros Hlen Henv. apply Nat.eqb_neq in Hlen. rewrite Hlen, Henv. simpl.
    destruct (sysio.execve os hist _ _ _); simpl; eauto.
  - intros env Hlen Henv. apply Nat.eqb_neq in Hlen. rewrite Hlen, Henv. simpl.
    destruct (sysio.execve os hist _ _ _); simpl; eauto.
Qed.

Lemma execProcess_environment_witness :
  (exists r,
      fst (sysio.run props.allSucceed (proc.execProcess props.someProcess) [])
      = [sysio.EvExec "/bin/sh" (Some ["/bin/sh"%string]) (Some []) r])
  /\ sysio.run props.allSucceed
       (proc.execProcess (proc.setArgs props.someProcess (Some []))) []
     = ([], sysio.Returned
              (Some (util.NewSimpleError "exec process" "no command specified")))
  /\ (exists r,
      fst (sysio.run props.allSucceed
             (proc.execProcess props.processWithoutEnv) [])
      = [sysio.EvExec "/bin/true" (Some ["/bin/true"%string])
           (Some ["PATH=/usr/local/sbin:/usr/local/bin:/usr/sbin:/usr/bin:/sbin:/bin"%string])
           r]).
Proof.
  split; [| split].
  - apply (proj2 (proj2 (execProcess_environment props.allSucceed props.someProcess []))
             []); [discriminate | reflexivity].
  - apply (execProcess_environment props.allSucceed
             (proc.setArgs props.someProcess (Some [])) []).
    reflexivity.
  - apply (proj1 (proj2 (execProcess_environment props.allSucceed
                           props.processWithoutEnv [])));
      [discriminate | reflexivity].
Defined.

Ltac same_wait H :=
  let Hc := fresh "Hc" in
  let Hr := fresh "Hr" in
  let Hs := fresh "Hs" in
  pose proof (f_equal sysio.callOf H) as Hc;
  pose proof (f_equal props.waitReply H) as Hr;
  pose proof (f_equal props.startReply H) as Hs;
  simpl in Hc, Hr, Hs; try discriminate Hc; try discriminate Hr; try discriminate Hs;
  clear H.

Ltac in_run H :=
  simpl in H;
  repeat match type of H with
         | _ \/ _ => destruct H as [H | H]
         | False => contradiction
         | _ = _ => same_wait H
         end.

(** C9: with a control group configured, whenever [runWithPIDNamespace]
    has waited for the child, whatever the wait reported, the removal
    of the control group directory is among the calls made after the
    wait and not among those before it, and the function returns: nil
    after a successful wait, the wrapped error after a failed one.  The
    wait is reached whenever the child was started. *)
Theorem runWithPIDNamespace_cleans_up
    (os : sysio.OS) (cp : proc.ContainerProcess) (cm : cg.CgroupManager)
    (nsConfig : ns.NamespaceConfig) (hist : list sysio.Event) :
  proc.CgroupManager cp = Some cm ->
  let tr := fst (sysio.run os (proc.runWithPIDNamespace cp nsConfig) hist) in
  (exists err,
      snd (sysio.run os (proc.runWithPIDNamespace cp nsConfig) hist) = sysio.Returned err)
  /\ (forall cmd pid,
      In (sysio.Ev (sysio.Start cmd) (inl pid)) tr ->
      exists r, In (sysio.Ev (sysio.Wait cmd) r) tr)
  /\ (forall cmd (r : option error),
      In (sysio.Ev (sysio.Wait cmd) r) tr ->
      In (sysio.RemoveAll (cg.CgroupPath cm)) (sysio.calls (props.afterWait tr))
      /\ ~ In (sysio.RemoveAll (cg.CgroupPath cm)) (sysio.calls (props.beforeWait tr))
      /\ snd (sysio.run os (proc.runWithPIDNamespace cp nsConfig) hist)
         = sysio.Returned
             match r with
             | Some err => Some (util.NewError "wait for container process" err)
             | None => None
             end).
Proof.
  intros Hcm tr. subst tr.
  unfold proc.runWithPIDNamespace, cg.AddProcess, cg.Cleanup. rewrite Hcm.
  set (mkcmd := proc.initCommand cp nsConfig). clearbody mkcmd. simpl.
  destruct (sysio.answer os hist sysio.Pipe) as [[r w] | pipeErr]; simpl.
  2: { split; [eauto |]. split; intros ? ? Hin; in_run Hin. }
  set (environ := sysio.answer os _ sysio.Environ). clearbody environ.
  destruct (sysio.answer os _ (sysio.Start _)) as [pid | startErr]; simpl.
  2: { split; [eauto |]. split; intros ? ? Hin; in_run Hin. }
  destruct (sysio.answer os _ (sysio.WriteFile _ _ _)) as [addErr |]; simpl;
    [destruct (sysio.answer os _ (sysio.FprintfStderr _ _)); simpl |].
  all: destruct (sysio.answer os _ (sysio.Wait _)) as [waitErr |]; simpl.
  all: destruct (sysio.answer os _ (sysio.RemoveAll _)) as [rmErr |]; simpl.
  all: try (destruct (sysio.answer os _ (sysio.FprintfStderr _ (util.NewPathError _ _ rmErr)));
            simpl).
  all: split; [eauto |].
  all: split; [intros cmd pid' Hin; in_run Hin; injection Hc as <-; eauto 10 |].
  all: intros cmd rr Hin; in_run Hin; injection Hr as <-;
    (split; [auto 10 | split; [| reflexivity]]);
    intros Hbad; simpl in Hbad;
    repeat (destruct Hbad as [Hbad | Hbad]; try discriminate Hbad); contradiction.
Qed.

Lemma runWithPIDNamespace_cleans_up_witness :
  In (sysio.RemoveAll (cg.CgroupPath props.someCgroup))
     (sysio.calls
        (props.afterWait
           (fst (sysio.run props.childFails
                   (proc.runWithPIDNamespace props.someProcessInCgroup
                      (ns.ConfigFromSpec ["pid"; "uts"; "mount"]%string)) []))))
  /\ snd (sysio.run props.childFails
            (proc.runWithPIDNamespace props.someProcessInCgroup
               (ns.ConfigFromSpec ["pid"; "uts"; "mount"]%string)) [])
     = sysio.Returned
         (Some (util.NewError "wait for container process" (ErrorString "exit status 1"))).
Proof.
  pose proof (runWithPIDNamespace_cleans_up props.childFails props.someProcessInCgroup
                props.someCgroup (ns.ConfigFromSpec ["pid"; "uts"; "mount"]%string) []
                eq_refl) as (_ & _ & Hwait).
  specialize (Hwait
                (proc.initCommand props.someProcessInCgroup
                   (ns.ConfigFromSpec ["pid"; "uts"; "mount"]%string) [] 4)
                (Some (ErrorString "exit status 1"))).
  destruct Hwait as (Hafter & _ & Hret).
  - simpl. do 5 right. left. reflexivity.
  - split; [exact Hafter | exact Hret].
Defined.

(** ** Bytes and UTF-8 *)

Lemma byteOf_range (c : ascii) : 0 <= byteOf c < 256.
Proof.
  unfold byteOf. pose proof (nat_ascii_bounded c). lia.
Qed.

Lemma land_63 (x : Z) : Z.land x 0x3F = x mod 64.
Proof. change 0x3F with (Z.ones 6). now rewrite Z.land_ones. Qed.

Lemma land_31 (x : Z) : Z.land x 0x1F = x mod 32.
Proof. change 0x1F with (Z.ones 5). now rewrite Z.land_ones. Qed.

Lemma land_15 (x : Z) : Z.land x 0x0F = x mod 16.
Proof. change 0x0F with (Z.ones 4). now rewrite Z.land_ones. Qed.

Lemma land_7 (x : Z) : Z.land x 0x07 = x mod 8.
Proof. change 0x07 with (Z.ones 3). now rewrite Z.land_ones. Qed.

Lemma toByte_byteOf (c : ascii) : toByte (byteOf c) = c.
Proof.
  unfold toByte. rewrite land_255_mod, Z.mod_small by apply byteOf_range.
  unfold byteOf. rewrite Nat2Z.id. apply ascii_nat_embedding.
Qed.

Lemma toByte_eq (x : Z) (c : ascii) : x = byteOf c -> toByte x = c.
Proof. intros ->. apply toByte_byteOf. Qed.

Lemma testbit_small (b n i : Z) : 0 <= b < 2 ^ n -> n <= i -> Z.testbit b i = false.
Proof.
  intros Hb Hi. destruct (Z.eq_dec b 0) as [-> | Hb0]; [apply Z.bits_0 |].
  apply Z.bits_above_log2; [lia |].
  apply Z.lt_le_trans with n; [| exact Hi]. apply Z.log2_lt_pow2; lia.
Qed.

Lemma land_mul_pow2_small (a b n : Z) :
  0 <= n -> 0 <= b < 2 ^ n -> Z.land (a * 2 ^ n) b = 0.
Proof.
  intros Hn Hb. apply Z.bits_inj'. intros i Hi. rewrite Z.land_spec, Z.bits_0.
  destruct (Z.lt_ge_cases i n) as [Hlt | Hge].
  - rewrite Z.mul_pow2_bits_low by lia. reflexivity.
  - rewrite (testbit_small b n i) by lia. apply Bool.andb_false_r.
Qed.

(** Bits that do not overlap add up. *)
Lemma lor_add (a b n : Z) :
  0 <= n -> 0 <= b < 2 ^ n -> Z.lor (a * 2 ^ n) b = a * 2 ^ n + b.
Proof.
  intros Hn Hb.
  rewrite <- Z.lxor_lor by (apply land_mul_pow2_small; lia).
  symmetry. apply Z.add_nocarry_lxor. apply land_mul_pow2_small; lia.
Qed.

Ltac euclid := Z.to_euclidean_division_equations; lia.

Lemma DecodeRune_ascii (c : ascii) (rest : string) :
  byteOf c < 0x80 -> utf8.DecodeRune (String c rest) = (byteOf c, 1%nat).
Proof.
  intros Hc. unfold utf8.DecodeRune, utf8.first.
  apply Z.ltb_lt in Hc. rewrite Hc. reflexivity.
Qed.

Lemma DecodeRune_width_pos (c : ascii) (rest : string) :
  (1 <= snd (utf8.DecodeRune (String c rest)))%nat.
Proof.
  unfold utf8.DecodeRune.
  repeat match goal with
         | |- context [if ?b then _ else _] => destruct b
         | |- context [match ?s with EmptyString => _ | String _ _ => _ end] => destruct s
         end; simpl; lia.
Qed.

Lemma substring_0_0 (s : string) : String.substring 0 0 s = EmptyString.
Proof. now destruct s. Qed.

(** A sequence of two bytes or more is decoded from its own bytes
    alone. *)
Lemma DecodeRune_prefix (s t : string) (r : Z) (size : nat) :
  utf8.DecodeRune s = (r, size) -> (2 <= size)%nat ->
  utf8.DecodeRune (String.substring 0 size s ++ t) = (r, size)
  /\ skip size (String.substring 0 size s ++ t) = t.
Proof.
  intros Hdec Hsize.
  destruct s as [| c0 rest]; [inversion Hdec; lia |].
  unfold utf8.DecodeRune in Hdec.
  remember (utf8.first (byteOf c0)) as x eqn:Hx.
  remember (utf8.acceptRanges (Z.shiftr x 4)) as accept eqn:Hacc.
  destruct (utf8.as_ <=? x) eqn:E0; [inversion Hdec; lia |].
  destruct rest as [| c1 rest1]; [inversion Hdec; lia |].
  destruct ((byteOf c1 <? fst accept) || (snd accept <? byteOf c1)) eqn:E1;
    [inversion Hdec; lia |].
  destruct (Z.land x 7 <=? 2) eqn:E2.
  { injection Hdec as <- <-. cbn [String.substring append skip]. rewrite substring_0_0. cbn [append].
    split; [| reflexivity].
    unfold utf8.DecodeRune. rewrite <- Hx, E0, <- Hacc, E1, E2.
    reflexivity. }
  destruct rest1 as [| c2 rest2]; [inversion Hdec; lia |].
  destruct ((byteOf c2 <? utf8.locb) || (utf8.hicb <? byteOf c2)) eqn:E3;
    [inversion Hdec; lia |].
  destruct (Z.land x 7 <=? 3) eqn:E4.
  { injection Hdec as <- <-. cbn [String.substring append skip]. rewrite substring_0_0. cbn [append].
    split; [| reflexivity].
    unfold utf8.DecodeRune. rewrite <- Hx, E0, <- Hacc, E1, E2, E3, E4.
    reflexivity. }
  destruct rest2 as [| c3 rest3]; [inversion Hdec; lia |].
  destruct ((byteOf c3 <? utf8.locb) || (utf8.hicb <? byteOf c3)) eqn:E5;
    [inversion Hdec; lia |].
  injection Hdec as <- <-. cbn [String.substring append skip]. rewrite substring_0_0. cbn [append].
  split; [| reflexivity].
  unfold utf8.DecodeRune. rewrite <- Hx, E0, <- Hacc, E1, E2, E3, E4, E5.
  reflexivity.
Qed.

Lemma rune2_value (b0 b1 : Z) :
  192 <= b0 <= 223 -> 128 <= b1 <= 191 ->
  Z.lor (Z.shiftl (Z.land b0 utf8.mask2) 6) (Z.land b1 utf8.maskx)
  = (b0 - 192) * 64 + (b1 - 128).
Proof.
  intros H0 H1. unfold utf8.mask2, utf8.maskx.
  rewrite land_31, land_63, Z.shiftl_mul_pow2 by lia.
  rewrite lor_add by (change (2 ^ 6) with 64; euclid).
  change (2 ^ 6) with 64. euclid.
Qed.

Lemma rune3_value (b0 b1 b2 : Z) :
  224 <= b0 <= 239 -> 128 <= b1 <= 191 -> 128 <= b2 <= 191 ->
  Z.lor (Z.lor (Z.shiftl (Z.land b0 utf8.mask3) 12) (Z.shiftl (Z.land b1 utf8.maskx) 6))
        (Z.land b2 utf8.maskx)
  = (b0 - 224) * 4096 + (b1 - 128) * 64 + (b2 - 128).
Proof.
  intros H0 H1 H2. unfold utf8.mask3, utf8.maskx.
  rewrite land_15, !land_63, !Z.shiftl_mul_pow2 by lia.
  change (2 ^ 12) with 4096. change (2 ^ 6) with 64.
  replace (b0 mod 16) with (b0 - 224) by euclid.
  replace (b1 mod 64) with (b1 - 128) by euclid.
  replace (b2 mod 64) with (b2 - 128) by euclid.
  replace ((b0 - 224) * 4096) with ((b0 - 224) * 2 ^ 12) by reflexivity.
  rewrite lor_add by (change (2 ^ 12) with 4096; lia).
  replace ((b0 - 224) * 2 ^ 12 + (b1 - 128) * 64)
    with (((b0 - 224) * 64 + (b1 - 128)) * 2 ^ 6) by (change (2 ^ 12) with 4096; change (2 ^ 6) with 64; lia).
  rewrite lor_add by (change (2 ^ 6) with 64; lia).
  change (2 ^ 6) with 64. lia.
Qed.

Lemma rune4_value (b0 b1 b2 b3 : Z) :
  240 <= b0 <= 247 -> 128 <= b1 <= 191 -> 128 <= b2 <= 191 -> 128 <= b3 <= 191 ->
  Z.lor (Z.lor (Z.lor (Z.shiftl (Z.land b0 utf8.mask4) 18)
                      (Z.shiftl (Z.land b1 utf8.maskx) 12))
               (Z.shiftl (Z.land b2 utf8.maskx) 6))
        (Z.land b3 utf8.maskx)
  = (b0 - 240) * 262144 + (b1 - 128) * 4096 + (b2 - 128) * 64 + (b3 - 128).
Proof.
  intros H0 H1 H2 H3. unfold utf8.mask4, utf8.maskx.
  rewrite land_7, !land_63, !Z.shiftl_mul_pow2 by lia.
  change (2 ^ 18) with 262144. change (2 ^ 12) with 4096. change (2 ^ 6) with 64.
  replace (b0 mod 8) with (b0 - 240) by euclid.
  replace (b1 mod 64) with (b1 - 128) by euclid.
  replace (b2 mod 64) with (b2 - 128) by euclid.
  replace (b3 mod 64) with (b3 - 128) by euclid.
  replace ((b0 - 240) * 262144) with ((b0 - 240) * 2 ^ 18) by reflexivity.
  rewrite lor_add by (change (2 ^ 18) with 262144; lia).
  replace ((b0 - 240) * 2 ^ 18 + (b1 - 128) * 4096)
    with (((b0 - 240) * 64 + (b1 - 128)) * 2 ^ 12)
    by (change (2 ^ 18) with 262144; change (2 ^ 12) with 4096; lia).
  rewrite lor_add by (change (2 ^ 12) with 4096; lia).
  replace (((b0 - 240) * 64 + (b1 - 128)) * 2 ^ 12 + (b2 - 128) * 64)
    with ((((b0 - 240) * 64 + (b1 - 128)) * 64 + (b2 - 128)) * 2 ^ 6)
    by (change (2 ^ 12) with 4096; change (2 ^ 6) with 64; lia).
  rewrite lor_add by (change (2 ^ 6) with 64; lia).
  change (2 ^ 6) with 64. lia.
Qed.

(** The bytes [EncodeRune] writes, in arithmetic. *)
Lemma lor_tx (k : Z) : 0 <= k < 64 -> Z.lor utf8.tx k = 128 + k.
Proof.
  intros Hk. change utf8.tx with (2 * 2 ^ 6). rewrite lor_add; [reflexivity | lia |].
  change (2 ^ 6) with 64. lia.
Qed.

Lemma EncodeRune2 (r : Z) :
  128 <= r <= 2047 ->
  utf8.EncodeRune r
  = String (toByte (192 + r / 64)) (String (toByte (128 + r mod 64)) EmptyString).
Proof.
  intros Hr. unfold utf8.EncodeRune, utf8.rune1Max, utf8.rune2Max.
  replace ((0 <=? r) && (r <=? 127)) with false by (symmetry; apply Bool.andb_false_iff; right; lia).
  replace ((0 <=? r) && (r <=? 2047)) with true by (symmetry; apply Bool.andb_true_iff; split; lia).
  unfold utf8.maskx. rewrite land_63, Z.shiftr_div_pow2 by lia. change (2 ^ 6) with 64.
  rewrite lor_tx by euclid.
  change utf8.t2 with (6 * 2 ^ 5). rewrite lor_add by (change (2 ^ 5) with 32; euclid).
  reflexivity.
Qed.

Lemma encode3_value (r : Z) :
  0 <= r <= 65535 ->
  utf8.encode3 r
  = String (toByte (224 + r / 4096))
      (String (toByte (128 + (r / 64) mod 64))
         (String (toByte (128 + r mod 64)) EmptyString)).
Proof.
  intros Hr. unfold utf8.encode3, utf8.maskx.
  rewrite !land_63, !Z.shiftr_div_pow2 by lia.
  change (2 ^ 6) with 64. change (2 ^ 12) with 4096.
  rewrite !lor_tx by euclid.
  change utf8.t3 with (14 * 2 ^ 4). rewrite lor_add by (change (2 ^ 4) with 16; euclid).
  reflexivity.
Qed.

Lemma EncodeRune3 (r : Z) :
  2048 <= r <= 65535 -> r < 0xD800 \/ 0xDFFF < r ->
  utf8.EncodeRune r
  = String (toByte (224 + r / 4096))
      (String (toByte (128 + (r / 64) mod 64))
         (String (toByte (128 + r mod 64)) EmptyString)).
Proof.
  intros Hr Hs.
  unfold utf8.EncodeRune, utf8.rune1Max, utf8.rune2Max, utf8.rune3Max, utf8.MaxRune,
    utf8.surrogateMin, utf8.surrogateMax.
  replace ((0 <=? r) && (r <=? 127)) with false by (symmetry; apply Bool.andb_false_iff; right; lia).
  replace ((0 <=? r) && (r <=? 2047)) with false by (symmetry; apply Bool.andb_false_iff; right; lia).
  replace (r <? 0) with false by (symmetry; lia).
  replace (1114111 <? r) with false by (symmetry; lia).
  replace ((55296 <=? r) && (r <=? 57343)) with false
    by (symmetry; apply Bool.andb_false_iff; lia).
  replace (r <=? 65535) with true by (symmetry; lia).
  cbn [orb]. apply encode3_value. lia.
Qed.

Lemma EncodeRune4 (r : Z) :
  65536 <= r <= 1114111 ->
  utf8.EncodeRune r
  = String (toByte (240 + r / 262144))
      (String (toByte (128 + (r / 4096) mod 64))
         (String (toByte (128 + (r / 64) mod 64))
            (String (toByte (128 + r mod 64)) EmptyString))).
Proof.
  intros Hr.
  unfold utf8.EncodeRune, utf8.rune1Max, utf8.rune2Max, utf8.rune3Max, utf8.MaxRune,
    utf8.surrogateMin, utf8.surrogateMax.
  replace ((0 <=? r) && (r <=? 127)) with false by (symmetry; apply Bool.andb_false_iff; right; lia).
  replace ((0 <=? r) && (r <=? 2047)) with false by (symmetry; apply Bool.andb_false_iff; right; lia).
  replace (r <? 0) with false by (symmetry; lia).
  replace (1114111 <? r) with false by (symmetry; lia).
  replace ((55296 <=? r) && (r <=? 57343)) with false
    by (symmetry; apply Bool.andb_false_iff; lia).
  replace (r <=? 65535) with false by (symmetry; lia).
  cbn [orb]. unfold utf8.maskx.
  rewrite !land_63, !Z.shiftr_div_pow2 by lia.
  change (2 ^ 6) with 64. change (2 ^ 12) with 4096. change (2 ^ 18) with 262144.
  rewrite !lor_tx by euclid.
  change utf8.t4 with (30 * 2 ^ 3). rewrite lor_add by (change (2 ^ 3) with 8; euclid).
  reflexivity.
Qed.

Ltac split_ltb b :=
  let E := fresh "E" in
  destruct b eqn:E; [apply Z.ltb_lt in E | apply Z.ltb_ge in E].

(** The two components of an equation between pairs, left as they are
    written. *)
Ltac pair_eq H :=
  let H1 := fresh "Hfst" in
  let H2 := fresh "Hsnd" in
  pose proof (f_equal fst H) as H1; pose proof (f_equal snd H) as H2;
  cbn [fst snd] in H1, H2; clear H;
  try subst.

Ltac split_eqb b :=
  let E := fresh "E" in
  destruct b eqn:E; [apply Z.eqb_eq in E | apply Z.eqb_neq in E].

(** The tests on a continuation byte, once failed, bound it. *)
Lemma accept_bounds (b lo hi : Z) :
  (b <? lo) || (hi <? b) = false -> lo <= b <= hi.
Proof. intros H. apply Bool.orb_false_iff in H. lia. Qed.

(** A rune decoded from a valid sequence is encoded as that
    sequence. *)
Lemma EncodeRune_DecodeRune (c0 : ascii) (rest : string) (r : Z) (size : nat) :
  utf8.DecodeRune (String c0 rest) = (r, size) ->
  (r =? utf8.RuneError) && (size =? 1)%nat = false ->
  utf8.EncodeRune r = String.substring 0 size (String c0 rest).
Proof.
  intros Hdec Hvalid.
  assert (Hbad : utf8.DecodeRune (String c0 rest) = (utf8.RuneError, 1%nat) -> False).
  { intros Hb. rewrite Hb in Hdec. injection Hdec as <- <-. discriminate Hvalid. }
  clear Hvalid. pose proof (byteOf_range c0) as Hc0.
  destruct (Z.lt_ge_cases (byteOf c0) 128) as [Hascii | Hhigh].
  { rewrite DecodeRune_ascii in Hdec by exact Hascii.
    pair_eq Hdec. cbn [String.substring]. rewrite substring_0_0.
    unfold utf8.EncodeRune, utf8.rune1Max.
    replace ((0 <=? byteOf c0) && (byteOf c0 <=? 127)) with true
      by (symmetry; apply Bool.andb_true_iff; split; lia).
    now rewrite toByte_byteOf. }
  unfold utf8.DecodeRune, utf8.first in Hdec, Hbad.
  assert (Htwo :
            194 <= byteOf c0 <= 223 ->
            (match rest with
             | EmptyString => (utf8.RuneError, 1%nat)
             | String c1 _ =>
                 if (byteOf c1 <? 128) || (191 <? byteOf c1) then (utf8.RuneError, 1%nat)
                 else
                   (Z.lor (Z.shiftl (Z.land (byteOf c0) utf8.mask2) 6)
                          (Z.land (byteOf c1) utf8.maskx), 2%nat)
             end = (r, size)) ->
            (r, size) <> (utf8.RuneError, 1%nat) ->
            utf8.EncodeRune r = String.substring 0 size (String c0 rest)).
  { clear Hdec Hbad. intros H0 Hd Hne.
    destruct rest as [| c1 rest1]; [now symmetry in Hd |].
    destruct ((byteOf c1 <? 128) || (191 <? byteOf c1)) eqn:Hb1; [now symmetry in Hd |].
    apply accept_bounds in Hb1.
    pair_eq Hd. cbn [String.substring]. rewrite substring_0_0.
    rewrite rune2_value by lia. rewrite EncodeRune2 by lia.
    f_equal; [| f_equal]; apply toByte_eq; euclid. }
  assert (Hthree :
            forall lo hi, 128 <= lo -> hi <= 191 ->
              224 <= byteOf c0 <= 239 ->
              (byteOf c0 = 224 -> 160 <= lo) -> (byteOf c0 = 237 -> hi <= 159) ->
              (match rest with
               | EmptyString => (utf8.RuneError, 1%nat)
               | String c1 rest1 =>
                   if (byteOf c1 <? lo) || (hi <? byteOf c1) then (utf8.RuneError, 1%nat)
                   else
                     match rest1 with
                     | EmptyString => (utf8.RuneError, 1%nat)
                     | String c2 _ =>
                         if (byteOf c2 <? 128) || (191 <? byteOf c2)
                         then (utf8.RuneError, 1%nat)
                         else
                           (Z.lor (Z.lor (Z.shiftl (Z.land (byteOf c0) utf8.mask3) 12)
                                         (Z.shiftl (Z.land (byteOf c1) utf8.maskx) 6))
                                  (Z.land (byteOf c2) utf8.maskx), 3%nat)
                     end
               end = (r, size)) ->
              (r, size) <> (utf8.RuneError, 1%nat) ->
              utf8.EncodeRune r = String.substring 0 size (String c0 rest)).
  { clear Hdec Hbad Htwo. intros lo hi Hlo Hhi H0 H224 H237 Hd Hne.
    destruct rest as [| c1 [| c2 rest2]]; try (now symmetry in Hd).
    - destruct ((byteOf c1 <? lo) || (hi <? byteOf c1)); now symmetry in Hd.
    - destruct ((byteOf c1 <? lo) || (hi <? byteOf c1)) eqn:Hb1; [now symmetry in Hd |].
      destruct ((byteOf c2 <? 128) || (191 <? byteOf c2)) eqn:Hb2; [now symmetry in Hd |].
      apply accept_bounds in Hb1, Hb2.
      pair_eq Hd. cbn [String.substring]. rewrite substring_0_0.
      rewrite rune3_value by lia. rewrite EncodeRune3 by lia.
      f_equal; [| f_equal; [| f_equal]]; apply toByte_eq; euclid. }
  assert (Hfour :
            forall lo hi, 128 <= lo -> hi <= 191 ->
              240 <= byteOf c0 <= 244 ->
              (byteOf c0 = 240 -> 144 <= lo) -> (byteOf c0 = 244 -> hi <= 143) ->
              (match rest with
               | EmptyString => (utf8.RuneError, 1%nat)
               | String c1 rest1 =>
                   if (byteOf c1 <? lo) || (hi <? byteOf c1) then (utf8.RuneError, 1%nat)
                   else
                     match rest1 with
                     | EmptyString => (utf8.RuneError, 1%nat)
                     | String c2 rest2 =>
                         if (byteOf c2 <? 128) || (191 <? byteOf c2)
                         then (utf8.RuneError, 1%nat)
                         else
                           match rest2 with
                           | EmptyString => (utf8.RuneError, 1%nat)
                           | String c3 _ =>
                               if (byteOf c3 <? 128) || (191 <? byteOf c3)
                               then (utf8.RuneError, 1%nat)
                               else
                                 (Z.lor
                                    (Z.lor
                                       (Z.lor (Z.shiftl (Z.land (byteOf c0) utf8.mask4) 18)
                                              (Z.shiftl (Z.land (byteOf c1) utf8.maskx) 12))
                                       (Z.shiftl (Z.land (byteOf c2) utf8.maskx) 6))
                                    (Z.land (byteOf c3) utf8.maskx), 4%nat)
                           end
                     end
               end = (r, size)) ->
              (r, size) <> (utf8.RuneError, 1%nat) ->
              utf8.EncodeRune r = String.substring 0 size (String c0 rest)).
  { clear Hdec Hbad Htwo Hthree. intros lo hi Hlo Hhi H0 H240 H244 Hd Hne.
    destruct rest as [| c1 [| c2 [| c3 rest3]]]; try (now symmetry in Hd).
    - destruct ((byteOf c1 <? lo) || (hi <? byteOf c1)); now symmetry in Hd.
    - destruct ((byteOf c1 <? lo) || (hi <? byteOf c1)); [now symmetry in Hd |].
      destruct ((byteOf c2 <? 128) || (191 <? byteOf c2)); now symmetry in Hd.
    - destruct ((byteOf c1 <? lo) || (hi <? byteOf c1)) eqn:Hb1; [now symmetry in Hd |].
      destruct ((byteOf c2 <? 128) || (191 <? byteOf c2)) eqn:Hb2; [now symmetry in Hd |].
      destruct ((byteOf c3 <? 128) || (191 <? byteOf c3)) eqn:Hb3; [now symmetry in Hd |].
      apply accept_bounds in Hb1, Hb2, Hb3.
      pair_eq Hd. cbn [String.substring]. rewrite substring_0_0.
      rewrite rune4_value by lia. rewrite EncodeRune4 by lia.
      f_equal; [| f_equal; [| f_equal; [| f_equal]]]; apply toByte_eq; euclid. }
  assert (Hne : (r, size) <> (utf8.RuneError, 1%nat)).
  { intros Heq. apply Hbad. now rewrite Hdec. }
  split_ltb (byteOf c0 <? 128); [lia |].
  split_ltb (byteOf c0 <? 194); [exfalso; apply Hbad; reflexivity |].
  split_ltb (byteOf c0 <? 224); [apply Htwo; try lia; first [exact Hdec | exact Hne] |].
  split_eqb (byteOf c0 =? 224); [apply (Hthree 160 191); try lia; first [exact Hdec | exact Hne] |].
  split_ltb (byteOf c0 <? 237); [apply (Hthree 128 191); try lia; first [exact Hdec | exact Hne] |].
  split_eqb (byteOf c0 =? 237); [apply (Hthree 128 159); try lia; first [exact Hdec | exact Hne] |].
  split_ltb (byteOf c0 <? 240); [apply (Hthree 128 191); try lia; first [exact Hdec | exact Hne] |].
  split_eqb (byteOf c0 =? 240); [apply (Hfour 144 191); try lia; first [exact Hdec | exact Hne] |].
  split_ltb (byteOf c0 <? 244); [apply (Hfour 128 191); try lia; first [exact Hdec | exact Hne] |].
  split_eqb (byteOf c0 =? 244); [apply (Hfour 128 143); try lia; first [exact Hdec | exact Hne] |].
  exfalso. apply Hbad. reflexivity.
Qed.

Lemma substring_skip (n : nat) (s : string) :
  (String.substring 0 n s ++ skip n s)%string = s.
Proof.
  revert s. induction n as [| n IH]; intros [| c s]; cbn; try reflexivity.
  now rewrite IH.
Qed.

Lemma skip_length (n : nat) (s : string) :
  (String.length (skip n s) <= String.length s)%nat.
Proof.
  revert s. induction n as [| n IH]; intros [| c s]; cbn; try lia.
  specialize (IH s). lia.
Qed.

Lemma skip_shorter (n : nat) (c : ascii) (s : string) :
  (1 <= n)%nat -> (String.length (skip n (String c s)) <= String.length s)%nat.
Proof.
  destruct n as [| n]; [lia |]. intros _. cbn. apply skip_length.
Qed.

Lemma coerceFrom_valid (fuel : nat) (s : string) :
  (String.length s <= fuel)%nat ->
  utf8.validFrom fuel s = true -> utf8.coerceFrom fuel s = s.
Proof.
  revert s. induction fuel as [| fuel IH]; intros [| c rest] Hlen Hvalid;
    cbn in Hlen; try reflexivity; try lia.
  cbn [utf8.validFrom utf8.coerceFrom] in *.
  pose proof (DecodeRune_width_pos c rest) as Hpos.
  destruct (utf8.DecodeRune (String c rest)) as [r size] eqn:Hdec. cbn [snd] in Hpos.
  destruct ((r =? utf8.RuneError) && (size =? 1)%nat) eqn:Hbad; [discriminate |].
  rewrite (EncodeRune_DecodeRune c rest r size Hdec Hbad).
  rewrite IH; [apply substring_skip | | exact Hvalid].
  pose proof (skip_shorter size c rest Hpos). lia.
Qed.

(** A valid string is left as it is by the conversion through
    runes. *)
Lemma ToValid_valid (s : string) :
  utf8.ValidString s = true -> utf8.ToValid s = s.
Proof. apply coerceFrom_valid. lia. Qed.

(** ** The encoding of the argument list *)

Lemma DecodeRune_high_width (c : ascii) (rest : string) (r : Z) (size : nat) :
  128 <= byteOf c ->
  utf8.DecodeRune (String c rest) = (r, size) ->
  (r =? utf8.RuneError) && (size =? 1)%nat = false ->
  (2 <= size)%nat.
Proof.
  intros Hc Hdec Hvalid. pose proof (byteOf_range c) as Hrange.
  assert (Hx : (utf8.as_ <=? utf8.first (byteOf c)) = true ->
               (utf8.first (byteOf c) =? utf8.as_) = false).
  { unfold utf8.first.
    repeat match goal with
           | |- context [if ?b then _ else _] => destruct b eqn:?
           end; try reflexivity; lia. }
  unfold utf8.DecodeRune in Hdec.
  destruct (utf8.as_ <=? utf8.first (byteOf c)) eqn:E0.
  { rewrite (Hx eq_refl) in Hdec. pair_eq Hdec. discriminate Hvalid. }
  repeat match type of Hdec with
         | (if ?b then _ else _) = _ => destruct b
         | match ?s with EmptyString => _ | String _ _ => _ end = _ => destruct s
         end; pair_eq Hdec; first [discriminate Hvalid | lia].
Qed.

Lemma unquoteStep_high (c : ascii) (s : string) :
  128 <= byteOf c ->
  json.unquoteStep (String c s)
  = let (rr, size) := utf8.DecodeRune (String c s) in
    json.Emit (utf8.EncodeRune rr) (skip size (String c s)).
Proof.
  intros Hc. unfold json.unquoteStep, utf8.RuneSelf.
  replace (byteOf c =? 34) with false by (symmetry; lia).
  replace (byteOf c =? 92) with false by (symmetry; lia).
  replace (byteOf c <? 32) with false by (symmetry; lia).
  replace (byteOf c <? 128) with false by (symmetry; lia).
  reflexivity.
Qed.

Lemma appendStep_high (c : ascii) (s : string) :
  128 <= byteOf c ->
  json.appendStep (String c s)
  = let (r, size) := utf8.DecodeRune (String c s) in
    if (r =? utf8.RuneError) && (size =? 1)%nat then
      ("\ufffd"%string, skip size (String c s))
    else if (r =? 0x2028) || (r =? 0x2029) then
      (("\u202" ++ String (json.hexDigit (Z.land r 0xF)) EmptyString)%string,
       skip size (String c s))
    else (String.substring 0 size (String c s), skip size (String c s)).
Proof.
  intros Hc. unfold json.appendStep, utf8.RuneSelf.
  replace (byteOf c <? 128) with false by (symmetry; lia).
  reflexivity.
Qed.

(** An ASCII byte: what [appendStep] writes for it, [unquoteStep] reads
    back as that byte. *)
Lemma unquoteStep_appendStep_ascii (c : ascii) (rest tail : string) :
  byteOf c < 128 ->
  json.unquoteStep (fst (json.appendStep (String c rest)) ++ tail)
  = json.Emit (String c EmptyString) tail
  /\ snd (json.appendStep (String c rest)) = rest
  /\ fst (json.appendStep (String c rest)) <> EmptyString.
Proof.
  intros Hc.
  destruct c as [b0 b1 b2 b3 b4 b5 b6 b7].
  destruct b7; [exfalso; destruct b0, b1, b2, b3, b4, b5, b6; vm_compute in Hc; discriminate |].
  clear Hc.
  destruct b0, b1, b2, b3, b4, b5, b6;
    (split; [reflexivity | split; [reflexivity | discriminate]]).
Qed.

(** One turn of the encoder is undone by one turn of the decoder: the
    bytes written for the first rune of [s] are read back as the bytes
    [EncodeRune] gives for that rune. *)
Lemma unquoteStep_appendStep (c : ascii) (rest tail : string) :
  json.unquoteStep (fst (json.appendStep (String c rest)) ++ tail)
  = json.Emit (utf8.EncodeRune (fst (utf8.DecodeRune (String c rest)))) tail
  /\ snd (json.appendStep (String c rest))
     = skip (snd (utf8.DecodeRune (String c rest))) (String c rest)
  /\ fst (json.appendStep (String c rest)) <> EmptyString.
Proof.
  destruct (Z.lt_ge_cases (byteOf c) 128) as [Hlow | Hhigh].
  - destruct (unquoteStep_appendStep_ascii c rest tail Hlow) as (Hstep & Hrest & Hout).
    rewrite DecodeRune_ascii by exact Hlow. cbn [fst snd skip].
    split; [| split; assumption].
    rewrite Hstep. f_equal.
    rewrite (EncodeRune_DecodeRune c rest (byteOf c) 1%nat).
    + cbn [String.substring]. now rewrite substring_0_0.
    + now apply DecodeRune_ascii.
    + apply Bool.andb_false_iff. left. apply Z.eqb_neq. unfold utf8.RuneError. lia.
  - rewrite appendStep_high by exact Hhigh.
    destruct (utf8.DecodeRune (String c rest)) as [r size] eqn:Hdec. cbn [fst snd].
    destruct ((r =? utf8.RuneError) && (size =? 1)%nat) eqn:Hbad.
    { apply Bool.andb_true_iff in Hbad. destruct Hbad as [Hr _].
      apply Z.eqb_eq in Hr. subst r. cbn [fst snd].
      split; [reflexivity | split; [reflexivity | discriminate]]. }
    destruct ((r =? 8232) || (r =? 8233)) eqn:Hsep.
    { cbn [fst snd]. split; [| split; [reflexivity | discriminate]].
      apply Bool.orb_true_iff in Hsep.
      destruct Hsep as [Hr | Hr]; apply Z.eqb_eq in Hr; subst r; reflexivity. }
    cbn [fst snd].
    pose proof (DecodeRune_high_width c rest r size Hhigh Hdec Hbad) as Hsize.
    destruct (DecodeRune_prefix (String c rest) tail r size Hdec Hsize) as (Hpre & Hskip).
    split; [| split; [reflexivity |]].
    + destruct size as [| size']; [lia |].
      cbn [String.substring append] in *.
      rewrite unquoteStep_high by exact Hhigh.
      rewrite Hpre. now rewrite Hskip.
    + destruct size as [| size']; [lia |]. discriminate.
Qed.

Lemma str_app_nil_r (s : string) : (s ++ "")%string = s.
Proof. induction s as [| c s IH]; cbn; [reflexivity | now rewrite IH]. Qed.

Lemma str_app_assoc (s t u : string) : ((s ++ t) ++ u)%string = (s ++ (t ++ u))%string.
Proof. induction s as [| c s IH]; cbn; [reflexivity | now rewrite IH]. Qed.

Lemma str_length_app (s t : string) :
  String.length (s ++ t) = (String.length s + String.length t)%nat.
Proof. induction s as [| c s IH]; cbn; [reflexivity | now rewrite IH]. Qed.

Lemma str_length_pos (s : string) : s <> EmptyString -> (1 <= String.length s)%nat.
Proof. destruct s; [congruence | cbn; lia]. Qed.

(** The body of a literal written by [appendLoop] is read back, up to
    the closing quote, as the string converted through runes. *)
Lemma unquoteLoop_appendLoop (fuel : nat) :
  forall (s : string), (String.length s <= fuel)%nat ->
  forall (fuel2 : nat) (tail acc : string),
    (String.length (json.appendLoop fuel s) < fuel2)%nat ->
    json.unquoteLoop fuel2 (json.appendLoop fuel s ++ String json.dquote tail) acc
    = Some ((acc ++ utf8.coerceFrom fuel s)%string, tail).
Proof.
  induction fuel as [| fuel IH]; intros [| c rest] Hlen fuel2 tail acc Hfuel2;
    cbn in Hlen; try lia.
  - destruct fuel2 as [| fuel2]; [cbn in Hfuel2; lia |].
    cbn. now rewrite str_app_nil_r.
  - destruct fuel2 as [| fuel2]; [cbn in Hfuel2; lia |].
    cbn. now rewrite str_app_nil_r.
  - cbn [json.appendLoop utf8.coerceFrom] in *.
    destruct (unquoteStep_appendStep c rest
                (json.appendLoop fuel (snd (json.appendStep (String c rest)))
                 ++ String json.dquote tail)) as (Hstep & Hrest & Hout).
    pose proof (DecodeRune_width_pos c rest) as Hpos.
    destruct (json.appendStep (String c rest)) as [out rest'] eqn:Happ.
    destruct (utf8.DecodeRune (String c rest)) as [r size] eqn:Hdec.
    cbn [fst snd] in *. subst rest'.
    apply str_length_pos in Hout. rewrite str_length_app in Hfuel2.
    destruct fuel2 as [| fuel2]; [lia |].
    rewrite str_app_assoc. cbn [json.unquoteLoop]. rewrite Hstep.
    rewrite IH.
    + now rewrite str_app_assoc.
    + pose proof (skip_shorter size c rest Hpos). lia.
    + lia.
Qed.

(** A quoted string is read back as one element. *)
Lemma element_appendString (s tail : string) (fuel : nat) :
  (String.length (json.appendString s) <= fuel)%nat ->
  json.element fuel (json.appendString s ++ tail) = Some (utf8.ToValid s, tail).
Proof.
  intros Hfuel. unfold json.appendString in *. cbn [append json.element].
  change (byteOf json.dquote =? 34) with true. cbv iota.
  rewrite str_app_assoc. cbn [append].
  rewrite unquoteLoop_appendLoop; [reflexivity | lia |].
  cbn [String.length] in Hfuel. rewrite str_length_app in Hfuel. cbn in Hfuel. lia.
Qed.

Lemma skipSpace_appendString (s tail : string) :
  json.skipSpace (json.appendString s ++ tail) = (json.appendString s ++ tail)%string.
Proof. reflexivity. Qed.

(** The elements written by [Marshal], separated by commas and closed
    by the bracket, are read back one for one. *)
Lemma elements_joinWith (xs : list string) :
  forall (x : string) (fuel : nat) (acc : list string),
    (String.length (json.joinWith "," (map json.appendString (x :: xs))) < fuel)%nat ->
    json.elements fuel (json.joinWith "," (map json.appendString (x :: xs)) ++ "]") acc
    = Some (acc ++ map utf8.ToValid (x :: xs)).
Proof.
  induction xs as [| x' xs IH]; intros x fuel acc Hfuel.
  - cbn [map json.joinWith] in *.
    destruct fuel as [| fuel]; [lia |]. cbn [json.elements].
    rewrite element_appendString by lia.
    reflexivity.
  - change (json.joinWith "," (map json.appendString (x :: x' :: xs)))
      with (json.appendString x ++ "," ++
            json.joinWith "," (map json.appendString (x' :: xs)))%string in *.
    rewrite str_length_app in Hfuel.
    change (String.length ("," ++ json.joinWith "," (map json.appendString (x' :: xs))))
      with (S (String.length (json.joinWith "," (map json.appendString (x' :: xs)))))
      in Hfuel.
    destruct fuel as [| fuel]; [lia |]. cbn [json.elements].
    rewrite str_app_assoc.
    rewrite element_appendString by lia.
    cbn [append json.skipSpace]. change (json.isSpace ",") with false. cbv iota.
    change (byteOf "," =? 44) with true. cbv iota.
    assert (Hskip : json.skipSpace
                      (json.joinWith "," (map json.appendString (x' :: xs)) ++ "]")
                    = (json.joinWith "," (map json.appendString (x' :: xs)) ++ "]")%string).
    { destruct xs; reflexivity. }
    rewrite Hskip, IH by lia.
    now rewrite <- app_assoc.
Qed.

(** Decoding what [Marshal] wrote gives the slice back, nil as nil and
    empty as empty, each string converted through runes. *)
Lemma Unmarshal_Marshal (v : slice string) :
  json.Unmarshal (json.Marshal v)
  = inl match v with
        | None => None
        | Some l => Some (map utf8.ToValid l)
        end.
Proof.
  destruct v as [[| x xs] |]; try reflexivity.
  unfold json.Marshal, json.Unmarshal.
  set (body := json.joinWith "," (map json.appendString (x :: xs))).
  cbn [append json.skipSpace]. change (json.isSpace "[") with false. cbv iota.
  change (byteOf "[" =? 91) with true. cbv iota.
  assert (Hskip : json.skipSpace (body ++ "]") = (body ++ "]")%string).
  { subst body. destruct xs; reflexivity. }
  rewrite Hskip.
  assert (Hhead : exists rest, (body ++ "]")%string = String json.dquote rest).
  { subst body. destruct xs; cbn; eauto. }
  destruct Hhead as (rest & Hhead). rewrite Hhead at 1.
  change (byteOf json.dquote =? 93) with false. cbv iota.
  subst body. rewrite elements_joinWith; [reflexivity |].
  cbn [String.length]. rewrite str_length_app. lia.
Qed.

(** ** The argument list across the re-exec boundary *)

Lemma map_ToValid_valid (l : list string) :
  forallb utf8.ValidString l = true -> map utf8.ToValid l = l.
Proof.
  induction l as [| s l IH]; cbn; [reflexivity |].
  intros H. apply Bool.andb_true_iff in H. destruct H as [Hs Hl].
  now rewrite ToValid_valid, IH.
Qed.

(** C1, as the code has it: decoding the JSON text [Marshal] writes for
    an argument list gives a list with the same number of elements, nil
    for nil and empty for empty, in which every byte that is not part
    of a valid UTF-8 sequence has become the replacement character
    U+FFFD and everything else is unchanged.  So a list whose elements
    are all valid UTF-8 comes back exactly, an element with spaces
    inside as one element, and [HandleContainerInit] hands that list to
    [OverrideArgs].  The text is what [runWithPIDNamespace] puts in
    GOMINI_ARGS for the child. *)
Theorem args_roundtrip (args : slice string) :
  (forall cp nsConfig environ w,
      proc.Args cp = args ->
      In ("GOMINI_ARGS=" ++ json.Marshal args)%string
         (sysio.CmdEnv (proc.initCommand cp nsConfig environ w)))
  /\ json.Unmarshal (json.Marshal args)
  = inl match args with
        | None => None
        | Some l => Some (map utf8.ToValid l)
        end
  /\ (forall decoded,
        json.Unmarshal (json.Marshal args) = inl decoded -> len decoded = len args)
  /\ (forallb utf8.ValidString (elems args) = true ->
      json.Unmarshal (json.Marshal args) = inl args
      /\ forall cp, proc.overrideFromEnv cp (json.Marshal args)
                    = inl (proc.OverrideArgs cp args))
  /\ json.Unmarshal (json.Marshal (Some ["sh"; "-c"; "echo hi there"]%string))
     = inl (Some ["sh"; "-c"; "echo hi there"]%string).
Proof.
  pose proof (Unmarshal_Marshal args) as Hrt.
  split; [| split; [exact Hrt | split; [| split]]].
  - intros cp nsConfig environ w <-. unfold proc.initCommand. cbn [sysio.CmdEnv].
    apply in_or_app. right. cbn. tauto.
  - intros decoded Hdec. rewrite Hrt in Hdec. injection Hdec as <-.
    destruct args as [l |]; cbn; [apply length_map | reflexivity].
  - intros Hvalid.
    assert (Hexact : json.Unmarshal (json.Marshal args) = inl args).
    { rewrite Hrt. destruct args as [l |]; [| reflexivity].
      cbn in Hvalid. now rewrite map_ToValid_valid. }
    split; [exact Hexact |].
    intros cp. unfold proc.overrideFromEnv. rewrite Hexact.
    destruct args as [[| x xs] |]; reflexivity.
  - rewrite Unmarshal_Marshal. reflexivity.
Qed.

Lemma args_roundtrip_witness :
  json.Unmarshal (json.Marshal (Some ["sh"; "-c"; "echo  hi there"]%string))
  = inl (Some ["sh"; "-c"; "echo  hi there"]%string)
  /\ proc.overrideFromEnv props.someProcess
       (json.Marshal (Some ["sh"; "-c"; "echo  hi there"]%string))
     = inl (proc.OverrideArgs props.someProcess
              (Some ["sh"; "-c"; "echo  hi there"]%string))
  /\ len (Some ["sh"; "-c"; "echo  hi there"]%string) = 3%nat.
Proof.
  destruct (proj1 (proj2 (proj2 (proj2 (args_roundtrip
                                          (Some ["sh"; "-c"; "echo  hi there"]%string)))))
              eq_refl) as (Hexact & Hoverride).
  split; [exact Hexact | split; [apply Hoverride | reflexivity]].
Defined.

(** C1 as stated fails: an argument holding a byte that is not valid
    UTF-8 does not come back as it was.  The one-element list whose
    element is the byte 0xFF followed by [x] comes back with the three
    bytes of U+FFFD in place of the byte 0xFF. *)
Lemma args_roundtrip_invalid_byte :
  json.Unmarshal (json.Marshal (Some [String "255" "x"]))
  <> inl (Some [String "255" "x"])
  /\ json.Unmarshal (json.Marshal (Some [String "255" "x"]))
     = inl (Some [String "239" (String "191" (String "189" "x"))]).
Proof.
  split; [| vm_compute; reflexivity].
  intros H. vm_compute in H. discriminate H.
Qed.

(** * Further properties *)

(** ** Namespaces from the configuration *)

Lemma NamespaceFromSpec_specName (s : string) (t : ns.NamespaceType.t) :
  ns.NamespaceFromSpec s = Some t <-> s = props.specName t.
Proof.
  unfold ns.NamespaceFromSpec. split.
  - repeat match goal with
           | |- context [String.eqb ?a ?b] =>
               destruct (String.eqb_spec a b) as [-> |]
           end; intros H; inversion H; reflexivity.
  - intros ->. destruct t; reflexivity.
Qed.

Lemma enabled_enable (c : ns.NamespaceConfig) (o : option ns.NamespaceType.t)
    (t : ns.NamespaceType.t) :
  ns.enabled (ns.enable c o) t = true <-> ns.enabled c t = true \/ o = Some t.
Proof.
  destruct o as [[] |], t; simpl; split;
    solve [ tauto | intros [H | H]; [exact H | discriminate H] | intros _; auto ].
Qed.

Lemma enabled_fold_enable (l : list string) (c : ns.NamespaceConfig)
    (t : ns.NamespaceType.t) :
  ns.enabled
    (fold_left (fun config nsType => ns.enable config (ns.NamespaceFromSpec nsType)) l c) t
  = true
  <-> ns.enabled c t = true \/ In (props.specName t) l.
Proof.
  revert c. induction l as [| s l IH]; intros c; simpl.
  - tauto.
  - rewrite IH, enabled_enable, NamespaceFromSpec_specName.
    split; intros H; [| tauto].
    destruct H as [[H | H] | H]; auto.
Qed.

(** X1: a namespace is enabled by [ConfigFromSpec] exactly when its
    configuration name occurs in the list, which for the network
    namespace is "network"; other strings, the order and repetitions
    change nothing. *)
Theorem ConfigFromSpec_enables (namespaces : list string) (t : ns.NamespaceType.t) :
  (ns.enabled (ns.ConfigFromSpec namespaces) t = true
   <-> In (props.specName t) namespaces)
  /\ (forall other : list string,
        (forall u, In (props.specName u) namespaces <-> In (props.specName u) other) ->
        ns.ConfigFromSpec other = ns.ConfigFromSpec namespaces).
Proof.
  assert (Hiff : forall l u,
             ns.enabled (ns.ConfigFromSpec l) u = true <-> In (props.specName u) l).
  { intros l u. unfold ns.ConfigFromSpec. rewrite enabled_fold_enable. simpl.
    destruct u; simpl; intuition discriminate. }
  split; [apply Hiff |].
  intros other Hsame.
  assert (Hfield : forall u,
             ns.enabled (ns.ConfigFromSpec other) u
             = ns.enabled (ns.ConfigFromSpec namespaces) u).
  { intros u. apply Bool.eq_true_iff_eq. rewrite !Hiff. symmetry. apply Hsame. }
  pose proof (Hfield ns.NamespaceType.UTS) as H1.
  pose proof (Hfield ns.NamespaceType.PID) as H2.
  pose proof (Hfield ns.NamespaceType.MOUNT) as H3.
  pose proof (Hfield ns.NamespaceType.IPC) as H4.
  pose proof (Hfield ns.NamespaceType.NET) as H5.
  pose proof (Hfield ns.NamespaceType.USER) as H6.
  simpl in H1, H2, H3, H4, H5, H6.
  destruct (ns.ConfigFromSpec other), (ns.ConfigFromSpec namespaces).
  simpl in *. congruence.
Qed.

Lemma ConfigFromSpec_enables_witness :
  ns.ConfigFromSpec ["mount"; "bogus"; "pid"; "pid"; "net"]%string
  = ns.ConfigFromSpec ["pid"; "mount"; "net"]%string.
Proof.
  apply (ConfigFromSpec_enables ["pid"; "mount"; "net"]%string ns.NamespaceType.PID).
  intros u. destruct u; simpl; intuition discriminate.
Defined.

(** X2: [CreateNamespaces] makes no system call when no namespace is
    enabled; otherwise its one call is [unshare] with the flags of
    [CloneFlags], whose failure it returns as the error of "create
    namespaces". *)
Theorem CreateNamespaces_unshares_once
    (os : sysio.OS) (nc : ns.NamespaceConfig) (hist : list sysio.Event) :
  sysio.run os (ns.CreateNamespaces nc) hist
  = if existsb (ns.enabled nc) ns.NamespaceType.all then
      let r := sysio.answer os hist (sysio.Unshare (ns.CloneFlags nc)) in
      ([sysio.Ev (sysio.Unshare (ns.CloneFlags nc)) r],
       sysio.Returned match r with
                      | Some e => Some (util.NewError "create namespaces" e)
                      | None => None
                      end)
    else ([], sysio.Returned None).
Proof.
  unfold ns.CreateNamespaces.
  destruct nc as [[] [] [] [] [] []]; cbn [existsb ns.enabled ns.NamespaceType.all orb];
    try reflexivity;
    match goal with
    | |- context [ns.CloneFlags ?c =? 0] =>
        change (ns.CloneFlags c =? 0) with false; cbv iota
    end;
    simpl; destruct (sysio.answer os hist _); reflexivity.
Qed.

(** ** The root file system, step by step *)

(** Telling events apart by call and answer. *)
Ltac event_eq H :=
  let Hc := fresh "Hcall" in
  let Ha := fresh "Hans" in
  pose proof (f_equal sysio.callOf H) as Hc;
  pose proof (f_equal props.answerOf H) as Ha;
  simpl in Hc, Ha; try discriminate Hc; try discriminate Ha; clear H.

Ltac in_events H :=
  simpl in H;
  repeat match type of H with
         | _ \/ _ => destruct H as [H | H]
         | False => contradiction
         | _ = _ => event_eq H
         end.

(** X3: an error of the [Stat] other than "does not exist" is not an
    error for [PrepareRootfs]: it goes on to create the staging
    directory, and its result is that of the [MkdirAll] alone. *)
Theorem PrepareRootfs_ignores_other_stat_errors
    (os : sysio.OS) (rm : fs.RootfsManager) (hist : list sysio.Event) :
  let st := sysio.answer os hist (sysio.Stat (fs.RootfsPath rm)) in
  let oldRoot := Join (fs.RootfsPath rm) ".old_root" in
  let made := sysio.answer os (hist ++ [sysio.Ev (sysio.Stat (fs.RootfsPath rm)) st])
                (sysio.MkdirAll oldRoot perm0755) in
  IsNotExist st = false ->
  sysio.run os (fs.PrepareRootfs rm) hist
  = ([sysio.Ev (sysio.Stat (fs.RootfsPath rm)) st;
      sysio.Ev (sysio.MkdirAll oldRoot perm0755) made],
     sysio.Returned match made with
                    | Some e => Some (util.NewPathError "create old_root" oldRoot e)
                    | None => None
                    end).
Proof.
  intros st oldRoot made Hst. subst st oldRoot made.
  unfold fs.PrepareRootfs. simpl. rewrite Hst. simpl.
  destruct (sysio.answer os _ (sysio.MkdirAll _ _)); reflexivity.
Qed.

Lemma PrepareRootfs_ignores_other_stat_errors_witness :
  sysio.run props.statDenied (fs.PrepareRootfs props.bundleRoot) []
  = ([sysio.Ev (sysio.Stat (Join (Lit "/bundle") "rootfs")) (Some (Errno 13));
      sysio.Ev (sysio.MkdirAll (Join (Join (Lit "/bundle") "rootfs") ".old_root") 493) None],
     sysio.Returned None).
Proof.
  apply (PrepareRootfs_ignores_other_stat_errors props.statDenied props.bundleRoot []).
  reflexivity.
Defined.







(** Split on the answer of every call of a run, the earliest first. *)
Ltac split_answers :=
  repeat match goal with
         | |- context [sysio.answer ?os ?h ?c] =>
             lazymatch h with
             | context [sysio.answer] => fail
             | _ => destruct (sysio.answer os h c); simpl
             end
         end.

(** ** Control groups *)




Lemma usageOf_skips (Fields : string -> list string) (pre rest : list string) :
  (forall l, In l pre -> props.usableLine Fields l = None) ->
  cg.usageOf Fields (pre ++ rest) = cg.usageOf Fields rest.
Proof.
  induction pre as [| l pre IH]; intros Hpre; [reflexivity |].
  simpl. specialize (Hpre l (or_introl eq_refl)) as Hl.
  unfold props.usableLine in Hl.
  rewrite IH by (intros l' Hin; apply Hpre; now right).
  destruct (strings.HasPrefix l "usage_usec"); [| reflexivity].
  destruct (Fields l) as [| f0 [| f1 fs]]; try reflexivity.
  destruct (strconv.ParseInt f1); [discriminate Hl | reflexivity].
Qed.

(** X9: [readCPUStat] reports the number of the first line of cpu.stat
    that starts with "usage_usec" and has an integer as its second
    field; lines before it that lack the field or the integer are
    passed over, lines after it are not looked at, and a file without
    such a line gives 0 and no error. *)
Theorem readCPUStat_first_usable_line
    (Fields : string -> list string) (os : sysio.OS) (cm : cg.CgroupManager)
    (hist : list sysio.Event) (data : string) (pre : list string) :
  sysio.answer os hist (sysio.ReadFile (Join (cg.CgroupPath cm) "cpu.stat")) = inl data ->
  (forall l, In l pre -> props.usableLine Fields l = None) ->
  (strings.Split data "010" = pre ->
   snd (sysio.run os (cg.readCPUStat Fields cm) hist) = sysio.Returned (0, None))
  /\ (forall line post v,
        strings.Split data "010" = pre ++ line :: post ->
        props.usableLine Fields line = Some v ->
        snd (sysio.run os (cg.readCPUStat Fields cm) hist) = sysio.Returned (v, None)).
Proof.
  intros Hread Hpre. unfold cg.readCPUStat. simpl. rewrite Hread. simpl.
  split.
  - intros ->. rewrite <- (app_nil_r pre), usageOf_skips by exact Hpre. reflexivity.
  - intros line post v -> Hline. rewrite usageOf_skips by exact Hpre.
    simpl. unfold props.usableLine in Hline.
    destruct (strings.HasPrefix line "usage_usec"); [| discriminate Hline].
    destruct (Fields line) as [| f0 [| f1 fs]]; try discriminate Hline.
    destruct (strconv.ParseInt f1); [| discriminate Hline].
    now injection Hline as ->.
Qed.

Lemma readCPUStat_first_usable_line_witness :
  snd (sysio.run props.cpuStatOS (cg.readCPUStat props.fieldsAtSpaces props.someCgroup) [])
  = sysio.Returned (1234, None).
Proof.
  refine (proj2 (readCPUStat_first_usable_line props.fieldsAtSpaces props.cpuStatOS
                   props.someCgroup [] props.cpuStatFile ["user_usec 5"; "usage_usec x"]%string
                   eq_refl _)
            "usage_usec 1234"%string ["usage_usec 99"%string] 1234 eq_refl eq_refl).
  intros l [<- | [<- | []]]; reflexivity.
Defined.



(** ** The container process, from start to exec *)

(** ** Which calls a program can make *)

Section ProgramFacts.
Import sysio.

Variable os : OS.

Lemma Uses_bind {A B : Type} (P : Call -> bool) (p : Prog A) (f : A -> Prog B) :
  props.Uses P p -> (forall a, props.Uses P (f a)) -> props.Uses P (bind p f).
Proof.
  intros Hp Hf. induction Hp; simpl; [apply Hf | |]; constructor; auto.
Qed.

Lemma Uses_run {A : Type} (P : Call -> bool) (p : Prog A) (hist : list Event) :
  props.Uses P p -> forallb P (calls (fst (run os p hist))) = true.
Proof.
  intros Hp. revert hist. induction Hp as [a | c k Hc _ IH | b a e k _ IH]; intros hist; simpl.
  - reflexivity.
  - specialize (IH (answer os hist c) (hist ++ [Ev c (answer os hist c)])).
    destruct (run os (k (answer os hist c)) _) as [tr o]. simpl in *.
    now rewrite Hc.
  - destruct (execve os hist b a e) as [err |]; [| reflexivity].
    specialize (IH err (hist ++ [EvExec b a e (Some err)])).
    destruct (run os (k err) _) as [tr o]. exact IH.
Qed.

Lemma NoExec_bind {A B : Type} (p : Prog A) (f : A -> Prog B) :
  props.NoExec p -> (forall a, props.NoExec (f a)) -> props.NoExec (bind p f).
Proof.
  intros Hp Hf. induction Hp; simpl; [apply Hf |]; constructor; auto.
Qed.

(** A program that never attempts [syscall.Exec] returns. *)
Lemma NoExec_run {A : Type} (p : Prog A) (hist : list Event) :
  props.NoExec p ->
  exists tr a, run os p hist = (tr, Returned a)
               /\ forallb (fun e => negb (isExec e)) tr = true.
Proof.
  intros Hp. revert hist. induction Hp as [a | c k _ IH]; intros hist; simpl.
  - exists [], a. auto.
  - destruct (IH (answer os hist c) (hist ++ [Ev c (answer os hist c)]))
      as (tr & a & -> & Htr).
    eexists _, a. split; [reflexivity | exact Htr].
Qed.

End ProgramFacts.

(** Going through a program: a call with its answers, a case
    distinction on an answer, or a named part. *)
Ltac through :=
  repeat match goal with
         | |- props.Uses _ (sysio.Ret _) => apply props.Uses_Ret
         | |- props.NoExec (sysio.Ret _) => apply props.NoExec_Ret
         | |- props.Uses _ (sysio.Do _ _) =>
             apply props.Uses_Do; [first [reflexivity | apply Z.eqb_refl] | intros ?]
         | |- props.Uses _ (sysio.DoExec _ _ _ _) => apply props.Uses_DoExec; intros ?
         | |- props.NoExec (sysio.Do _ _) => apply props.NoExec_Do; intros ?
         | |- props.Uses _ (sysio.bind _ _) => apply Uses_bind; [| intros ?]
         | |- props.NoExec (sysio.bind _ _) => apply NoExec_bind; [| intros ?]
         | |- props.Uses _ (sysio.call _) => unfold sysio.call
         | |- props.NoExec (sysio.call _) => unfold sysio.call
         | |- props.Uses _ (sysio.exec _ _ _) => unfold sysio.exec
         | |- props.Uses _ (match ?x with _ => _ end) => destruct x
         | |- props.NoExec (match ?x with _ => _ end) => destruct x
         end.

Lemma createMounts_NoExec (mounts : list fs.MountPoint) :
  props.NoExec (fs.createMounts mounts).
Proof.
  induction mounts as [| m rest IH]; simpl; [constructor |].
  unfold fs.createMount. through. exact IH.
Qed.

Lemma createMounts_inProcess (flags : Z) (mounts : list fs.MountPoint) :
  props.Uses (props.inProcessCall flags) (fs.createMounts mounts).
Proof.
  induction mounts as [| m rest IH]; simpl; [constructor |].
  unfold fs.createMount. through. exact IH.
Qed.

Lemma SwitchRoot_NoExec (rm : fs.RootfsManager) : props.NoExec (fs.SwitchRoot rm).
Proof.
  unfold fs.SwitchRoot, fs.PrepareRootfs, fs.PivotRoot, fs.ChrootFallback, util.WrapError.
  through.
Qed.

Lemma SwitchRoot_inProcess (flags : Z) (rm : fs.RootfsManager) :
  props.Uses (props.inProcessCall flags) (fs.SwitchRoot rm).
Proof.
  unfold fs.SwitchRoot, fs.PrepareRootfs, fs.PivotRoot, fs.ChrootFallback, util.WrapError.
  through.
Qed.

Lemma initContainer_inProcess (flags : Z) (cp : proc.ContainerProcess) :
  props.Uses (props.inProcessCall flags) (proc.initContainer cp).
Proof.
  unfold proc.initContainer, ns.SetHostname, proc.execProcess, sysio.exec.
  through; first [apply SwitchRoot_inProcess | apply createMounts_inProcess].
Qed.

Lemma runWithPIDNamespace_parent (cp : proc.ContainerProcess) (nsConfig : ns.NamespaceConfig) :
  props.Uses (props.parentCall (ns.CloneFlags nsConfig)) (proc.runWithPIDNamespace cp nsConfig)
  /\ props.NoExec (proc.runWithPIDNamespace cp nsConfig).
Proof.
  unfold proc.runWithPIDNamespace, cg.AddProcess, cg.Cleanup.
  split; through.
Qed.

Lemma CloneFlags_pid_bit (nc : ns.NamespaceConfig) :
  Z.testbit (ns.CloneFlags nc) 29 = ns.PID nc.
Proof. destruct nc as [[] [] [] [] [] []]; reflexivity. Qed.

Lemma ConfigFromSpec_PID (types : list string) :
  ns.PID (ns.ConfigFromSpec types) = true <-> In "pid"%string types.
Proof.
  change (ns.PID (ns.ConfigFromSpec types))
    with (ns.enabled (ns.ConfigFromSpec types) ns.NamespaceType.PID).
  unfold ns.ConfigFromSpec.
  rewrite (enabled_fold_enable types _ ns.NamespaceType.PID). simpl.
  intuition discriminate.
Qed.

(** X11: [Run] chooses by the name "pid" among the namespaces of the
    configuration.  With it, the calling process only prints, makes
    the pipe, starts the child with the clone flags of the
    configuration, which hold the flag of the PID namespace, keeps the
    control group and waits: it makes no [unshare], changes no host
    name, root or mount, never replaces its image, and returns.
    Without it, there is no pipe and no child: the namespaces are made
    by one [unshare] with the flags of the configuration, which lack
    the flag of the PID namespace, and the container is set up in the
    calling process. *)
Theorem Run_dispatch
    (os : sysio.OS) (cp : proc.ContainerProcess) (hist : list sysio.Event) :
  let types := map spec.Type_ (spec.Namespaces (spec.Linux_ (proc.Config cp))) in
  let flags := ns.CloneFlags (ns.ConfigFromSpec types) in
  let tr := fst (sysio.run os (proc.Run cp) hist) in
  (In "pid"%string types ->
   Z.testbit flags 29 = true
   /\ forallb (props.parentCall flags) (sysio.calls tr) = true
   /\ forallb (fun e => negb (sysio.isExec e)) tr = true
   /\ exists err, snd (sysio.run os (proc.Run cp) hist) = sysio.Returned err)
  /\ (~ In "pid"%string types ->
      Z.testbit flags 29 = false
      /\ forallb (props.inProcessCall flags) (sysio.calls tr) = true).
Proof.
  intros types flags tr. subst tr flags.
  rewrite CloneFlags_pid_bit. unfold proc.Run. fold types.
  pose proof (ConfigFromSpec_PID types) as Hpid.
  destruct (ns.PID (ns.ConfigFromSpec types)) eqn:Hp.
  - split; [intros _ | intros Hno; exfalso; apply Hno, Hpid; reflexivity].
    destruct (runWithPIDNamespace_parent cp (ns.ConfigFromSpec types)) as [Huses Hnoexec].
    split; [reflexivity |]. split; [| split].
    + apply Uses_run. through. exact Huses.
    + match goal with
      | |- context [sysio.run os ?p hist] =>
          assert (Hne : props.NoExec p) by (through; exact Hnoexec);
          destruct (NoExec_run os p hist Hne) as (tr & a & -> & Htr)
      end.
      exact Htr.
    + match goal with
      | |- context [sysio.run os ?p hist] =>
          assert (Hne : props.NoExec p) by (through; exact Hnoexec);
          destruct (NoExec_run os p hist Hne) as (tr & a & -> & Htr)
      end.
      exists a. reflexivity.
  - split; [intros Hin; apply Hpid in Hin; discriminate Hin | intros _].
    split; [reflexivity |].
    apply Uses_run. unfold proc.runWithNamespaces, ns.CreateNamespaces.
    through. apply initContainer_inProcess.
Qed.

Lemma no_exec_in (tr : list sysio.Event) (b : string) (a e : slice string)
    (r : option error) :
  forallb (fun ev => negb (sysio.isExec ev)) tr = true ->
  ~ In (sysio.EvExec b a e r) tr.
Proof.
  intros Hno Hin. rewrite forallb_forall in Hno.
  specialize (Hno _ Hin). discriminate Hno.
Qed.

Lemma SetHostname_NoExec (hostname : string) : props.NoExec (ns.SetHostname hostname).
Proof. unfold ns.SetHostname. through. Qed.

(** X12: [initContainer] attempts [syscall.Exec] only as its last
    step, after the host name was set, [SwitchRoot] and
    [CreateBasicMounts] returned nil and the working directory was
    entered, each without error; the program executed is the first
    argument, and the attempt either replaces the process image or
    gives the error of the function. *)
Theorem initContainer_exec_after_setup
    (os : sysio.OS) (cp : proc.ContainerProcess) (hist : list sysio.Event)
    (b : string) (a e : slice string) (r : option error) :
  let rm := fs.NewRootfsManager (spec.GetRootfsPath (proc.Config cp) (proc.BundleDir cp))
              (spec.Readonly (spec.Root_ (proc.Config cp))) in
  In (sysio.EvExec b a e r) (fst (sysio.run os (proc.initContainer cp) hist)) ->
  exists t1 t2 t3 t4,
    fst (sysio.run os (proc.initContainer cp) hist)
    = t1 ++ t2 ++ t3 ++ t4 ++ [sysio.EvExec b a e r]
    /\ sysio.run os (ns.SetHostname (proc.Hostname cp)) hist = (t1, sysio.Returned None)
    /\ sysio.run os (fs.SwitchRoot rm) (hist ++ t1) = (t2, sysio.Returned None)
    /\ sysio.run os fs.CreateBasicMounts (hist ++ t1 ++ t2) = (t3, sysio.Returned None)
    /\ (t4 = [] /\ proc.WorkingDir cp = EmptyString
        \/ t4 = [sysio.Ev (sysio.Chdir (Lit (proc.WorkingDir cp))) None])
    /\ forallb (fun ev => negb (sysio.isExec ev)) (t1 ++ t2 ++ t3 ++ t4) = true
    /\ b = hd EmptyString (elems (proc.Args cp))
    /\ a = proc.Args cp
    /\ snd (sysio.run os (proc.initContainer cp) hist)
       = match r with
         | None => sysio.Replaced
         | Some err => sysio.Returned (Some (util.NewError "exec process" err))
         end.
Proof.
  intros rm. unfold proc.initContainer. fold rm.
  rewrite run_bind.
  assert (Hhost : exists t1 err,
             sysio.run os (ns.SetHostname (proc.Hostname cp)) hist
             = (t1, sysio.Returned err)
             /\ sysio.run os
                  (if negb (proc.Hostname cp =? "")%string
                   then sysio.bind (ns.SetHostname (proc.Hostname cp))
                          (fun err => sysio.Ret (util.WrapError "set hostname" err))
                   else sysio.Ret None) hist
                = (t1, sysio.Returned (util.WrapError "set hostname" err))
             /\ forallb (fun ev => negb (sysio.isExec ev)) t1 = true).
  { unfold ns.SetHostname.
    destruct (proc.Hostname cp =? "")%string; simpl; [exists [], None; auto |].
    destruct (sysio.answer os hist _) as [he |]; simpl; eauto 10. }
  destruct Hhost as (t1 & herr & Hset & -> & Hno1).
  destruct herr as [he |]; cbn [util.WrapError sysio.run fst]; cbv beta iota.
  { intros Hin. rewrite app_nil_r in Hin. now apply no_exec_in in Hin. }
  rewrite run_bind.
  destruct (NoExec_run os _ (hist ++ t1) (SwitchRoot_NoExec rm)) as (t2 & serr & Hsw & Hno2).
  rewrite Hsw. destruct serr as [se |]; cbn [util.WrapError sysio.run fst]; cbv beta iota.
  { intros Hin. rewrite app_nil_r in Hin. apply in_app_or in Hin.
    destruct Hin as [Hin | Hin]; now apply no_exec_in in Hin. }
  rewrite run_bind.
  destruct (NoExec_run os _ ((hist ++ t1) ++ t2) (createMounts_NoExec fs.basicMounts))
    as (t3 & merr & Hmo & Hno3).
  fold fs.CreateBasicMounts in Hmo. rewrite Hmo.
  destruct merr as [me |]; cbn [util.WrapError sysio.run fst]; cbv beta iota.
  { intros Hin. rewrite app_nil_r in Hin.
    apply in_app_or in Hin. destruct Hin as [Hin | Hin]; [now apply no_exec_in in Hin |].
    apply in_app_or in Hin. destruct Hin as [Hin | Hin]; now apply no_exec_in in Hin. }
  rewrite run_bind.
  assert (Hwd : exists t4 err,
             sysio.run os
               (if negb (proc.WorkingDir cp =? "")%string
                then sysio.bind (sysio.call (sysio.Chdir (Lit (proc.WorkingDir cp))))
                       (fun err =>
                          match err with
                          | Some e0 =>
                              sysio.Ret (Some (util.NewPathError "change working directory"
                                                 (Lit (proc.WorkingDir cp)) e0))
                          | None => sysio.Ret None
                          end)
                else sysio.Ret None) (((hist ++ t1) ++ t2) ++ t3)
             = (t4, sysio.Returned err)
             /\ forallb (fun ev => negb (sysio.isExec ev)) t4 = true
             /\ (err = None ->
                 t4 = [] /\ proc.WorkingDir cp = EmptyString
                 \/ t4 = [sysio.Ev (sysio.Chdir (Lit (proc.WorkingDir cp))) None])).
  { destruct (String.eqb_spec (proc.WorkingDir cp) ""); simpl; [exists [], None; auto |].
    destruct (sysio.answer os _ _) as [ce |]; simpl.
    - eexists _, _. split; [reflexivity |]. split; [reflexivity | discriminate].
    - eexists _, _. split; [reflexivity |]. split; [reflexivity | auto]. }
  destruct Hwd as (t4 & werr & -> & Hno4 & Ht4).
  destruct werr as [we |]; cbn [sysio.run fst]; cbv beta iota.
  { intros Hin. rewrite app_nil_r in Hin.
    repeat (apply in_app_or in Hin; destruct Hin as [Hin | Hin];
            [now apply no_exec_in in Hin |]).
    now apply no_exec_in in Hin. }
  specialize (Ht4 eq_refl).
  unfold proc.execProcess.
  destruct (len (proc.Args cp) =? 0)%nat.
  { cbn [sysio.run fst]. intros Hin. rewrite app_nil_r in Hin.
    repeat (apply in_app_or in Hin; destruct Hin as [Hin | Hin];
            [now apply no_exec_in in Hin |]).
    now apply no_exec_in in Hin. }
  cbn [sysio.exec sysio.bind sysio.run].
  destruct (sysio.execve os _ _ _ _) as [xe |]; cbn [fst snd].
  all: intros Hin;
    repeat (apply in_app_or in Hin; destruct Hin as [Hin | Hin];
            [now apply no_exec_in in Hin |]);
    destruct Hin as [Hin | []]; injection Hin as <- <- <- <-;
    exists t1, t2, t3, t4; rewrite <- !app_assoc in *;
    (split; [reflexivity |]); (split; [exact Hset |]); (split; [exact Hsw |]);
    (split; [exact Hmo |]); (split; [exact Ht4 |]);
    (split; [rewrite !forallb_app, Hno1, Hno2, Hno3, Hno4; reflexivity |]);
    auto.
Qed.

Lemma initContainer_exec_after_setup_witness :
  snd (sysio.run props.allSucceed (proc.initContainer props.someProcess) [])
  = sysio.Replaced.
Proof.
  assert (Hin : In (sysio.EvExec "/bin/sh" (Some ["/bin/sh"%string]) (Some []) None)
                  (fst (sysio.run props.allSucceed (proc.initContainer props.someProcess) []))).
  { vm_compute. repeat (first [left; reflexivity | right]). }
  destruct (initContainer_exec_after_setup props.allSucceed props.someProcess []
              "/bin/sh" (Some ["/bin/sh"%string]) (Some []) None Hin)
    as (t1 & t2 & t3 & t4 & _ & _ & _ & _ & _ & _ & _ & _ & Hsnd).
  exact Hsnd.
Defined.

(** Finding a call in the calls of a trace. *)
Ltac in_calls H :=
  simpl in H;
  repeat match type of H with
         | _ \/ _ => destruct H as [H | H]
         | False => contradiction
         | _ = _ => first [discriminate H | injection H as H]
         end.

(** X13: once the pipe exists, [runWithPIDNamespace] closes each of
    its ends exactly once on every path, the write end first; when it
    waits for the child, the write end is closed before the wait and
    the read end after it.  The child is the program itself with the
    argument container-init, the write end as its extra file, and the
    environment of the parent followed by the four GOMINI variables.
    Without a control group no file of a control group is touched. *)
Theorem runWithPIDNamespace_closes_pipe
    (os : sysio.OS) (cp : proc.ContainerProcess) (nsConfig : ns.NamespaceConfig)
    (hist : list sysio.Event) (r w : Z) :
  sysio.answer os hist sysio.Pipe = inl (r, w) ->
  let tr := fst (sysio.run os (proc.runWithPIDNamespace cp nsConfig) hist) in
  filter props.isClose (sysio.calls tr) = [sysio.Close w; sysio.Close r]
  /\ (forall cmd, In (sysio.Start cmd) (sysio.calls tr) ->
      sysio.CmdPath cmd = "/proc/self/exe"%string
      /\ sysio.CmdArgs cmd = ["/proc/self/exe"; "container-init"]%string
      /\ sysio.ExtraFiles cmd = [w]
      /\ exists environ,
          In (sysio.Ev sysio.Environ environ) tr
          /\ sysio.CmdEnv cmd
             = environ ++ [ "GOMINI_BUNDLE_DIR=" ++ proc.BundleDir cp;
                            "GOMINI_HOSTNAME=" ++ proc.Hostname cp;
                            "GOMINI_ARGS=" ++ json.Marshal (proc.Args cp);
                            "GOMINI_WORKING_DIR=" ++ proc.WorkingDir cp ]%string)
  /\ (forall cmd res, In (sysio.Ev (sysio.Wait cmd) res) tr ->
      In (sysio.Close w) (sysio.calls (props.beforeWait tr))
      /\ In (sysio.Close r) (sysio.calls (props.afterWait tr)))
  /\ (proc.CgroupManager cp = None ->
      forallb (fun c => negb (props.isCgroupCall c)) (sysio.calls tr) = true).
Proof.
  intros Hpipe tr. subst tr.
  unfold proc.runWithPIDNamespace, cg.AddProcess, cg.Cleanup. simpl.
  rewrite Hpipe. simpl.
  set (environ := sysio.answer os _ sysio.Environ). clearbody environ.
  destruct (sysio.answer os _ (sysio.Start _)) as [pid | startErr]; simpl.
  2: { split; [reflexivity |]. split; [| split; [| reflexivity]].
       - intros cmd Hin. in_calls Hin. subst cmd. simpl. eauto 10.
       - intros cmd res Hin. in_events Hin. }
  destruct (proc.CgroupManager cp) as [cm |]; simpl.
  - destruct (sysio.answer os _ (sysio.WriteFile _ _ _)) as [addErr |]; simpl;
      [destruct (sysio.answer os _ (sysio.FprintfStderr _ _)); simpl |].
    all: destruct (sysio.answer os _ (sysio.Wait _)) as [waitErr |]; simpl.
    all: destruct (sysio.answer os _ (sysio.RemoveAll _)) as [rmErr |]; simpl.
    all: try (destruct (sysio.answer os _
                          (sysio.FprintfStderr _ (util.NewPathError _ _ rmErr))); simpl).
    all: (split; [reflexivity |]); (split; [| split; [| discriminate]]);
      [ intros cmd Hin; in_calls Hin; subst cmd; simpl; eauto 10
      | intros cmd res Hin; simpl; auto 10 ].
  - destruct (sysio.answer os _ (sysio.Wait _)) as [waitErr |]; simpl.
    all: (split; [reflexivity |]); (split; [| split; [| reflexivity]]);
      [ intros cmd Hin; in_calls Hin; subst cmd; simpl; eauto 10
      | intros cmd res Hin; simpl; auto 10 ].
Qed.

Lemma runWithPIDNamespace_closes_pipe_witness :
  filter props.isClose
    (sysio.calls (fst (sysio.run props.childFails
                         (proc.runWithPIDNamespace props.someProcessInCgroup
                            (ns.ConfigFromSpec ["pid"%string])) [])))
  = [sysio.Close 4; sysio.Close 3].
Proof.
  apply (runWithPIDNamespace_closes_pipe props.childFails props.someProcessInCgroup
           (ns.ConfigFromSpec ["pid"%string]) [] 3 4).
  reflexivity.
Defined.

Section EndsFacts.
Import sysio.

Lemma Ends_any {A : Type} (p : Prog A) : props.Ends (fun _ => True) p.
Proof. induction p; constructor; auto. Qed.

Lemma Ends_bind {A B : Type} (Q : B -> Prop) (p : Prog A) (f : A -> Prog B) :
  (forall a, props.Ends Q (f a)) -> props.Ends Q (bind p f).
Proof. intros Hf. induction p; simpl; [apply Hf | |]; constructor; auto. Qed.

Lemma Ends_run {A : Type} (os : OS) (Q : A -> Prop) (p : Prog A) (hist : list Event) (a : A) :
  props.Ends Q p -> snd (run os p hist) = Returned a -> Q a.
Proof.
  intros Hp. revert hist. induction Hp as [x Hx | c k _ IH | b ar e k _ IH]; intros hist; simpl.
  - now intros [= <-].
  - specialize (IH (answer os hist c) (hist ++ [Ev c (answer os hist c)])).
    now destruct (run os (k (answer os hist c)) _).
  - destruct (execve os hist b ar e) as [err |]; [| discriminate].
    specialize (IH err (hist ++ [EvExec b ar e (Some err)])).
    now destruct (run os (k err) _).
Qed.

End EndsFacts.

Ltac to_the_end :=
  repeat match goal with
         | |- props.Ends _ (sysio.Ret _) => apply props.Ends_Ret; discriminate
         | |- props.Ends _ (sysio.Do _ _) => apply props.Ends_Do; intros ?
         | |- props.Ends _ (sysio.DoExec _ _ _ _) => apply props.Ends_DoExec; intros ?
         | |- props.Ends _ (sysio.bind _ _) => apply Ends_bind; intros ?
         | |- props.Ends _ (sysio.call _) => unfold sysio.call
         | |- props.Ends _ (sysio.exec _ _ _) => unfold sysio.exec
         | |- props.Ends _ (match ?x with _ => _ end) => destruct x
         end.

Lemma initContainer_Ends (cp : proc.ContainerProcess) :
  props.Ends (fun err => err <> None) (proc.initContainer cp).
Proof.
  unfold proc.initContainer, proc.execProcess. to_the_end.
Qed.

(** X14: the container's own side never returns nil: [initContainer],
    and with it [runWithNamespaces], [HandleContainerInit] and [Run]
    without a PID namespace, either replace the process image or
    return an error. *)
Theorem initContainer_never_returns_nil
    (os : sysio.OS) (hist : list sysio.Event) (cp : proc.ContainerProcess) :
  snd (sysio.run os (proc.initContainer cp) hist) <> sysio.Returned None
  /\ (forall nsConfig,
        snd (sysio.run os (proc.runWithNamespaces cp nsConfig) hist) <> sysio.Returned None)
  /\ (forall unmarshalConfig,
        snd (sysio.run os (proc.HandleContainerInit unmarshalConfig) hist)
        <> sysio.Returned None)
  /\ (~ In "pid"%string (map spec.Type_ (spec.Namespaces (spec.Linux_ (proc.Config cp)))) ->
      snd (sysio.run os (proc.Run cp) hist) <> sysio.Returned None).
Proof.
  assert (Hend : forall (p : sysio.Prog (option error)) h,
             props.Ends (fun err => err <> None) p ->
             snd (sysio.run os p h) <> sysio.Returned None).
  { intros p h Hp Hnil. now apply (Ends_run os _ p h None Hp). }
  split; [apply Hend, initContainer_Ends |].
  split; [| split].
  - intros nsConfig. apply Hend. unfold proc.runWithNamespaces. to_the_end.
    apply initContainer_Ends.
  - intros unmarshalConfig. apply Hend. unfold proc.HandleContainerInit. to_the_end.
    apply initContainer_Ends.
  - intros Hno. apply Hend. unfold proc.Run.
    pose proof (ConfigFromSpec_PID
                  (map spec.Type_ (spec.Namespaces (spec.Linux_ (proc.Config cp))))) as Hpid.
    destruct (ns.PID _); [exfalso; apply Hno, Hpid; reflexivity |].
    unfold proc.runWithNamespaces. to_the_end. apply initContainer_Ends.
Qed.

(** X15: [HandleContainerInit] first reads the four GOMINI variables,
    in a fixed order.  With an empty GOMINI_BUNDLE_DIR it makes no
    other call and returns the error "GOMINI_BUNDLE_DIR not set".
    When the configuration cannot be read, or GOMINI_ARGS is not empty
    and is not the JSON text of a list of strings, it returns an error
    having done nothing but read the environment and the
    configuration file: no host name, root or mount is touched. *)
Theorem HandleContainerInit_fails_before_setup
    (unmarshalConfig : string -> spec.Config + error) (os : sysio.OS)
    (hist : list sysio.Event) :
  let tr := fst (sysio.run os (proc.HandleContainerInit unmarshalConfig) hist) in
  let o := snd (sysio.run os (proc.HandleContainerInit unmarshalConfig) hist) in
  exists bundleDir hostname argsStr workingDir rest,
    tr = [ sysio.Ev (sysio.Getenv "GOMINI_BUNDLE_DIR") bundleDir;
           sysio.Ev (sysio.Getenv "GOMINI_HOSTNAME") hostname;
           sysio.Ev (sysio.Getenv "GOMINI_ARGS") argsStr;
           sysio.Ev (sysio.Getenv "GOMINI_WORKING_DIR") workingDir ] ++ rest
    /\ (bundleDir = EmptyString ->
        rest = []
        /\ o = sysio.Returned
                 (Some (util.NewSimpleError "container init" "GOMINI_BUNDLE_DIR not set")))
    /\ (forall e,
        In (sysio.Ev (sysio.ReadFile (Join (Lit bundleDir) "config.json")) (inr e)) rest ->
        rest = [sysio.Ev (sysio.ReadFile (Join (Lit bundleDir) "config.json")) (inr e)]
        /\ o = sysio.Returned
                 (Some (Wrapped "load config in init"
                          (util.NewPathError "read config"
                             (Join (Lit bundleDir) "config.json") e))))
    /\ (forall err,
        argsStr <> EmptyString -> json.Unmarshal argsStr = inr err ->
        forallb (fun c => negb (props.isSetup c)) (sysio.calls tr) = true
        /\ exists e, o = sysio.Returned (Some e)).
Proof.
  intros tr o. subst tr o.
  unfold proc.HandleContainerInit, spec.LoadConfig. simpl.
  set (bundleDir := sysio.answer os hist (sysio.Getenv "GOMINI_BUNDLE_DIR")).
  set (hostname := sysio.answer os _ (sysio.Getenv "GOMINI_HOSTNAME")).
  set (argsStr := sysio.answer os _ (sysio.Getenv "GOMINI_ARGS")).
  set (workingDir := sysio.answer os _ (sysio.Getenv "GOMINI_WORKING_DIR")).
  clearbody bundleDir hostname argsStr workingDir.
  exists bundleDir, hostname, argsStr, workingDir.
  destruct (String.eqb_spec bundleDir "") as [Hb | Hb]; simpl.
  { exists []. split; [reflexivity |]. split; [auto |]. split.
    - intros e [].
    - intros err _ _. split; [reflexivity | eauto]. }
  destruct (sysio.answer os _ (sysio.ReadFile _)) as [data | re]; simpl.
  2: { eexists. split; [reflexivity |]. split; [contradiction |]. split.
       - intros e Hin. in_events Hin. injection Hans as <-. auto.
       - intros err _ _. split; [reflexivity | eauto]. }
  destruct (unmarshalConfig data) as [config | ue]; simpl.
  2: { eexists. split; [reflexivity |]. split; [contradiction |]. split.
       - intros e Hin. in_events Hin.
       - intros err _ _. split; [reflexivity | eauto]. }
  destruct (spec.validateConfig config) as [ve |]; simpl.
  { eexists. split; [reflexivity |]. split; [contradiction |]. split.
    - intros e Hin. in_events Hin.
    - intros err _ _. split; [reflexivity | eauto]. }
  unfold proc.overrideFromEnv.
  destruct (String.eqb_spec argsStr "") as [Ha | Ha]; simpl.
  - match goal with
    | |- context [sysio.run os ?p ?h] => destruct (sysio.run os p h) as [t oc] eqn:Hrun
    end.
    exists (sysio.Ev (sysio.ReadFile (Join (Lit bundleDir) "config.json")) (inl data) :: t).
    split; [reflexivity |]. split; [contradiction |]. split.
    + intros e Hin. exfalso. destruct Hin as [Hin | Hin]; [in_events Hin |].
      assert (Hp : forallb (props.inProcessCall 0) (sysio.calls t) = true).
      { match type of Hrun with
        | sysio.run os ?p ?h = _ =>
            pose proof (Uses_run os (props.inProcessCall 0) p h
                          (initContainer_inProcess 0 _)) as Hu;
            rewrite Hrun in Hu; exact Hu
        end. }
      rewrite forallb_forall in Hp.
      specialize (Hp (sysio.ReadFile (Join (Lit bundleDir) "config.json"))).
      assert (Hc : In (sysio.ReadFile (Join (Lit bundleDir) "config.json")) (sysio.calls t)).
      { unfold sysio.calls. apply in_flat_map. eexists. split; [exact Hin |]. now left. }
      specialize (Hp Hc). discriminate Hp.
    + intros err Hne. contradiction.
  - destruct (json.Unmarshal argsStr) as [args | je]; simpl.
    + match goal with
      | |- context [sysio.run os ?p ?h] => destruct (sysio.run os p h) as [t oc] eqn:Hrun
      end.
      exists (sysio.Ev (sysio.ReadFile (Join (Lit bundleDir) "config.json")) (inl data) :: t).
      split; [reflexivity |]. split; [contradiction |]. split.
      * intros e Hin. exfalso. destruct Hin as [Hin | Hin]; [in_events Hin |].
        assert (Hp : forallb (props.inProcessCall 0) (sysio.calls t) = true).
        { match type of Hrun with
          | sysio.run os ?p ?h = _ =>
              pose proof (Uses_run os (props.inProcessCall 0) p h
                            (initContainer_inProcess 0 _)) as Hu;
              rewrite Hrun in Hu; exact Hu
          end. }
        rewrite forallb_forall in Hp.
        specialize (Hp (sysio.ReadFile (Join (Lit bundleDir) "config.json"))).
        assert (Hc : In (sysio.ReadFile (Join (Lit bundleDir) "config.json")) (sysio.calls t)).
        { unfold sysio.calls. apply in_flat_map. eexists. split; [exact Hin |]. now left. }
        specialize (Hp Hc). discriminate Hp.
      * intros err _ Hbad. discriminate Hbad.
    + eexists. split; [reflexivity |]. split; [contradiction |]. split.
      * intros e Hin. in_events Hin.
      * intros err _ _. split; [reflexivity | eauto].
Qed.

(** X16: a configuration [LoadConfig] returns was decoded from the
    one file it read, config.json of the bundle, and passed
    [validateConfig]: it has a version, at least one process argument
    and a root path.  So a container process made from it has a
    command to execute, whatever host name and arguments override
    it. *)
Theorem LoadConfig_gives_valid_config
    (unmarshalConfig : string -> spec.Config + error) (os : sysio.OS)
    (bundleDir : string) (hist tr : list sysio.Event) (config : spec.Config) :
  sysio.run os (spec.LoadConfig unmarshalConfig bundleDir) hist
  = (tr, sysio.Returned (inl config)) ->
  (exists data,
      tr = [sysio.Ev (sysio.ReadFile (Join (Lit bundleDir) "config.json")) (inl data)]
      /\ unmarshalConfig data = inl config)
  /\ spec.OCIVersion config <> EmptyString
  /\ (0 < len (spec.Args (spec.Process_ config)))%nat
  /\ spec.Path (spec.Root_ config) <> EmptyString
  /\ forall hostname args,
       (0 < len (proc.Args (proc.OverrideArgs
                              (proc.OverrideHostname
                                 (proc.NewContainerProcess config bundleDir) hostname)
                              args)))%nat.
Proof.
  unfold spec.LoadConfig. simpl.
  destruct (sysio.answer os hist _) as [data | re]; simpl; [| discriminate].
  destruct (unmarshalConfig data) as [c | ue] eqn:Hu; simpl; [| discriminate].
  destruct (spec.validateConfig c) as [ve |] eqn:Hv; simpl; [discriminate |].
  intros [= <- <-].
  unfold spec.validateConfig in Hv.
  destruct (String.eqb_spec (spec.OCIVersion c) ""); [discriminate |].
  destruct (Nat.eqb_spec (len (spec.Args (spec.Process_ c))) 0); [discriminate |].
  destruct (String.eqb_spec (spec.Path (spec.Root_ c)) ""); [discriminate |].
  split; [eauto |]. split; [assumption |]. split; [lia |]. split; [assumption |].
  intros hostname args.
  unfold proc.OverrideArgs, proc.OverrideHostname.
  destruct (Nat.ltb_spec 0 (len args)); destruct (negb (hostname =? "")%string); simpl; lia.
Qed.

Lemma LoadConfig_gives_valid_config_witness :
  (0 < len (spec.Args (spec.Process_ props.someConfig)))%nat.
Proof.
  apply (LoadConfig_gives_valid_config props.loadsSomeConfig props.allSucceed
           "/bundle" []
           [sysio.Ev (sysio.ReadFile (Join (Lit "/bundle") "config.json")) (inl EmptyString)]
           props.someConfig).
  reflexivity.
Defined.
(** ** Errors and their causes *)

Lemma rootCause_Unwrap (err : error) :
  props.rootCause err
  = match util.Unwrap err with
    | Some e => props.rootCause e
    | None => err
    end.
Proof. destruct err; reflexivity. Qed.

Lemma lastFailure_cons (ev : sysio.Event) (tr : list sysio.Event) (x : error) :
  props.lastFailure tr = Some x -> props.lastFailure (ev :: tr) = Some x.
Proof. destruct tr as [| ev' tr]; [discriminate | auto]. Qed.

Ltac caused :=
  intros ? Hret; simpl in Hret; try discriminate Hret;
  injection Hret as <-; eexists; split; reflexivity.

Lemma createMounts_cause (os : sysio.OS) (mounts : list fs.MountPoint)
    (hist : list sysio.Event) (err : error) :
  snd (sysio.run os (fs.createMounts mounts) hist) = sysio.Returned (Some err) ->
  props.causedByLastCall (fst (sysio.run os (fs.createMounts mounts) hist)) err.
Proof.
  revert hist. induction mounts as [| m rest IH]; intros hist; [discriminate |].
  cbn [fs.createMounts]. unfold fs.createMount. simpl.
  destruct (sysio.answer os hist _) as [e1 |]; simpl.
  { clear IH. revert err. caused. }
  destruct (sysio.answer os _ (sysio.Mount _ _ _ _ _)) as [e2 |]; simpl.
  { clear IH. revert err. caused. }
  match goal with
  | |- context [sysio.run os (fs.createMounts rest) ?h] =>
      specialize (IH h); destruct (sysio.run os (fs.createMounts rest) h) as [tr o]
  end.
  simpl in *. intros Hret. destruct (IH Hret) as (x & Hlast & Hcause).
  exists x. split; [| exact Hcause].
  destruct tr as [| ev tr]; [discriminate Hlast | exact Hlast].
Qed.

(** X17: the error a function returns after a call failed unwraps,
    through [Unwrap], to the error of that call, the last call made.
    This holds for [SwitchRoot], where the one exception is the
    message "rootfs path does not exist" that replaces the error of
    the [Stat], for the mount loop, and for [Setup], [ApplyLimits],
    [AddProcess] and [Cleanup] of a control group. *)
Theorem failures_keep_the_cause (os : sysio.OS) (hist : list sysio.Event) :
  (forall err, props.rootCause err
               = match util.Unwrap err with
                 | Some e => props.rootCause e
                 | None => err
                 end)
  /\ (forall rm err,
        snd (sysio.run os (fs.SwitchRoot rm) hist) = sysio.Returned (Some err) ->
        props.rootCause err = ErrorString "rootfs path does not exist"
        \/ props.causedByLastCall (fst (sysio.run os (fs.SwitchRoot rm) hist)) err)
  /\ (forall mounts err,
        snd (sysio.run os (fs.createMounts mounts) hist) = sysio.Returned (Some err) ->
        props.causedByLastCall (fst (sysio.run os (fs.createMounts mounts) hist)) err)
  /\ (forall Dir cm err,
        snd (sysio.run os (cg.Setup Dir cm) hist) = sysio.Returned (Some err) ->
        props.causedByLastCall (fst (sysio.run os (cg.Setup Dir cm) hist)) err)
  /\ (forall cm limits err,
        snd (sysio.run os (cg.ApplyLimits cm limits) hist) = sysio.Returned (Some err) ->
        props.causedByLastCall (fst (sysio.run os (cg.ApplyLimits cm limits) hist)) err)
  /\ (forall cm pid err,
        snd (sysio.run os (cg.AddProcess cm pid) hist) = sysio.Returned (Some err) ->
        props.causedByLastCall (fst (sysio.run os (cg.AddProcess cm pid) hist)) err)
  /\ (forall cm err,
        snd (sysio.run os (cg.Cleanup cm) hist) = sysio.Returned (Some err) ->
        props.causedByLastCall (fst (sysio.run os (cg.Cleanup cm) hist)) err).
Proof.
  split; [exact rootCause_Unwrap |].
  split; [| split; [| split; [| split; [| split]]]].
  - intros rm.
    unfold fs.SwitchRoot, fs.PrepareRootfs, fs.PivotRoot, fs.ChrootFallback. simpl.
    destruct (IsNotExist _); simpl; [intros err [= <-]; now left |].
    split_answers; intros err Hret; right; revert err Hret; caused.
  - intros mounts err. apply createMounts_cause.
  - intros Dir cm. unfold cg.Setup. simpl.
    destruct (sysio.answer os hist _); simpl; [caused |].
    destruct (0 <? _)%nat; simpl; [| caused].
    split_answers; caused.
  - intros cm limits.
    unfold cg.ApplyLimits, cg.guarded, cg.setCPULimit, cg.setMemoryLimit, cg.setPidsLimit.
    destruct (0 <? cg.CPUQuota limits), (0 <? cg.Memory limits), (0 <? cg.Pids limits);
      simpl; split_answers; caused.
  - intros cm pid. unfold cg.AddProcess. simpl. split_answers; caused.
  - intros cm. unfold cg.Cleanup. simpl. split_answers; caused.
Qed.
(** ** The earlier encoding of the argument list *)

Lemma hasSpace_app (s t : string) :
  props.hasSpace (s ++ t) = props.hasSpace s || props.hasSpace t.
Proof.
  induction s as [| c s IH]; simpl; [reflexivity |].
  now rewrite IH, Bool.orb_assoc.
Qed.

Lemma hasSpace_skip (n : nat) (s : string) :
  props.hasSpace s = false -> props.hasSpace (skip n s) = false.
Proof.
  revert s. induction n as [| n IH]; intros s Hs; [exact Hs |].
  destruct s as [| c s]; [reflexivity |]. simpl in *.
  apply Bool.orb_false_iff in Hs. apply IH, Hs.
Qed.

Lemma splitLoop_fuel (f : nat) :
  forall (f' : nat) (s : string) (args : slice string) (current : string),
    (String.length s <= f)%nat -> (String.length s <= f')%nat ->
    proc0.splitLoop f s args current = proc0.splitLoop f' s args current.
Proof.
  induction f as [| f IH]; intros f' s args current Hf Hf';
    (destruct s as [| c s]; [now destruct f' |]); cbn [String.length] in Hf, Hf'; [lia |].
  destruct f' as [| f']; [lia |].
  cbn [proc0.splitLoop].
  pose proof (DecodeRune_width_pos c s) as Hpos.
  destruct (utf8.DecodeRune (String c s)) as [char size]. cbn [snd] in Hpos.
  pose proof (skip_shorter size c s Hpos) as Hlen.
  destruct (char =? 32); [destruct (negb (current =? "")%string) |];
    apply IH; lia.
Qed.

(** The first rune of a valid word does not depend on what follows
    the word. *)
Lemma DecodeRune_app (c : ascii) (w rest : string) (r : Z) (size : nat) :
  utf8.DecodeRune (String c w) = (r, size) ->
  (r =? utf8.RuneError) && (size =? 1)%nat = false ->
  utf8.DecodeRune (String c w ++ rest) = (r, size)
  /\ skip size (String c w ++ rest) = (skip size (String c w) ++ rest)%string.
Proof.
  intros Hdec Hok.
  destruct (Z.lt_ge_cases (byteOf c) 128) as [Hlow | Hhigh].
  - rewrite DecodeRune_ascii in Hdec by exact Hlow. injection Hdec as <- <-.
    cbn [append]. rewrite DecodeRune_ascii by exact Hlow. split; reflexivity.
  - pose proof (DecodeRune_high_width c w r size Hhigh Hdec Hok) as Hsize.
    destruct (DecodeRune_prefix (String c w) (skip size (String c w) ++ rest) r size
                Hdec Hsize) as [H1 H2].
    rewrite <- str_app_assoc, substring_skip in H1, H2. split; assumption.
Qed.

Lemma splitLoop_word (fuelw : nat) :
  forall (w : string),
    (String.length w <= fuelw)%nat ->
    utf8.validFrom fuelw w = true ->
    props.hasSpace w = false ->
    forall (f : nat) (rest : string) (args : slice string) (current : string),
      (String.length (w ++ rest) <= f)%nat ->
      exists f', (String.length rest <= f')%nat
                 /\ proc0.splitLoop f (w ++ rest) args current
                    = proc0.splitLoop f' rest args (current ++ w).
Proof.
  induction fuelw as [| fuelw IH]; intros w Hlen Hvalid Hspace f rest args current Hf.
  - destruct w; [| cbn in Hlen; lia].
    exists f. rewrite str_app_nil_r. split; [exact Hf | reflexivity].
  - destruct w as [| c w].
    { exists f. rewrite str_app_nil_r. split; [exact Hf | reflexivity]. }
    cbn [utf8.validFrom] in Hvalid.
    pose proof (DecodeRune_width_pos c w) as Hpos.
    destruct (utf8.DecodeRune (String c w)) as [r size] eqn:Hdec. cbn [snd] in Hpos.
    destruct ((r =? utf8.RuneError) && (size =? 1)%nat) eqn:Hok; [discriminate |].
    destruct (DecodeRune_app c w rest r size Hdec Hok) as [Hdec' Hskip].
    pose proof (EncodeRune_DecodeRune c w r size Hdec Hok) as Henc.
    assert (Hr : (r =? 32) = false).
    { apply Z.eqb_neq. intros ->.
      destruct size as [| size]; [lia |].
      cbn in Henc. injection Henc as Hc _. subst c.
      cbn in Hspace. discriminate Hspace. }
    pose proof (skip_shorter size c w Hpos) as Hshort.
    destruct f as [| f]; [cbn in Hf; lia |].
    change (String c w ++ rest)%string with (String c (w ++ rest)) in *.
    cbn [proc0.splitLoop]. rewrite Hdec', Hr, Hskip, Henc.
    cbn [String.length] in Hlen, Hf. rewrite str_length_app in Hf.
    destruct (IH (skip size (String c w))) with
      (f := f) (rest := rest) (args := args)
      (current := (current ++ String.substring 0 size (String c w))%string)
      as (f' & Hf' & Heq).
    + lia.
    + exact Hvalid.
    + now apply hasSpace_skip.
    + rewrite str_length_app. lia.
    + exists f'. split; [exact Hf' |].
      rewrite Heq, str_app_assoc, substring_skip. reflexivity.
Qed.

(** What [joinFrom] appends to its first argument. *)
Lemma joinFrom_app (rest : list string) (result : string) :
  proc0.joinFrom result rest
  = (result ++ props.spaced rest)%string.
Proof.
  revert result. induction rest as [| a rest IH]; intros result; simpl.
  - now rewrite str_app_nil_r.
  - rewrite IH, !str_app_assoc. reflexivity.
Qed.

Lemma plainWord_parts (w : string) :
  props.plainWord w = true ->
  w <> EmptyString /\ props.hasSpace w = false /\ utf8.ValidString w = true.
Proof.
  unfold props.plainWord. intros H.
  apply Bool.andb_true_iff in H. destruct H as [H Hv].
  apply Bool.andb_true_iff in H. destruct H as [Hn Hs].
  split; [| split; [now apply Bool.negb_true_iff in Hs | exact Hv]].
  intros ->. discriminate Hn.
Qed.

Lemma splitLoop_words (rest : list string) :
  forallb props.plainWord rest = true ->
  forall (f : nat) (args : slice string) (current : string),
    current <> EmptyString ->
    (String.length (props.spaced rest) <= f)%nat ->
    exists args' current',
      proc0.splitLoop f (props.spaced rest) args current
      = (args', current')
      /\ current' <> EmptyString
      /\ elems args' ++ [current'] = elems args ++ current :: rest.
Proof.
  induction rest as [| a rest IH]; intros Hall f args current Hcur Hf.
  - exists args, current. split; [now destruct f | auto].
  - cbn [forallb] in Hall. apply Bool.andb_true_iff in Hall. destruct Hall as [Ha Hrest].
    destruct (plainWord_parts a Ha) as (Hne & Hsp & Hval).
    unfold props.spaced in *. cbn [fold_right] in *. fold (props.spaced rest) in *. cbn [append] in *.
    destruct f as [| f]; [cbn in Hf; lia |]. cbn [String.length] in Hf.
    cbn [proc0.splitLoop]. rewrite DecodeRune_ascii by (vm_compute; reflexivity).
    change (byteOf " " =? 32) with true. cbv iota.
    assert (Hcur' : negb (current =? "")%string = true).
    { destruct (String.eqb_spec current ""); [contradiction | reflexivity]. }
    rewrite Hcur'. cbn [skip].
    destruct (splitLoop_word (String.length a) a (le_n _) Hval Hsp f _
                (proc0.push args current) EmptyString (le_S_n _ _ Hf)) as (f' & Hf' & ->).
    cbn [append].
    destruct (IH Hrest f' (proc0.push args current) a Hne Hf') as (args' & cur' & Hrun & Hc & He).
    exists args', cur'. split; [exact Hrun |]. split; [exact Hc |].
    rewrite He. cbn [proc0.push elems]. now rewrite <- app_assoc.
Qed.

Lemma byteOf_toByte (v : Z) : byteOf (toByte v) = Z.land v 0xFF.
Proof.
  unfold byteOf, toByte. rewrite land_255_mod.
  pose proof (Z.mod_pos_bound v 256 eq_refl) as Hb.
  rewrite nat_ascii_embedding by lia. lia.
Qed.

(** A byte with the high bit set is not a space. *)
Lemma high_not_space (t x : Z) :
  Z.testbit t 7 = true -> (byteOf (toByte (Z.lor t x)) =? 32) = false.
Proof.
  intros Ht. apply Z.eqb_neq. rewrite byteOf_toByte. intros Heq.
  apply (f_equal (fun v => Z.testbit v 7)) in Heq.
  rewrite Z.land_spec, Z.lor_spec, Ht in Heq. discriminate Heq.
Qed.

Lemma hasSpace_EncodeRune (r : Z) :
  r <> 32 -> props.hasSpace (utf8.EncodeRune r) = false.
Proof.
  intros Hr. unfold utf8.EncodeRune, utf8.encode3.
  destruct ((0 <=? r) && (r <=? utf8.rune1Max)) eqn:H1.
  - apply Bool.andb_true_iff in H1. destruct H1 as [Hlo Hhi].
    apply Z.leb_le in Hlo, Hhi. unfold utf8.rune1Max in Hhi.
    cbn [props.hasSpace]. rewrite byteOf_toByte, land_255_mod, Z.mod_small by lia.
    rewrite Bool.orb_false_r. now apply Z.eqb_neq.
  - repeat match goal with
           | |- context [if ?b then _ else _] => destruct b
           end;
      cbn [props.hasSpace]; rewrite !high_not_space by reflexivity; reflexivity.
Qed.

Lemma splitLoop_words_clean (fuel : nat) :
  forall (s : string) (args args' : slice string) (current current' : string),
    proc0.splitLoop fuel s args current = (args', current') ->
    (forall w, In w (elems args) -> w <> EmptyString /\ props.hasSpace w = false) ->
    props.hasSpace current = false ->
    (forall w, In w (elems args') -> w <> EmptyString /\ props.hasSpace w = false)
    /\ props.hasSpace current' = false.
Proof.
  induction fuel as [| fuel IH]; intros s args args' current current' Hrun Hargs Hcur.
  - destruct s; injection Hrun as <- <-; auto.
  - destruct s as [| c s]; [injection Hrun as <- <-; auto |].
    cbn [proc0.splitLoop] in Hrun.
    destruct (utf8.DecodeRune (String c s)) as [char size].
    destruct (Z.eqb_spec char 32) as [-> | Hchar].
    + destruct (String.eqb_spec current "") as [Hempty | Hne]; cbn [negb] in Hrun.
      * exact (IH _ _ _ _ _ Hrun Hargs Hcur).
      * apply (IH _ _ _ _ _ Hrun); [| reflexivity].
        cbn [proc0.push elems]. intros w Hin. apply in_app_or in Hin.
        destruct Hin as [Hin | [<- | []]]; auto.
    + apply (IH _ _ _ _ _ Hrun Hargs).
      now rewrite hasSpace_app, Hcur, hasSpace_EncodeRune.
Qed.

Lemma splitArgs_clean (s w : string) :
  In w (elems (proc0.splitArgs s)) -> w <> EmptyString /\ props.hasSpace w = false.
Proof.
  unfold proc0.splitArgs. destruct (s =? "")%string; [intros [] |].
  destruct (proc0.splitLoop (String.length s) s None EmptyString) as [args current] eqn:Hrun.
  destruct (splitLoop_words_clean _ _ _ _ _ _ Hrun) as [Hargs Hcur];
    [intros ? [] | reflexivity |].
  destruct (String.eqb_spec current "") as [Hempty | Hne]; cbn [negb]; [apply Hargs |].
  cbn [proc0.push elems]. intros Hin. apply in_app_or in Hin.
  destruct Hin as [Hin | [<- | []]]; auto.
Qed.

(** X18: in the earlier revision the argument list crossed the re-exec
    boundary joined by spaces.  [splitArgs] gives only words that are
    not empty and hold no space, so a list with an empty argument or
    an argument with a space inside never comes back as it was; a list
    of arguments that are not empty, hold no space and are valid UTF-8
    comes back element for element. *)
Theorem splitArgs_joinArgs (args : slice string) :
  (forall s w, In w (elems (proc0.splitArgs s)) ->
               w <> EmptyString /\ props.hasSpace w = false)
  /\ (forallb props.plainWord (elems args) = true ->
      elems (proc0.splitArgs (proc0.joinArgs args)) = elems args)
  /\ (forall w, In w (elems args) -> w = EmptyString \/ props.hasSpace w = true ->
      proc0.splitArgs (proc0.joinArgs args) <> args).
Proof.
  split; [exact splitArgs_clean |]. split.
  - intros Hall. unfold proc0.joinArgs.
    destruct (elems args) as [| a rest]; [reflexivity |].
    cbn [forallb] in Hall. apply Bool.andb_true_iff in Hall. destruct Hall as [Ha Hrest].
    destruct (plainWord_parts a Ha) as (Hne & Hsp & Hval).
    rewrite joinFrom_app. unfold proc0.splitArgs.
    destruct a as [| c a]; [contradiction |]. cbn [append String.eqb].
    change (String c (a ++ props.spaced rest)) with (String c a ++ props.spaced rest)%string.
    destruct (splitLoop_word _ (String c a) (le_n _) Hval Hsp
                (String.length (String c a ++ props.spaced rest)) (props.spaced rest) None EmptyString
                (le_n _)) as (f' & Hf' & ->).
    cbn [append].
    destruct (splitLoop_words rest Hrest f' None (String c a) Hne Hf')
      as (args' & cur' & -> & Hc & He).
    destruct (String.eqb_spec cur' ""); [contradiction |]. cbn [negb proc0.push elems].
    exact He.
  - intros w Hin Hbad Heq. rewrite <- Heq in Hin.
    destruct (splitArgs_clean _ _ Hin) as [Hne Hsp].
    destruct Hbad as [-> | Hbad]; [contradiction | congruence].
Qed.

Lemma splitArgs_joinArgs_witness :
  elems (proc0.splitArgs (proc0.joinArgs (Some ["sh"; "-c"; "date"]%string)))
  = ["sh"; "-c"; "date"]%string
  /\ proc0.splitArgs (proc0.joinArgs (Some ["sh"; "-c"; "echo hi there"]%string))
     <> Some ["sh"; "-c"; "echo hi there"]%string.
Proof.
  split.
  - apply (splitArgs_joinArgs (Some ["sh"; "-c"; "date"]%string)). reflexivity.
  - apply (splitArgs_joinArgs (Some ["sh"; "-c"; "echo hi there"]%string))
      with (w := "echo hi there"%string).
    + simpl. auto.
    + right. reflexivity.
Defined.
(** ** Joining by hand *)

Lemma Join_cons (a : string) (rest : list string) (sep : string) :
  strings.Join (a :: rest) sep
  = (a ++ fold_right (fun x tail => sep ++ x ++ tail) EmptyString rest)%string.
Proof.
  revert a. induction rest as [| b rest IH]; intros a.
  - cbn. now rewrite str_app_nil_r.
  - cbn [fold_right]. rewrite <- IH. reflexivity.
Qed.

Lemma joinOptionsFrom_app (rest : list string) (result : string) :
  fs.joinOptionsFrom result rest
  = (result ++ fold_right (fun x tail => "," ++ x ++ tail) EmptyString rest)%string.
Proof.
  revert result. induction rest as [| a rest IH]; intros result; simpl.
  - now rewrite str_app_nil_r.
  - rewrite IH, !str_app_assoc. reflexivity.
Qed.

(** X19: the two loops that join strings by hand, [joinOptions] for
    the data of a mount and [joinArgs] of the earlier revision, give
    what [strings.Join] gives with the separators "," and " "; for a
    nil or empty list this is the empty string, which is why
    [createMount] passes no data for a mount point without options. *)
Theorem joinOptions_is_Join (l : slice string) :
  fs.joinOptions l = strings.Join (elems l) ","
  /\ proc0.joinArgs l = strings.Join (elems l) " "
  /\ (forall m, fs.Options m = l ->
        (if (0 <? len (fs.Options m))%nat then fs.joinOptions (fs.Options m) else EmptyString)
        = strings.Join (elems l) ",").
Proof.
  assert (Hopt : fs.joinOptions l = strings.Join (elems l) ",").
  { unfold fs.joinOptions. destruct (elems l) as [| a rest]; [reflexivity |].
    now rewrite joinOptionsFrom_app, Join_cons. }
  split; [exact Hopt |]. split.
  - unfold proc0.joinArgs. destruct (elems l) as [| a rest]; [reflexivity |].
    rewrite joinFrom_app, Join_cons. reflexivity.
  - intros m ->. destruct l as [[| a rest] |]; try reflexivity.
    cbn [len List.length]. exact Hopt.
Qed.
(** ** The bytes of GOMINI_ARGS *)

Lemma hasByteBelow_app (bound : Z) (s t : string) :
  props.hasByteBelow bound (s ++ t)
  = props.hasByteBelow bound s || props.hasByteBelow bound t.
Proof.
  induction s as [| c s IH]; simpl; [reflexivity |].
  now rewrite IH, Bool.orb_assoc.
Qed.

Lemma hexDigit_printable (n : Z) : (byteOf (json.hexDigit n) <? 32) = false.
Proof.
  unfold json.hexDigit. generalize (Z.to_nat n). intros k.
  do 17 (destruct k as [| k]; [reflexivity |]). reflexivity.
Qed.

(** A byte with the high bit set is no control character. *)
Lemma high_not_control (t x : Z) :
  Z.testbit t 7 = true -> (byteOf (toByte (Z.lor t x)) <? 32) = false.
Proof.
  intros Ht. apply Z.ltb_ge. rewrite byteOf_toByte.
  destruct (Z.lt_ge_cases (Z.land (Z.lor t x) 255) 32) as [Hlt | Hge]; [| exact Hge].
  exfalso.
  assert (Hbit : Z.testbit (Z.land (Z.lor t x) 255) 7 = true).
  { now rewrite Z.land_spec, Z.lor_spec, Ht. }
  rewrite (testbit_small (Z.land (Z.lor t x) 255) 5 7) in Hbit; [discriminate | | lia].
  pose proof (Z.land_nonneg (Z.lor t x) 255). change (2 ^ 5) with 32. lia.
Qed.

Lemma EncodeRune_no_control (r : Z) :
  ~ 0 <= r < 32 -> props.hasByteBelow 32 (utf8.EncodeRune r) = false.
Proof.
  intros Hr. unfold utf8.EncodeRune, utf8.encode3.
  destruct ((0 <=? r) && (r <=? utf8.rune1Max)) eqn:H1.
  - apply Bool.andb_true_iff in H1. destruct H1 as [Hlo Hhi].
    apply Z.leb_le in Hlo, Hhi. unfold utf8.rune1Max in Hhi.
    cbn [props.hasByteBelow]. rewrite byteOf_toByte, land_255_mod, Z.mod_small by lia.
    rewrite Bool.orb_false_r. apply Z.ltb_ge. lia.
  - repeat match goal with
           | |- context [if ?b then _ else _] => destruct b
           end;
      cbn [props.hasByteBelow]; rewrite !high_not_control by reflexivity; reflexivity.
Qed.

Lemma appendStep_no_control (s : string) :
  props.hasByteBelow 32 (fst (json.appendStep s)) = false.
Proof.
  destruct s as [| c rest]; [reflexivity |].
  unfold json.appendStep.
  destruct (Z.ltb_spec (byteOf c) utf8.RuneSelf) as [Hlow | Hhigh].
  - destruct (json.htmlSafeSet (byteOf c)) eqn:Hsafe.
    + unfold json.htmlSafeSet in Hsafe.
      repeat (apply Bool.andb_true_iff in Hsafe; destruct Hsafe as [Hsafe _]).
      apply Z.leb_le in Hsafe. cbn [fst props.hasByteBelow].
      rewrite Bool.orb_false_r. apply Z.ltb_ge. exact Hsafe.
    + destruct (Z.eqb_spec (byteOf c) 92) as [E | _];
        [cbn [orb fst props.hasByteBelow]; rewrite E; reflexivity |].
      destruct (Z.eqb_spec (byteOf c) 34) as [E | _];
        [cbn [orb fst props.hasByteBelow]; rewrite E; reflexivity |].
      cbn [orb].
      repeat match goal with
             | |- context [if ?b then _ else _] => destruct b; [reflexivity |]
             end.
      cbn [fst append props.hasByteBelow]. rewrite !hexDigit_printable. reflexivity.
  - destruct (utf8.DecodeRune (String c rest)) as [r size] eqn:Hdec.
    destruct ((r =? utf8.RuneError) && (size =? 1)%nat) eqn:Hok; [reflexivity |].
    destruct ((r =? 8232) || (r =? 8233)).
    + cbn [fst append props.hasByteBelow]. rewrite hexDigit_printable. reflexivity.
    + cbn [fst]. rewrite <- (EncodeRune_DecodeRune c rest r size Hdec Hok).
      apply EncodeRune_no_control. intros Hr.
      unfold utf8.RuneSelf in Hhigh.
      pose proof (DecodeRune_high_width c rest r size Hhigh Hdec Hok) as Hsize.
      pose proof (EncodeRune_DecodeRune c rest r size Hdec Hok) as Henc.
      unfold utf8.EncodeRune in Henc.
      replace ((0 <=? r) && (r <=? utf8.rune1Max)) with true in Henc
        by (symmetry; apply Bool.andb_true_iff; unfold utf8.rune1Max;
            split; apply Z.leb_le; lia).
      destruct size as [| size]; [lia |]. cbn in Henc. injection Henc as Hc _.
      apply (f_equal byteOf) in Hc. rewrite byteOf_toByte, land_255_mod in Hc.
      rewrite Z.mod_small in Hc by lia. lia.
Qed.

Lemma appendLoop_no_control (fuel : nat) (s : string) :
  props.hasByteBelow 32 (json.appendLoop fuel s) = false.
Proof.
  revert s. induction fuel as [| fuel IH]; intros s; [now destruct s |].
  destruct s as [| c rest]; [reflexivity |].
  cbn [json.appendLoop].
  pose proof (appendStep_no_control (String c rest)) as Hstep.
  destruct (json.appendStep (String c rest)) as [out rest']. cbn [fst] in Hstep.
  now rewrite hasByteBelow_app, IH, Hstep.
Qed.

Lemma appendString_no_control (s : string) :
  props.hasByteBelow 32 (json.appendString s) = false.
Proof.
  unfold json.appendString. cbn [props.hasByteBelow].
  now rewrite hasByteBelow_app, appendLoop_no_control.
Qed.

Lemma joinWith_no_control (l : list string) :
  props.hasByteBelow 32 (json.joinWith "," (map json.appendString l)) = false.
Proof.
  induction l as [| a [| b l] IH]; [reflexivity | |].
  - apply appendString_no_control.
  - change (map json.appendString (a :: b :: l))
      with (json.appendString a :: map json.appendString (b :: l)).
    cbn [json.joinWith]. cbn [map] in IH |- *.
    rewrite !hasByteBelow_app, appendString_no_control. exact IH.
Qed.

(** X20: whatever bytes the arguments hold, the text [Marshal] writes
    for them holds no control character, so no NUL byte and no line
    break: the value of GOMINI_ARGS in the environment of the child is
    a line of printable text. *)
Theorem GOMINI_ARGS_has_no_control_byte
    (cp : proc.ContainerProcess) (nsConfig : ns.NamespaceConfig)
    (environ : list string) (w : Z) :
  props.hasByteBelow 32 (json.Marshal (proc.Args cp)) = false
  /\ exists value,
       In ("GOMINI_ARGS=" ++ value)%string (sysio.CmdEnv (proc.initCommand cp nsConfig environ w))
       /\ props.hasByteBelow 32 value = false.
Proof.
  assert (Hm : props.hasByteBelow 32 (json.Marshal (proc.Args cp)) = false).
  { unfold json.Marshal. destruct (proc.Args cp) as [l |]; [| reflexivity].
    cbn [append props.hasByteBelow].
    now rewrite hasByteBelow_app, joinWith_no_control. }
  split; [exact Hm |].
  exists (json.Marshal (proc.Args cp)). split; [| exact Hm].
  unfold proc.initCommand. cbn [sysio.CmdEnv]. apply in_or_app. right.
  cbn. tauto.
Qed.
